(* ===== verification/_CoqProject ===== *)
-Q . S2P
Prelude.v
Models.v
World.v
Database.v
Gateway.v
Quantity.v
Dispatcher.v
Pipeline.v
Api.v
Routes.v
Orders.v
PipelineSpec.v
Frontend.v
Pages.v
Streamlit.v
Startup.v
Docs.v
StoreTyping.v
