(* ===== verification/Prelude.v ===== *)
(** * Verification of the TradingView alert bridge (hibana2077/Bridge)

    ** The program
    A FastAPI backend ([src/bridge/backend/app]) receives TradingView
    webhook alerts and turns each into an order on a cryptocurrency exchange
    through ccxt; a Streamlit frontend ([src/bridge/frontend/app/main.py])
    edits the data through the backend's HTTP API.  The backend's parts:
    - [models.py]: pydantic models and the enums of exchanges, order types
      and position sides;
    - [database.py]: Redis as the credential vault (Fernet-encrypted API keys
      under [user:<u>:exchange:<e>]), the configuration store
      ([user:<u>:alert_config:<n>]) and the history store
      ([alert:<u>:<timestamp>]);
    - [main.py]: the client cache [exchange_clients] and
      [get_exchange_client]; the endpoints; and the webhook handler
      [process_tradingview_alert], which reads the configuration, gets the
      client, sizes the order (fixed or percentage of the quote balance),
      places it and writes the history record.

    ** The development (library root S2P, files in dependency order)
    - [Prelude]: Python exceptions ([exn]: [HTTPException] or any other
      exception by class and [str(e)]), the state/exception monad [PyM S A]
      (a raise keeps the state reached, as Python does not roll back), the
      combinators [within R m] / [preserves P m] / [on_raise R m] that prove
      frame properties step by step, total-correctness triples
      [hoare P m Q] and [total P m], the two-run simulation [sim R m]
      (related states give equal results and related states), Python's [str.split]/[join] with the
      injectivity of [a + ":" + b] keys, and float truthiness on [Q].
    - [Models]: the enums with their values and [Enum(value)] lookup, the
      models as records, [config_dict] (the stored JSON form) and the
      response validation [config_of_dict].
    - [World]: the collaborators as type classes ([Fernet] with its
      decryption law, [Ccxt], [ExchangeApi]), the [World] (Redis keyspace as a
      [gmap], the client cache, [ENCRYPTION_KEY], the clock, the log of
      exchange calls) and the primitive effects; concrete instances used only
      inside example sections.
    - [Database]: every function of [database.py].
    - [Gateway]: [get_exchange_client] (main.py 45-70).
    - [Quantity]: the sizing of main.py 177-195 ([determine_quantity]).
    - [Dispatcher]: the order placement of main.py 197-235 ([execute_order]).
    - [Pipeline]: [process_tradingview_alert] = [try_except execute_alert
      handle_error] (main.py 158-279).
    - [Api]: every endpoint and [handle]; the server as [sys_step]
      (a request runs to completion, the clock ticks, the process restarts)
      and [req_step]; the cache invariant over reachable states.
    - [Routes]: the route table of [main.py]'s decorators ([routes]),
      Starlette's resolution ([dispatch]: full match, 405, trailing-slash
      redirect, 404) and the frontend's endpoint strings split by httpx
      ([url_route]); Python's [str(int)] and the [int] validation of a
      query value through Stdlib's decimal strings.
    - [Orders]: the graded relation [orders_le n] (the call log grows by at
      most [n] [create_order]s) and [serve], requests handled one after
      another.
    - [PipelineSpec]: the abstract contract [alert_outcome] of one webhook
      call (rejected and nothing written / failure record / success record
      with the order id) and the refinement of it by the handler.
    - [Frontend]: the configuration form's [config_data]
      ([build_config_data], frontend main.py 208-256).
    - [Pages]: the frontend's HTTP helpers [api_get]/[api_post]/[api_delete]
      (frontend 28-65) over the backend's [handle] through FastAPI's reply
      layer [http_reply], the frontend state [Front] (backend, reachability,
      messages shown), and the request-driven page steps: API key form and
      status table (132-177), configuration submission (236-264), history
      table with its record selector (306-335, [st_selectbox_range]).
    - [Streamlit]: Streamlit's rerun semantics ([st_button] true only in
      the run of its click, [st_checkbox] keeping its value only while it
      stays rendered) as the state [Ui] over [Front]; the pages
      [show_api_keys], [show_alert_configs] (with the per-configuration
      delete loop [config_entries]), the history page with its slider
      ([st_slider], 296-303), the dashboard's API
      check and the router [app_run]; [app_session] runs one script run per
      interaction.
    - [Startup]: the settings [database.py] reads from the environment at
      import (lines 7-24: [redis_settings], [startup_key]), the frontend's
      [api_base_url] (line 10) with the dashboard's [webhook_url] (line
      107, which reaches the webhook route for an origin
      [http://host] and answers 404 for one with a trailing slash) and
      [start_process], the restart of [Api]
      under the key the environment gives; every handler but the webhook is
      oblivious to the client cache, and every page step to it through the
      frontend ([sim] lemmas over [same_but_clients], [front_sim],
      [ui_sim]).
    - [Docs]: the documentation page's code blocks ([show_documentation],
      337-370) and the alert its payload template yields ([doc_alert]).
    - [StoreTyping]: the typing of the Redis namespaces, and the
      completion of the frontend's page runs on a well-typed store.

    ** What is proved
    - Pipeline: composition of the components on the success path (C1);
      only [HTTPException]s escape and they write nothing (C2); unknown
      configuration gives 404 without a record (C14).
    - Startup: with [ENCRYPTION_KEY] set to the running key, a restart of
      the backend is invisible to the frontend, whatever pages are run
      (C3); without it the restart breaks the stored keys (C18, C35).
    - Quantity: fixed quantity wins, unchecked sign (C4); percentage path
      with alert price (C5) or ticker (C6), with the exact exchange calls.
    - Dispatcher: market and limit mapping (C9, C10), missing price (C12),
      unknown order types place nothing and succeed (C13).
    - Gateway and cache: hit (C7), deleted keys do not revoke a cached client
      (C8), cache invariant on all
      reachable states (C16), cached clients never replaced between restarts
      (C17), restart under a new key breaks stored credentials (C18).
    - Store: API-key round trip (C19), keyspace collision (C20), history
      listing bounded (C21), colon names misnamed by the
      listing (C23), duplicate alerts and timestamp-keyed records (C24),
      the history of a user
      leaking the records of user ids extending it (C29).
    - Quantity errors: missing quote balance (C27), zero price (C28).
    - Frontend: at most one of quantity and percentage is posted (C26).
    - Store listings against reference definitions: the configuration loop
      equals [configs_of] (C30); colon-free names are always listed (C31);
      the namespaces stay well typed over all reachable states (C32).
    - Orders: a sequence of requests places at most one order per webhook
      and none for other endpoints (C33).
    - Frontend and backend composed: saved keys show as configured (C34);
      after a restart with a new key a configured exchange vanishes from the
      status table (C35); a submitted configuration reads back as posted
      (C36); the history page lists the backend's records in order and
      its selector shows the picked record without an [IndexError] (C37);
      every position of its slider gives a limit the backend accepts, so
      the page never shows the 422 (C25);
      over any sequence of reruns the frontend never removes a Redis key,
      because both delete flows read their confirmation checkbox unticked
      (C38); on every backend state reached through the API from a
      well-typed store, every sequence of page runs completes without an
      uncaught exception (C39).
    - Routing: every URL the frontend builds reaches the request the
      development takes it for (C15); configuration names with ['/'] are
      unreachable by URL and names [a?b] reach configuration [a] (C22).
    - Alert fields: the handler reads only the configuration name, the
      user id and the price of an alert, so the symbol and message of the
      documented payload change nothing (C11).
    - Contract: the handler refines the abstract outcome relation of a
      webhook call, with at most one order and the environment kept (C40).

    ** Modelling choices
    Python floats are rationals [Q]: rounding is not modelled, division by
    zero raises [ZeroDivisionError] as in Python.  JSON (de)serialisation is
    the identity on the records ([Stored]); a stored value of the wrong shape
    raises the [KeyError] of its first missing field.  Redis never fails;
    [keys] with a trailing-star pattern is the prefix filter of the keyspace in unspecified order.
    Fernet is deterministic here (real tokens are randomised; only the
    decryption law is used).  The exchange answers each call from the log of
    earlier calls.  No fuel is needed: every function is structural.

    ** Not modelled
    Layout and rendering calls (headers, markdown, dataframes, the
    dashboard's system information block) and [st.rerun] (UI only; the pages call the backend
    with the [Request] their URL selects, which [Routes] justifies for
    plain path parameters, and widget values other than the delete flows'
    buttons and checkboxes are inputs of a run), TradingView's filling of
    the documented template and the JSON parsing of the payload
    ([doc_alert] is their result), URL percent-encoding, the
    ccxt library and
    exchange protocols, the Redis server, pydantic validation beyond the enum
    lookups, the Redis connection object (only its settings are modelled),
    and the uvicorn event loop (handlers are atomic because they
    are [async def] without [await]). *)

From stdpp Require Import base gmap strings list sorting pretty.
From Stdlib Require Import QArith String Ascii ZArith Lia.

(** ** Python exceptions and the state/exception monad *)

(** The exceptions the backend raises or catches: FastAPI's [HTTPException]
    (status code, detail) and every other Python exception, kept by class
    name and by [str(e)], which is what the handlers print. *)
Inductive exn :=
| HTTPException (status_code : Z) (detail : string)
| PyException (cls : string) (msg : string).

Inductive outcome (A : Type) :=
| Ok (a : A)
| Raise (e : exn).
Arguments Ok {A} a.
Arguments Raise {A} e.

(** [str(e)]: Starlette prints an [HTTPException] as ["<code>: <detail>"]. *)
Definition exn_str (e : exn) : string :=
  match e with
  | HTTPException code detail => String.append (pretty code) (String.append ": " detail)
  | PyException _ msg => msg
  end.

Definition outcome_map {A B} (f : A -> B) (o : outcome A) : outcome B :=
  match o with Ok a => Ok (f a) | Raise e => Raise e end.

(** A computation on a state [S] that returns or raises; the state reached
    before a raise is kept, as in Python (side effects are not rolled back). *)
Definition PyM (S A : Type) : Type := S -> outcome A * S.

Section Monad.
Context {S : Type}.

Definition ret {A} (a : A) : PyM S A := fun s => (Ok a, s).

Definition bind {A B} (m : PyM S A) (k : A -> PyM S B) : PyM S B :=
  fun s => match m s with
           | (Ok a, s') => k a s'
           | (Raise e, s') => (Raise e, s')
           end.

Definition raise {A} (e : exn) : PyM S A := fun s => (Raise e, s).

Definition gets {A} (f : S -> A) : PyM S A := fun s => (Ok (f s), s).

Definition modify (f : S -> S) : PyM S unit := fun s => (Ok tt, f s).

(** [try: m except e: h e] *)
Definition try_except {A} (m : PyM S A) (h : exn -> PyM S A) : PyM S A :=
  fun s => match m s with
           | (Ok a, s') => (Ok a, s')
           | (Raise e, s') => h e s'
           end.

(** The state reached by a computation, whatever it returns. *)
Definition final {A} (m : PyM S A) (s : S) : S := snd (m s).
End Monad.

Declare Scope py_scope.
Delimit Scope py_scope with py.
Notation "x <- m ;; k" := (bind m (fun x => k))
  (at level 100, m at next level, right associativity) : py_scope.
Notation "m ;;; k" := (bind m (fun _ => k))
  (at level 100, right associativity) : py_scope.
Open Scope py_scope.

(** ** Running a computation step by step *)

Create HintDb py.

Section Run.
Context {S A B : Type}.

Lemma run_bind_ok (m : PyM S A) (k : A -> PyM S B) s a s' :
  m s = (Ok a, s') -> bind m k s = k a s'.
Proof. intros H. unfold bind. by rewrite H. Qed.

Lemma run_bind_raise (m : PyM S A) (k : A -> PyM S B) s e s' :
  m s = (Raise e, s') -> bind m k s = (Raise e, s').
Proof. intros H. unfold bind. by rewrite H. Qed.

Lemma run_try_ok (m : PyM S A) h s a s' :
  m s = (Ok a, s') -> try_except m h s = (Ok a, s').
Proof. intros H. unfold try_except. by rewrite H. Qed.

Lemma run_try_raise (m : PyM S A) h s e s' :
  m s = (Raise e, s') -> try_except m h s = h e s'.
Proof. intros H. unfold try_except. by rewrite H. Qed.
End Run.

(** A property of states kept by a computation, whatever it returns; the
    combinators keep it, so invariants are proved operation by operation. *)
Definition preserves {S A} (P : S -> Prop) (m : PyM S A) : Prop :=
  forall s, P s -> P (final m s).

Section Preserves.
Context {S : Type} (P : S -> Prop).

Lemma preserves_ret {A} (a : A) : preserves P (ret a).
Proof. by intros s. Qed.

Lemma preserves_raise {A} e : preserves P (@raise S A e).
Proof. by intros s. Qed.

Lemma preserves_gets {A} (f : S -> A) : preserves P (gets f).
Proof. by intros s. Qed.

Lemma preserves_modify f : (forall s, P s -> P (f s)) -> preserves P (modify f).
Proof. intros Hf s. apply Hf. Qed.

Lemma preserves_bind {A B} (m : PyM S A) (k : A -> PyM S B) :
  preserves P m -> (forall a, preserves P (k a)) -> preserves P (bind m k).
Proof.
  intros Hm Hk s Hs. unfold final, bind.
  specialize (Hm s Hs). unfold final in Hm.
  destruct (m s) as [[a|e] s']; [apply Hk|]; done.
Qed.

Lemma preserves_try {A} (m : PyM S A) h :
  preserves P m -> (forall e, preserves P (h e)) -> preserves P (try_except m h).
Proof.
  intros Hm Hh s Hs. unfold final, try_except.
  specialize (Hm s Hs). unfold final in Hm.
  destruct (m s) as [[a|e] s']; [|apply Hh]; done.
Qed.
End Preserves.

#[export] Hint Resolve preserves_ret preserves_raise preserves_gets
  preserves_bind preserves_try : py.

(** Split a goal [preserves P m] along the structure of [m]. *)
Ltac preserves_split :=
  repeat match goal with
  | |- preserves _ (bind _ _) => apply preserves_bind; [|intro]
  | |- preserves _ (try_except _ _) => apply preserves_try; [|intro]
  | |- preserves _ (ret _) => apply preserves_ret
  | |- preserves _ (raise _) => apply preserves_raise
  | |- preserves _ (gets _) => apply preserves_gets
  | |- preserves _ (match ?x with _ => _ end) => destruct x
  | |- preserves _ (if ?b then _ else _) => destruct b
  end.

(** ** Total correctness

    [hoare P m Q]: from a state satisfying [P], [m] returns (raises no
    exception) a value and a state satisfying [Q].  [total P m] is the case
    where [P] is kept and nothing is said of the value. *)
Definition hoare {S A} (P : S -> Prop) (m : PyM S A) (Q : A -> S -> Prop) : Prop :=
  forall s, P s -> exists a s', m s = (Ok a, s') /\ Q a s'.

Definition total {S A} (P : S -> Prop) (m : PyM S A) : Prop := hoare P m (fun _ => P).

Section Hoare.
Context {S : Type}.

Lemma hoare_ret {A} (Q : A -> S -> Prop) a : hoare (Q a) (ret a) Q.
Proof. intros s Hs. by exists a, s. Qed.

Lemma hoare_bind {A B} P (Q : A -> S -> Prop) (R : B -> S -> Prop) (m : PyM S A) (k : A -> PyM S B) :
  hoare P m Q -> (forall a, hoare (Q a) (k a) R) -> hoare P (bind m k) R.
Proof.
  intros Hm Hk s Hs. destruct (Hm s Hs) as (a & s1 & E & Hq).
  destruct (Hk a s1 Hq) as (b & s2 & E2 & Hr). exists b, s2. unfold bind. by rewrite E.
Qed.

Lemma hoare_pre {A} (P P' : S -> Prop) (Q : A -> S -> Prop) m :
  (forall s, P' s -> P s) -> hoare P m Q -> hoare P' m Q.
Proof. intros HP Hm s Hs. by apply Hm, HP. Qed.

Lemma total_ret (P : S -> Prop) {A} (a : A) : total P (ret a).
Proof. apply (hoare_ret (fun _ => P)). Qed.

Lemma total_gets (P : S -> Prop) {A} (f : S -> A) : total P (gets f).
Proof. intros s Hs. by exists (f s), s. Qed.

Lemma total_modify (P : S -> Prop) f : (forall s, P s -> P (f s)) -> total P (modify f).
Proof. intros Hf s Hs. exists tt, (f s). auto. Qed.

Lemma total_bind (P : S -> Prop) {A B} (m : PyM S A) (k : A -> PyM S B) :
  total P m -> (forall a, total P (k a)) -> total P (bind m k).
Proof. apply hoare_bind. Qed.

(** A [try] whose handler returns: the body need only keep [P]. *)
Lemma total_try (P : S -> Prop) {A} (m : PyM S A) h :
  preserves P m -> (forall e, total P (h e)) -> total P (try_except m h).
Proof.
  intros Hm Hh s Hs. specialize (Hm s Hs). unfold final, try_except in *.
  destruct (m s) as [[a|e] s']; [by exists a, s'|by apply Hh].
Qed.
End Hoare.

(** Split a goal [total P m] along the structure of [m]. *)
Ltac total_split :=
  repeat match goal with
  | |- total _ (bind _ _) => apply total_bind; [|intro]
  | |- total _ (try_except _ _) => apply total_try; [|intro]
  | |- total _ (ret _) => apply total_ret
  | |- total _ (gets _) => apply total_gets
  | |- total _ (match ?x with _ => _ end) => destruct x
  | |- total _ (if ?b then _ else _) => destruct b
  end.

(** ** Two runs that agree

    [sim R m]: from [R]-related states, [m] gives the same outcome and
    [R]-related states; a computation that does not read what [R] lets
    differ. *)
Definition sim {S A} (R : S -> S -> Prop) (m : PyM S A) : Prop :=
  forall s1 s2, R s1 s2 -> (m s1).1 = (m s2).1 /\ R (m s1).2 (m s2).2.

Section Sim.
Context {S : Type} (R : S -> S -> Prop).

Lemma sim_ret {A} (a : A) : sim R (ret a).
Proof. by intros s1 s2 H. Qed.

Lemma sim_raise {A} e : sim R (@raise S A e).
Proof. by intros s1 s2 H. Qed.

Lemma sim_gets {A} (f : S -> A) : (forall s1 s2, R s1 s2 -> f s1 = f s2) -> sim R (gets f).
Proof. intros Hf s1 s2 H. simpl. by rewrite (Hf _ _ H). Qed.

Lemma sim_modify f : (forall s1 s2, R s1 s2 -> R (f s1) (f s2)) -> sim R (modify f).
Proof. intros Hf s1 s2 H. simpl. auto. Qed.

Lemma sim_bind {A B} (m : PyM S A) (k : A -> PyM S B) :
  sim R m -> (forall a, sim R (k a)) -> sim R (bind m k).
Proof.
  intros Hm Hk s1 s2 H. destruct (Hm s1 s2 H) as [Eo Hr]. unfold bind.
  destruct (m s1) as [o1 t1], (m s2) as [o2 t2]; simpl in *; subst o2.
  destruct o1 as [a|e]; [by apply Hk|done].
Qed.

Lemma sim_try {A} (m : PyM S A) h :
  sim R m -> (forall e, sim R (h e)) -> sim R (try_except m h).
Proof.
  intros Hm Hh s1 s2 H. destruct (Hm s1 s2 H) as [Eo Hr]. unfold try_except.
  destruct (m s1) as [o1 t1], (m s2) as [o2 t2]; simpl in *; subst o2.
  destruct o1 as [a|e]; [done|by apply Hh].
Qed.
End Sim.

(** Split a goal [sim R m] along the structure of [m]. *)
Ltac sim_split :=
  repeat match goal with
  | |- sim _ (bind _ _) => apply sim_bind; [|intro]
  | |- sim _ (try_except _ _) => apply sim_try; [|intro]
  | |- sim _ (ret _) => apply sim_ret
  | |- sim _ (raise _) => apply sim_raise
  | |- sim _ (match ?x with _ => _ end) => destruct x
  | |- sim _ (if ?b then _ else _) => destruct b
  end.

(** ** Python strings *)

Open Scope string_scope.
Open Scope list_scope.

(** stdpp blocks [simpl] on [String.append]; the string lemmas below compute it. *)
#[global] Arguments String.append : simpl nomatch.

(** [c in s] for a one-character string [c]. *)
Fixpoint str_has (c : ascii) (s : string) : bool :=
  match s with
  | EmptyString => false
  | String a s' => Ascii.eqb a c || str_has c s'
  end.

(** [s.split(c)] for a one-character separator: every occurrence splits,
    empty pieces are kept, the result is never empty. *)
Fixpoint py_split (c : ascii) (s : string) : list string :=
  match s with
  | EmptyString => [EmptyString]
  | String a s' =>
      let rest := py_split c s' in
      if Ascii.eqb a c then EmptyString :: rest
      else match rest with
           | r :: rs => String a r :: rs
           | [] => [String a EmptyString]
           end
  end.

(** [c.join(parts)]. *)
Fixpoint py_join (c : ascii) (l : list string) : string :=
  match l with
  | [] => EmptyString
  | [x] => x
  | x :: r => x +:+ String c (py_join c r)
  end.

Lemma py_split_nonempty c s : py_split c s <> [].
Proof.
  induction s as [|a s IH]; simpl; [done|].
  destruct (Ascii.eqb a c); [done|]. by destruct (py_split c s).
Qed.

Lemma py_join_cons_char c a r rs :
  py_join c (String a r :: rs) = String a (py_join c (r :: rs)).
Proof. by destruct rs. Qed.

(** Joining the pieces of a split gives the string back. *)
Lemma py_join_split c s : py_join c (py_split c s) = s.
Proof.
  induction s as [|a s IH]; simpl; [done|].
  destruct (Ascii.eqb a c) eqn:E.
  - apply Ascii.eqb_eq in E as ->.
    destruct (py_split c s) eqn:Es; [by destruct (py_split_nonempty c s)|].
    by rewrite <- IH.
  - destruct (py_split c s) as [|r rs] eqn:Es; [by destruct (py_split_nonempty c s)|].
    by rewrite py_join_cons_char, IH.
Qed.

Lemma py_split_no_sep c s : str_has c s = false -> py_split c s = [s].
Proof.
  induction s as [|a s IH]; simpl; [done|].
  intros [Ha Hs]%orb_false_iff. rewrite Ha, IH by done. done.
Qed.

(** Splitting [a + c + b] splits [a] and [b] separately. *)
Lemma py_split_app_sep c a b :
  py_split c (a +:+ String c b) = py_split c a ++ py_split c b.
Proof.
  induction a as [|x a IH]; simpl.
  - by rewrite Ascii.eqb_refl.
  - rewrite IH. destruct (Ascii.eqb x c); [done|].
    destruct (py_split c a) eqn:E; [by destruct (py_split_nonempty c a)|]. done.
Qed.

(** Strings [a + c + b] with no [c] in [b] determine [a] and [b]: the
    f-string keys of the backend are injective in this case. *)
Lemma sep_append_inj c a1 b1 a2 b2 :
  str_has c b1 = false -> str_has c b2 = false ->
  a1 +:+ String c b1 = a2 +:+ String c b2 -> a1 = a2 /\ b1 = b2.
Proof.
  intros H1 H2 Heq.
  apply (f_equal (py_split c)) in Heq.
  rewrite !py_split_app_sep, (py_split_no_sep _ _ H1), (py_split_no_sep _ _ H2) in Heq.
  apply app_inj_tail in Heq as [Ha Hb]. inversion Hb; subst.
  split; [|done].
  by rewrite <- (py_join_split c a1), <- (py_join_split c a2), Ha.
Qed.

Lemma string_app_inj_l p a b : p +:+ a = p +:+ b -> a = b.
Proof. induction p as [|x p IH]; simpl; [done|]. intros H. inversion H. auto. Qed.

Lemma string_app_assoc a b c : (a +:+ b) +:+ c = a +:+ (b +:+ c).
Proof. induction a as [|x a IH]; simpl; congruence. Qed.

Lemma string_app_nil_r a : a +:+ "" = a.
Proof. induction a as [|x a IH]; simpl; congruence. Qed.

Lemma str_has_app c a b : str_has c (a +:+ b) = str_has c a || str_has c b.
Proof. induction a as [|x a IH]; simpl; [done|]. by rewrite IH, orb_assoc. Qed.

(** [s.startswith(p)] *)
Fixpoint str_prefix (p s : string) : bool :=
  match p, s with
  | EmptyString, _ => true
  | String a p', String b s' => Ascii.eqb a b && str_prefix p' s'
  | String _ _, EmptyString => false
  end.

Lemma str_prefix_app p s : str_prefix p (p +:+ s) = true.
Proof. induction p as [|a p IH]; simpl; [done|]. by rewrite Ascii.eqb_refl. Qed.

Lemma str_prefix_spec p s : str_prefix p s = true -> exists r, s = p +:+ r.
Proof.
  revert s. induction p as [|a p IH]; intros s; simpl; [by exists s|].
  destruct s as [|b s]; [done|].
  intros [->%Ascii.eqb_eq Hp]%andb_true_iff.
  destruct (IH s Hp) as [r ->]. by exists r.
Qed.

Create Rewrite HintDb py_str.
#[export] Hint Rewrite py_join_split py_split_app_sep str_has_app : py_str.

(** ** Python floats, kept as rationals *)

(** Truth value of a float: [0.0] is false, every other value true. *)
Definition truthy (x : Q) : bool := negb (Qeq_bool x 0).

(** Truth value of an optional float ([None] is false). *)
Definition opt_truthy (o : option Q) : bool :=
  match o with Some x => truthy x | None => false end.

(** [a if a else b] *)
Definition py_or (a b : option Q) : option Q := if opt_truthy a then a else b.

Lemma truthy_true x : truthy x = true <-> ~ (x == 0)%Q.
Proof.
  unfold truthy. rewrite negb_true_iff. split.
  - intros H Hx. apply Qeq_bool_iff in Hx. congruence.
  - intros H. destruct (Qeq_bool x 0) eqn:E; [|done].
    apply Qeq_bool_iff in E. contradiction.
Qed.

Lemma opt_truthy_Some o : opt_truthy o = true -> exists x, o = Some x /\ truthy x = true.
Proof. destruct o as [x|]; simpl; [eauto|done]. Qed.

Lemma py_or_truthy a b : opt_truthy a = true -> py_or a b = a.
Proof. unfold py_or. by intros ->. Qed.

Lemma py_or_falsy a b : opt_truthy a = false -> py_or a b = b.
Proof. unfold py_or. by intros ->. Qed.

#[export] Hint Resolve opt_truthy_Some : py.

(** ** Relations between the state before and after a computation

    [within R m]: every run of [m] goes from a state to an [R]-related
    state.  With [R] a preorder the combinators keep it, which proves the
    frame properties (what a handler leaves alone) one operation at a time. *)
Definition within {S A} (R : S -> S -> Prop) (m : PyM S A) : Prop :=
  forall s, R s (final m s).

Section Within.
Context {S : Type} (R : S -> S -> Prop) `{!PreOrder R}.

Lemma within_ret {A} (a : A) : within R (ret a).
Proof. intros s. unfold final, ret. simpl. reflexivity. Qed.

Lemma within_raise {A} e : within R (@raise S A e).
Proof. intros s. unfold final, raise. simpl. reflexivity. Qed.

Lemma within_gets {A} (f : S -> A) : within R (gets f).
Proof. intros s. unfold final, gets. simpl. reflexivity. Qed.

Lemma within_bind {A B} (m : PyM S A) (k : A -> PyM S B) :
  within R m -> (forall a, within R (k a)) -> within R (bind m k).
Proof.
  intros Hm Hk s. specialize (Hm s). unfold final, bind in *.
  destruct (m s) as [[a|e] s']; simpl in *; [|done].
  etrans; [exact Hm|]. apply Hk.
Qed.

Lemma within_try {A} (m : PyM S A) h :
  within R m -> (forall e, within R (h e)) -> within R (try_except m h).
Proof.
  intros Hm Hh s. specialize (Hm s). unfold final, try_except in *.
  destruct (m s) as [[a|e] s']; simpl in *; [done|].
  etrans; [exact Hm|]. apply Hh.
Qed.
End Within.

(** Split a goal [within R m] along the structure of [m]. *)
Ltac within_split :=
  repeat match goal with
  | |- within _ (bind _ _) => apply within_bind; [..|intro]
  | |- within _ (try_except _ _) => apply within_try; [..|intro]
  | |- PreOrder _ => typeclasses eauto
  | |- within _ (ret _) => apply within_ret
  | |- within _ (raise _) => apply within_raise
  | |- within _ (gets _) => apply within_gets
  | |- within _ (match ?x with _ => _ end) => destruct x
  | |- within _ (if ?b then _ else _) => destruct b
  end.

(** [on_raise R m]: every run of [m] that raises goes to an [R]-related
    state.  It proves that an error path has no effect on a part of the
    state, for a computation whose successful end does have one. *)
Definition on_raise {S A} (R : S -> S -> Prop) (m : PyM S A) : Prop :=
  forall s e s', m s = (Raise e, s') -> R s s'.

Section OnRaise.
Context {S : Type} (R : S -> S -> Prop) `{!PreOrder R}.

Lemma within_on_raise {A} (m : PyM S A) : within R m -> on_raise R m.
Proof. intros Hm s e s' Hs. specialize (Hm s). unfold final in Hm. by rewrite Hs in Hm. Qed.

Lemma on_raise_bind {A B} (m : PyM S A) (k : A -> PyM S B) :
  within R m -> (forall a, on_raise R (k a)) -> on_raise R (bind m k).
Proof.
  intros Hm Hk s e s' Hs. specialize (Hm s). unfold final, bind in *.
  destruct (m s) as [[a|e0] s1]; simpl in *.
  - etrans; [exact Hm|]. by eapply Hk.
  - by inversion Hs; subst.
Qed.

Lemma on_raise_ret {A} (a : A) : on_raise R (ret a).
Proof. by intros s e s' Hs. Qed.

Lemma on_raise_raise {A} e : on_raise R (@raise S A e).
Proof. intros s e' s' Hs. inversion Hs. reflexivity. Qed.
End OnRaise.

(** Inverting a run that returned. *)
Lemma bind_ok_inv {S A B} (m : PyM S A) (k : A -> PyM S B) s b s' :
  bind m k s = (Ok b, s') -> exists a s1, m s = (Ok a, s1) /\ k a s1 = (Ok b, s').
Proof. unfold bind. destruct (m s) as [[a|e] s1]; [eauto|done]. Qed.

Lemma within_run {S A} (R : S -> S -> Prop) (m : PyM S A) s r s' :
  within R m -> m s = (r, s') -> R s s'.
Proof. intros Hm Hs. specialize (Hm s). unfold final in Hm. by rewrite Hs in Hm. Qed.

(** Decompose a hypothesis [bind m k s = (Ok b, s')] into the runs of its
    steps, as long as the next step is a [bind]. *)
Ltac ok_steps H :=
  repeat match type of H with
  | bind _ _ _ = (Ok _, _) =>
      let a := fresh "a" in let s := fresh "s" in let Hr := fresh "Hrun" in
      apply bind_ok_inv in H as (a & s & Hr & H)
  end.

Lemma within_mono {S A} (R R' : S -> S -> Prop) (m : PyM S A) :
  (forall s s', R s s' -> R' s s') -> within R m -> within R' m.
Proof. intros HR Hm s. apply HR, Hm. Qed.

(** Sequencing two different relations: [m] relates by [R1], the rest by
    [R2], the whole by [R3]. *)
Lemma within_bind_seq {S A B} (R1 R2 R3 : S -> S -> Prop) (m : PyM S A) (k : A -> PyM S B) :
  (forall s1 s2 s3, R1 s1 s2 -> R2 s2 s3 -> R3 s1 s3) -> (forall s s', R1 s s' -> R3 s s') ->
  within R1 m -> (forall a, within R2 (k a)) -> within R3 (bind m k).
Proof.
  intros Hc Hi Hm Hk s. specialize (Hm s). unfold final, bind in *.
  destruct (m s) as [[a|e] s1]; simpl in *; [|by apply Hi].
  eapply Hc; [exact Hm|apply Hk].
Qed.

Lemma within_try_seq {S A} (R1 R2 R3 : S -> S -> Prop) (m : PyM S A) h :
  (forall s1 s2 s3, R1 s1 s2 -> R2 s2 s3 -> R3 s1 s3) -> (forall s s', R1 s s' -> R3 s s') ->
  within R1 m -> (forall e, within R2 (h e)) -> within R3 (try_except m h).
Proof.
  intros Hc Hi Hm Hh s. specialize (Hm s). unfold final, try_except in *.
  destruct (m s) as [[a|e] s1]; simpl in *; [by apply Hi|].
  eapply Hc; [exact Hm|apply Hh].
Qed.
