(* ===== verification/Models.v ===== *)
(** * Models: the pydantic models of [backend/app/models.py]

    The three string enums with their values and the lookup by value that
    pydantic performs when it validates a request, and the request/response
    models as records.  A Python [float] is a rational ([Q]); an [Optional]
    field is an [option]. *)

From stdpp Require Import base gmap strings list.
From Stdlib Require Import QArith String Ascii.
From S2P Require Import Prelude.
Open Scope string_scope.
Open Scope list_scope.

(** ** Enums *)

Inductive ExchangeEnum :=
| BINANCE | COINBASE | BYBIT | OKEX | KUCOIN | BITFINEX | FTX | HUOBI.

Definition exchange_value (e : ExchangeEnum) : string :=
  match e with
  | BINANCE => "binance" | COINBASE => "coinbase" | BYBIT => "bybit"
  | OKEX => "okex" | KUCOIN => "kucoin" | BITFINEX => "bitfinex"
  | FTX => "ftx" | HUOBI => "huobi"
  end.

(** The members in declaration order, as [for e in ExchangeEnum] lists them. *)
Definition all_exchanges : list ExchangeEnum :=
  [BINANCE; COINBASE; BYBIT; OKEX; KUCOIN; BITFINEX; FTX; HUOBI].

Inductive OrderTypeEnum := MARKET | LIMIT | STOP_LOSS | TAKE_PROFIT.

Definition order_type_value (t : OrderTypeEnum) : string :=
  match t with
  | MARKET => "market" | LIMIT => "limit"
  | STOP_LOSS => "stop_loss" | TAKE_PROFIT => "take_profit"
  end.

Definition all_order_types : list OrderTypeEnum := [MARKET; LIMIT; STOP_LOSS; TAKE_PROFIT].

Inductive PositionSideEnum := LONG | SHORT.

Definition position_side_value (p : PositionSideEnum) : string :=
  match p with LONG => "long" | SHORT => "short" end.

Definition all_position_sides : list PositionSideEnum := [LONG; SHORT].

#[export] Instance ExchangeEnum_eq_dec : EqDecision ExchangeEnum.
Proof. solve_decision. Defined.
#[export] Instance OrderTypeEnum_eq_dec : EqDecision OrderTypeEnum.
Proof. solve_decision. Defined.
#[export] Instance PositionSideEnum_eq_dec : EqDecision PositionSideEnum.
Proof. solve_decision. Defined.

(** [Enum(value)]: the member whose value is [s], found by scanning the
    members in order; pydantic rejects the request when there is none. *)
Definition enum_lookup {E} (value : E -> string) (members : list E) (s : string) : option E :=
  find (fun e => String.eqb (value e) s) members.

Definition exchange_of_value := enum_lookup exchange_value all_exchanges.
Definition order_type_of_value := enum_lookup order_type_value all_order_types.
Definition position_side_of_value := enum_lookup position_side_value all_position_sides.

(** ** Request and response models *)

Record ApiKeyModel := {
  ak_exchange : ExchangeEnum;
  ak_api_key : string;
  ak_api_secret : string
}.

Record AlertConfigModel := {
  name : string;
  exchange : ExchangeEnum;
  symbol : string;
  order_type : OrderTypeEnum;
  position_side : PositionSideEnum;
  quantity : option Q;
  quantity_percentage : option Q;
  price : option Q;
  stop_loss : option Q;
  take_profit : option Q;
  description : option string
}.

Record TradingViewAlertModel := {
  config_name : string;
  user_id : string;
  tv_price : option Q;
  tv_volume : option Q;
  tv_time : option string;
  tv_exchange : option string;
  tv_symbol : option string;
  tv_message : option string;
  tv_additional_parameters : option (list (string * string))
}.

(** The dict an exchange returns for a placed order ([create_order]). *)
Abbreviation Receipt := (gmap string string).

Record OrderResultModel := {
  success : bool;
  order_id : option string;
  message : option string;
  details : option Receipt;
  timestamp : string
}.

Record UserModel := {
  um_user_id : string;
  username : string;
  email : option string
}.

(** ** The stored form of a configuration

    [config.dict()] serialised by [json.dumps] and read back by [json.loads]:
    the enum members become their string values, the other fields keep
    their values, [None] fields are stored as [null]. *)
Record ConfigDict := {
  cd_name : string;
  cd_exchange : string;
  cd_symbol : string;
  cd_order_type : string;
  cd_position_side : string;
  cd_quantity : option Q;
  cd_quantity_percentage : option Q;
  cd_price : option Q;
  cd_stop_loss : option Q;
  cd_take_profit : option Q;
  cd_description : option string
}.

Definition config_dict (c : AlertConfigModel) : ConfigDict := {|
  cd_name := name c;
  cd_exchange := exchange_value (exchange c);
  cd_symbol := symbol c;
  cd_order_type := order_type_value (order_type c);
  cd_position_side := position_side_value (position_side c);
  cd_quantity := quantity c;
  cd_quantity_percentage := quantity_percentage c;
  cd_price := price c;
  cd_stop_loss := stop_loss c;
  cd_take_profit := take_profit c;
  cd_description := description c
|}.

(** The two history dicts [process_tradingview_alert] writes: the one of an
    executed order and the one of a caught exception. *)
Inductive HistoryData :=
| HistSuccess (config_name symbol side : string) (quantity : Q) (price : option Q)
    (timestamp : string) (order_id : option string) (details : option Receipt)
| HistFailure (config_name timestamp message : string).

Definition history_timestamp (h : HistoryData) : string :=
  match h with
  | HistSuccess _ _ _ _ _ ts _ _ => ts
  | HistFailure _ ts _ => ts
  end.

Definition history_success (h : HistoryData) : bool :=
  match h with HistSuccess _ _ _ _ _ _ _ _ => true | HistFailure _ _ _ => false end.

(** ** Properties of the enums *)

Lemma enum_lookup_value {E} (value : E -> string) members s e :
  enum_lookup value members s = Some e -> value e = s /\ e ∈ members.
Proof.
  unfold enum_lookup. intros H.
  apply find_some in H as [Hin Heq]. apply String.eqb_eq in Heq.
  split; [done|]. by apply list_elem_of_In.
Qed.

(** The validation of a stored configuration against [AlertConfigModel]
    ([response_model] of [GET /api/config/{config_name}]): the three string
    fields must be values of their enums. *)
Definition config_of_dict (d : ConfigDict) : option AlertConfigModel :=
  e ← exchange_of_value (cd_exchange d);
  t ← order_type_of_value (cd_order_type d);
  p ← position_side_of_value (cd_position_side d);
  Some {| name := cd_name d; exchange := e; symbol := cd_symbol d; order_type := t;
          position_side := p; quantity := cd_quantity d;
          quantity_percentage := cd_quantity_percentage d; price := cd_price d;
          stop_loss := cd_stop_loss d; take_profit := cd_take_profit d;
          description := cd_description d |}.

(** A configuration saved by [POST /api/config] validates back to the
    same model: [config.dict()] followed by the enum lookups is the identity. *)
Theorem config_dict_roundtrip c : config_of_dict (config_dict c) = Some c.
Proof. destruct c as [n [] s [] [] q qp p sl tp d]; reflexivity. Qed.

(** Conversely a dict that validates is the stored form of its model. *)
Lemma config_of_dict_sound d c : config_of_dict d = Some c -> config_dict c = d.
Proof.
  unfold config_of_dict.
  destruct (exchange_of_value _) as [e|] eqn:He; [|done]; simpl.
  destruct (order_type_of_value _) as [t|] eqn:Ht; [|done]; simpl.
  destruct (position_side_of_value _) as [p|] eqn:Hp; [|done]; simpl.
  intros [= <-].
  apply enum_lookup_value in He as [He _], Ht as [Ht _], Hp as [Hp _].
  destruct d; unfold config_dict; simpl in *; by subst.
Qed.
