(* ===== verification/World.v ===== *)
(** * World: the state the backend process acts on, and its collaborators

    The external collaborators of the backend are interfaces here, each a
    type class whose instances are the real library: Fernet ([cryptography]),
    the ccxt module (which exchange classes it has) and the exchange API a
    ccxt client talks to.  The [World] is the state one request sees: the
    Redis keyspace, the module-level [exchange_clients] cache of [main.py],
    the process's [ENCRYPTION_KEY], the clock read by [datetime.now()] and
    the log of the calls made to exchanges.  The primitive effects on it
    (Redis get/set/delete/keys, the clock, the three exchange calls) are
    the only ways the modelled code touches the state. *)

From stdpp Require Import base gmap strings list.
From Stdlib Require Import QArith String Ascii.
From S2P Require Import Prelude Models.
Open Scope string_scope.
Open Scope list_scope.

(** ** Collaborators *)

(** [cryptography.fernet.Fernet]: encryption under a key, and a decryption
    that fails ([InvalidToken]) on a token it cannot authenticate. *)
Class Fernet := {
  fernet_encrypt : string -> string -> string;
  fernet_decrypt : string -> string -> option string;
  fernet_decrypt_encrypt : forall k p, fernet_decrypt k (fernet_encrypt k p) = Some p
}.

(** The ccxt module: [getattr(ccxt, name)] finds an exchange class. *)
Class Ccxt := {
  ccxt_has_exchange : string -> bool
}.

(** A ccxt client built by [exchange_class({...})]: its class and the
    constructor's configuration dict. *)
Record Client := {
  cl_exchange : string;
  cl_apiKey : string;
  cl_secret : string;
  cl_enableRateLimit : bool
}.

#[export] Instance Client_eq_dec : EqDecision Client.
Proof. solve_decision. Defined.

(** [fetch_balance()]: the [free] amount per currency ([None] when the
    exchange reports none). *)
Abbreviation Balance := (gmap string (option Q)).

(** [fetch_ticker(symbol)]: its [last] price. *)
Record Ticker := { tk_last : option Q }.

(** The arguments of one [create_order] call: [price] and [params] are
    [None] when the call does not pass them. *)
Record OrderRequest := {
  req_symbol : string;
  req_type : string;
  req_side : string;
  req_amount : Q;
  req_price : option Q;
  req_params : option (list (string * Q))
}.

Inductive ExchangeCall :=
| CallFetchBalance (c : Client)
| CallFetchTicker (c : Client) (sym : string)
| CallCreateOrder (c : Client) (r : OrderRequest).

Definition is_create_order (c : ExchangeCall) : bool :=
  match c with CallCreateOrder _ _ => true | _ => false end.

(** The exchange answers a call, given the calls made before it, or raises
    (a ccxt [ExchangeError], a network error, ...). *)
Class ExchangeApi := {
  api_fetch_balance : list ExchangeCall -> Client -> outcome Balance;
  api_fetch_ticker : list ExchangeCall -> Client -> string -> outcome Ticker;
  api_create_order : list ExchangeCall -> Client -> OrderRequest -> outcome Receipt
}.

(** ** The Redis values

    A Redis value is the JSON text of one of three dicts: encrypted API keys,
    a configuration, a history record. *)
Inductive Stored :=
| SCreds (api_key api_secret : string)
| SConfig (c : ConfigDict)
| SHistory (h : HistoryData).

(** ** The world *)

Record World := {
  w_redis : gmap string Stored;
  w_clients : gmap string Client;
  w_encryption_key : string;
  w_now : string;
  w_calls : list ExchangeCall
}.

Definition set_redis (f : gmap string Stored -> gmap string Stored) (w : World) : World :=
  {| w_redis := f (w_redis w); w_clients := w_clients w;
     w_encryption_key := w_encryption_key w; w_now := w_now w; w_calls := w_calls w |}.

Definition set_clients (f : gmap string Client -> gmap string Client) (w : World) : World :=
  {| w_redis := w_redis w; w_clients := f (w_clients w);
     w_encryption_key := w_encryption_key w; w_now := w_now w; w_calls := w_calls w |}.

Definition log_call (c : ExchangeCall) (w : World) : World :=
  {| w_redis := w_redis w; w_clients := w_clients w;
     w_encryption_key := w_encryption_key w; w_now := w_now w; w_calls := w_calls w ++ [c] |}.

Abbreviation M := (PyM World).

(** ** Primitive effects *)

(** [redis_client.get(key)] *)
Definition redis_get (k : string) : M (option Stored) := gets (fun w => w_redis w !! k).

(** [redis_client.set(key, value)] *)
Definition redis_set (k : string) (v : Stored) : M bool :=
  modify (set_redis <[k:=v]>) ;;; ret true.

(** [redis_client.delete(key)]: the number of keys removed. *)
Definition redis_delete (k : string) : M nat :=
  n <- gets (fun w => match w_redis w !! k with Some _ => 1%nat | None => 0%nat end) ;;
  modify (set_redis (delete k)) ;;;
  ret n.

(** [redis_client.keys(prefix + "*")] for a prefix without glob characters:
    the keys that start with it, in the server's order. *)
Definition keys_with_prefix (m : gmap string Stored) (p : string) : list string :=
  filter (fun k => str_prefix p k = true) (map fst (map_to_list m)).

Definition redis_keys_prefix (p : string) : M (list string) :=
  gets (fun w => keys_with_prefix (w_redis w) p).

(** [datetime.now()], as the [isoformat()] string. *)
Definition datetime_now : M string := gets w_now.

Section Exchange.
Context `{ExchangeApi}.

(** A call to the exchange is logged, then answered. *)
Definition exchange_call {A} (c : ExchangeCall) (answer : list ExchangeCall -> outcome A) : M A :=
  fun w => (answer (w_calls w), log_call c w).

Definition fetch_balance (cl : Client) : M Balance :=
  exchange_call (CallFetchBalance cl) (fun log => api_fetch_balance log cl).

Definition fetch_ticker (cl : Client) (sym : string) : M Ticker :=
  exchange_call (CallFetchTicker cl sym) (fun log => api_fetch_ticker log cl sym).

Definition create_order (cl : Client) (r : OrderRequest) : M Receipt :=
  exchange_call (CallCreateOrder cl r) (fun log => api_create_order log cl r).
End Exchange.

(** ** Running the effects *)

Section Runs.
Context `{ExchangeApi}.

Lemma fetch_balance_run cl w :
  fetch_balance cl w = (api_fetch_balance (w_calls w) cl, log_call (CallFetchBalance cl) w).
Proof. reflexivity. Qed.

Lemma fetch_ticker_run cl sym w :
  fetch_ticker cl sym w = (api_fetch_ticker (w_calls w) cl sym, log_call (CallFetchTicker cl sym) w).
Proof. reflexivity. Qed.

Lemma create_order_run cl r w :
  create_order cl r w = (api_create_order (w_calls w) cl r, log_call (CallCreateOrder cl r) w).
Proof. reflexivity. Qed.
End Runs.

Lemma w_calls_log_call c w : w_calls (log_call c w) = w_calls w ++ [c].
Proof. reflexivity. Qed.

(** Unfold the monad and the effects, then compute, rewriting with the
    hypotheses that fix the values the computation branches on. *)
Ltac py_simp :=
  unfold bind, ret, raise, gets, modify, try_except, final,
    exchange_call, fetch_balance, fetch_ticker, create_order,
    redis_get, redis_set, redis_delete, datetime_now in *;
  simpl in *;
  repeat match goal with
  | H : ?x = _ |- context [?x] => rewrite H; simpl
  end.

(** ** Frames: what an operation leaves alone *)

(** The Redis keyspace, the clock and the encryption key are unchanged: an
    operation that changes at most the client cache and the call log. *)
Definition store_kept (w w' : World) : Prop :=
  w_redis w' = w_redis w /\ w_now w' = w_now w /\ w_encryption_key w' = w_encryption_key w.

#[export] Instance store_kept_preorder : PreOrder store_kept.
Proof.
  split; [by intros w|].
  intros w1 w2 w3 (A1 & B1 & C1) (A2 & B2 & C2). repeat split; congruence.
Qed.

Create HintDb frame.

Lemma within_store_kept_modify_clients f : within store_kept (modify (set_clients f)).
Proof. by intros w. Qed.

Lemma within_store_kept_exchange_call {A} c (answer : list ExchangeCall -> outcome A) :
  within store_kept (exchange_call c answer).
Proof. by intros w. Qed.

#[export] Hint Resolve within_ret within_raise within_gets within_bind within_try
  within_store_kept_modify_clients within_store_kept_exchange_call : frame.

(** Split a [within] goal along the program and close the steps with the
    [frame] lemmas. *)
Ltac frame_solve :=
  cbv zeta; within_split;
  unfold fetch_balance, fetch_ticker, create_order, datetime_now in *;
  eauto with frame typeclass_instances.

(** Turn every run [Hr : m s = (r, s')] of an operation that keeps the
    store into the equations [store_kept s s'] gives. *)
Ltac frames :=
  repeat match goal with
  | Hr : ?m ?s = (_, ?s') |- _ =>
      let F := fresh "F" in
      assert (F : store_kept s s') by (eapply (within_run store_kept m); [eauto with frame|exact Hr]);
      clear Hr; destruct F as (? & ? & ?)
  end.

(** ** Concrete collaborators for the worked examples

    A Fernet whose token is the key followed by the plaintext, a ccxt with
    the exchanges of [ExchangeEnum] that current ccxt still ships, and an
    exchange holding 1000 USDT and 1 BTC, quoting BTC/USDT at 50000 and
    accepting every order with id ["1"].  They are plain definitions, made
    instances only inside the sections of examples. *)

Fixpoint strip_prefix (p s : string) : option string :=
  match p, s with
  | EmptyString, _ => Some s
  | String a p', String b s' => if Ascii.eqb a b then strip_prefix p' s' else None
  | String _ _, EmptyString => None
  end.

Lemma strip_prefix_app p s : strip_prefix p (p +:+ s) = Some s.
Proof. induction p as [|a p IH]; simpl; [done|]. by rewrite Ascii.eqb_refl. Qed.

Definition demo_fernet : Fernet := {|
  fernet_encrypt := fun k p => k +:+ p;
  fernet_decrypt := fun k c => strip_prefix k c;
  fernet_decrypt_encrypt := strip_prefix_app
|}.

Definition demo_ccxt : Ccxt := {|
  ccxt_has_exchange := fun s => existsb (String.eqb s)
    ["binance"; "coinbase"; "bybit"; "kucoin"; "bitfinex"; "huobi"]
|}.

Definition demo_balance : Balance := <["USDT" := Some 1000%Q]> (<["BTC" := Some 1%Q]> ∅).

Definition demo_api : ExchangeApi := {|
  api_fetch_balance := fun _ _ => Ok demo_balance;
  api_fetch_ticker := fun _ _ _ => Ok {| tk_last := Some 50000%Q |};
  api_create_order := fun _ _ _ => Ok (<["id" := "1"]> ∅)
|}.

Definition demo_client : Client :=
  {| cl_exchange := "binance"; cl_apiKey := "KEY"; cl_secret := "SECRET"; cl_enableRateLimit := true |}.

Definition empty_world : World :=
  {| w_redis := ∅; w_clients := ∅; w_encryption_key := "k"; w_now := "2024-01-01T00:00:00";
     w_calls := [] |}.
