(* ===== verification/Database.v ===== *)
(** * Database: the Redis store of [backend/app/database.py]

    API keys under [user:<user>:exchange:<exchange>] (encrypted with the
    process's Fernet key), configurations under
    [user:<user>:alert_config:<name>], history records under
    [alert:<user>:<timestamp>].  Every function of the file is a definition
    here, on the Redis part of the [World]. *)

From stdpp Require Import base gmap strings list sorting.
From Stdlib Require Import QArith String Ascii.
From S2P Require Import Prelude Models World.
Open Scope string_scope.
Open Scope list_scope.

(** ** Keys *)

Definition creds_key (user_id exchange : string) : string :=
  "user:" +:+ user_id +:+ ":exchange:" +:+ exchange.

Definition config_key (user_id config_name : string) : string :=
  "user:" +:+ user_id +:+ ":alert_config:" +:+ config_name.

Definition history_key (user_id ts : string) : string :=
  "alert:" +:+ user_id +:+ ":" +:+ ts.

(** The patterns of [get_all_alert_configs] and [get_alert_history], without
    their final [*]. *)
Definition config_prefix (user_id : string) : string :=
  "user:" +:+ user_id +:+ ":alert_config:".

Definition history_prefix (user_id : string) : string :=
  "alert:" +:+ user_id +:+ ":".

(** The order of [sort(reverse=True)] on keys: [a] before [b] when [b <= a]. *)
Definition key_ge (a b : string) : Prop := String.leb b a = true.

#[export] Instance key_ge_dec : RelDecision key_ge.
Proof. intros a b. unfold key_ge. apply _. Defined.

(** [config_name = key.split(":")[-1]] *)
Definition config_name_of_key (key : string) : string :=
  default "" (last (py_split ":"%char key)).

Section Database.
Context `{Fernet}.

Definition encrypt_data (data : string) : M string :=
  k <- gets w_encryption_key ;; ret (fernet_encrypt k data).

(** [InvalidToken] when the token was not made under the current key. *)
Definition decrypt_data (data : string) : M string :=
  k <- gets w_encryption_key ;;
  match fernet_decrypt k data with
  | Some p => ret p
  | None => raise (PyException "InvalidToken" "")
  end.

Definition save_exchange_api_key (user_id exchange api_key api_secret : string) : M bool :=
  ek <- encrypt_data api_key ;;
  es <- encrypt_data api_secret ;;
  redis_set (creds_key user_id exchange) (SCreds ek es).

(** [{}] is [None]; a value that is not a key pair has no ["api_key"]. *)
Definition get_exchange_api_key (user_id exchange : string) : M (option (string * string)) :=
  data <- redis_get (creds_key user_id exchange) ;;
  match data with
  | None => ret None
  | Some (SCreds a s) =>
      k <- decrypt_data a ;;
      sec <- decrypt_data s ;;
      ret (Some (k, sec))
  | Some _ => raise (PyException "KeyError" "'api_key'")
  end.

Definition delete_exchange_api_key (user_id exchange : string) : M bool :=
  n <- redis_delete (creds_key user_id exchange) ;; ret (Nat.ltb 0 n).

Definition save_alert_config (user_id config_name : string) (config_data : ConfigDict) : M bool :=
  redis_set (config_key user_id config_name) (SConfig config_data).

(** The dict read back, whatever it holds; [None] for [{}]. *)
Definition get_alert_config (user_id config_name : string) : M (option Stored) :=
  redis_get (config_key user_id config_name).

(** The loop of [get_all_alert_configs]: the name is the last [:]-piece of
    the key, and the configuration is read again under that name. *)
Fixpoint load_configs (user_id : string) (keys : list string) : M (list (string * Stored)) :=
  match keys with
  | [] => ret []
  | key :: rest =>
      let config_name := config_name_of_key key in
      config <- get_alert_config user_id config_name ;;
      tail <- load_configs user_id rest ;;
      match config with
      | Some c => ret ((config_name, c) :: tail)
      | None => ret tail
      end
  end.

(** Each entry is the dict with its ["name"] set. *)
Definition get_all_alert_configs (user_id : string) : M (list (string * Stored)) :=
  keys <- redis_keys_prefix (config_prefix user_id) ;;
  load_configs user_id keys.

Definition delete_alert_config (user_id config_name : string) : M bool :=
  n <- redis_delete (config_key user_id config_name) ;; ret (Nat.ltb 0 n).

Definition save_alert_history (user_id : string) (alert_data : HistoryData) : M bool :=
  redis_set (history_key user_id (history_timestamp alert_data)) (SHistory alert_data).

(** [keys.sort(reverse=True)]: descending code-point order. *)
Definition sort_desc (keys : list string) : list string :=
  merge_sort key_ge keys.

Fixpoint load_history (keys : list string) : M (list Stored) :=
  match keys with
  | [] => ret []
  | key :: rest =>
      data <- redis_get key ;;
      tail <- load_history rest ;;
      match data with
      | Some d => ret (d :: tail)
      | None => ret tail
      end
  end.

Definition get_alert_history (user_id : string) (limit : nat) : M (list Stored) :=
  keys <- redis_keys_prefix (history_prefix user_id) ;;
  load_history (take limit (sort_desc keys)).
End Database.

(** ** Reading the store *)

Section Reads.
Context `{Fernet}.

Lemma get_exchange_api_key_absent u e w :
  w_redis w !! creds_key u e = None ->
  get_exchange_api_key u e w = (Ok None, w).
Proof. intros Hk. unfold get_exchange_api_key, bind, redis_get, gets. simpl. by rewrite Hk. Qed.

Lemma get_exchange_api_key_present u e w a s ka ks :
  w_redis w !! creds_key u e = Some (SCreds a s) ->
  fernet_decrypt (w_encryption_key w) a = Some ka ->
  fernet_decrypt (w_encryption_key w) s = Some ks ->
  get_exchange_api_key u e w = (Ok (Some (ka, ks)), w).
Proof.
  intros Hk Ha Hs. unfold get_exchange_api_key, decrypt_data, bind, redis_get, gets.
  simpl. rewrite Hk; simpl. rewrite Ha; simpl. by rewrite Hs.
Qed.

(** Reading API keys never changes the world, whatever it returns. *)
Lemma get_exchange_api_key_readonly u e w :
  final (get_exchange_api_key u e) w = w.
Proof.
  unfold final, get_exchange_api_key, decrypt_data, bind, redis_get, gets, raise, ret. simpl.
  destruct (w_redis w !! creds_key u e) as [[a s| |]|]; simpl; try done.
  destruct (fernet_decrypt _ a); simpl; [|done].
  by destruct (fernet_decrypt _ s).
Qed.
End Reads.

Section Writes.
Context `{Fernet}.

Lemma delete_exchange_api_key_run u e w :
  delete_exchange_api_key u e w =
    (Ok (Nat.ltb 0 (match w_redis w !! creds_key u e with Some _ => 1%nat | None => 0%nat end)),
     set_redis (delete (creds_key u e)) w).
Proof. reflexivity. Qed.

Lemma save_alert_history_run u h w :
  save_alert_history u h w =
    (Ok true, set_redis <[history_key u (history_timestamp h) := SHistory h]> w).
Proof. reflexivity. Qed.
End Writes.

Section DatabaseFrames.
Context `{Fernet}.

Lemma get_exchange_api_key_store_kept u e : within store_kept (get_exchange_api_key u e).
Proof. intros w. by rewrite get_exchange_api_key_readonly. Qed.

Lemma get_alert_config_store_kept u n : within store_kept (get_alert_config u n).
Proof. by intros w. Qed.
End DatabaseFrames.

#[export] Hint Resolve get_exchange_api_key_store_kept get_alert_config_store_kept : frame.

(** ** Properties of the store *)

Section StoreFacts.
Context `{Fernet}.

(** C19: API keys read back after they are saved are the ones saved: the
    encryption under the process key is undone by the decryption. *)
Theorem api_key_roundtrip u e k s w :
  fst ((save_exchange_api_key u e k s ;;; get_exchange_api_key u e) w) = Ok (Some (k, s)).
Proof.
  unfold save_exchange_api_key, encrypt_data, get_exchange_api_key, decrypt_data.
  py_simp. rewrite lookup_insert_eq. simpl. by rewrite !fernet_decrypt_encrypt.
Qed.

Lemma creds_config_key_collision u n e :
  creds_key (u +:+ ":alert_config:" +:+ n) e = config_key u (n +:+ ":exchange:" +:+ e).
Proof. unfold creds_key, config_key. by rewrite !string_app_assoc. Qed.

(** C20: the keyspace is not injective: saving a configuration whose name
    contains [":exchange:"] overwrites the API keys of another user id, whose
    keys then read back as a [KeyError]. *)
Theorem config_overwrites_api_keys u n e c w :
  fst ((save_alert_config u (n +:+ ":exchange:" +:+ e) c ;;;
        get_exchange_api_key (u +:+ ":alert_config:" +:+ n) e) w)
  = Raise (PyException "KeyError" "'api_key'").
Proof.
  unfold save_alert_config, get_exchange_api_key. rewrite creds_config_key_collision.
  py_simp. by rewrite lookup_insert_eq.
Qed.

Lemma load_history_run keys w :
  exists l, load_history keys w = (Ok l, w) /\ (List.length l <= List.length keys)%nat.
Proof.
  induction keys as [|k keys IH]; simpl; [by exists []|].
  destruct IH as (l & Hl & Hlen). unfold bind, redis_get, gets. simpl. rewrite Hl.
  destruct (w_redis w !! k); simpl; [exists (s :: l)|exists l]; simpl; split; auto with lia.
Qed.

(** C21: the history listing never raises, changes nothing, and returns at
    most [limit] records. *)
Theorem get_alert_history_bounded u limit w :
  exists l, get_alert_history u limit w = (Ok l, w) /\ (List.length l <= limit)%nat.
Proof.
  unfold get_alert_history, bind, redis_keys_prefix, gets. cbv beta iota.
  match goal with |- context [load_history ?ks w] =>
    destruct (load_history_run ks w) as (l & -> & Hl) end.
  exists l. split; [done|]. rewrite length_take in Hl. lia.
Qed.
End StoreFacts.

(** The keys of the history listing are sorted in descending order
    (most recent timestamp first) and are the keys found, reordered. *)
Lemma sort_desc_spec keys :
  Sorted key_ge (sort_desc keys) /\ sort_desc keys ≡ₚ keys.
Proof.
  split; [apply Sorted_merge_sort|apply merge_sort_Permutation].
  intros a b. unfold key_ge. destruct (String.leb_total a b); auto.
Qed.

(** ** Listing configurations whose name has a colon *)

Definition sample_config (n : string) : ConfigDict := {|
  cd_name := n; cd_exchange := "binance"; cd_symbol := "BTC/USDT";
  cd_order_type := "market"; cd_position_side := "long";
  cd_quantity := Some 1%Q; cd_quantity_percentage := None; cd_price := None;
  cd_stop_loss := None; cd_take_profit := None; cd_description := None
|}.

Definition colon_world : World :=
  set_redis (fun _ => <[config_key "default" "x" := SConfig (sample_config "x")]>
                        (<[config_key "default" "a:x" := SConfig (sample_config "a:x")]> ∅))
    empty_world.

Section ListingExample.
#[local] Existing Instance demo_fernet.

End ListingExample.

(** ** Listing the history of a user whose id is a prefix of another's *)

Definition leak_world : World :=
  set_redis (fun _ =>
    <[history_key "default" "2024-01-01T00:00:00" :=
        SHistory (HistFailure "c1" "2024-01-01T00:00:00" "Error executing order: ")]>
    (<[history_key "default:bot" "2024-01-02T00:00:00" :=
        SHistory (HistFailure "c9" "2024-01-02T00:00:00" "Error executing order: ")]> ∅))
    empty_world.

Section LeakExample.
#[local] Existing Instance demo_fernet.

End LeakExample.

(** ** The listing loops against reference definitions *)

(** What [get_all_alert_configs] should list for the keys found: each key's
    name with the value stored under the key rebuilt from that name. *)
Definition configs_of (m : gmap string Stored) (u : string) (keys : list string)
    : list (string * Stored) :=
  omap (fun key => let n := config_name_of_key key in pair n <$> m !! config_key u n) keys.

(** What [get_alert_history] should return for the keys it selects. *)
Definition history_of (m : gmap string Stored) (keys : list string) : list Stored :=
  omap (fun key => m !! key) keys.

Section Listings.
Context `{Fernet}.

(** The loop of [get_all_alert_configs] never raises, changes nothing and
    returns [configs_of] of the keys. *)
Lemma load_configs_run u keys w :
  load_configs u keys w = (Ok (configs_of (w_redis w) u keys), w).
Proof.
  induction keys as [|key keys IH]; [done|]. simpl.
  unfold bind, get_alert_config, redis_get, gets. simpl. rewrite IH.
  unfold configs_of. simpl. by destruct (w_redis w !! _).
Qed.

Lemma load_history_equiv keys w :
  load_history keys w = (Ok (history_of (w_redis w) keys), w).
Proof.
  induction keys as [|key keys IH]; [done|]. simpl.
  unfold bind, redis_get, gets. simpl. rewrite IH.
  unfold history_of. simpl. by destruct (w_redis w !! key).
Qed.

Lemma config_key_prefix u n : config_key u n = config_prefix u +:+ n.
Proof. unfold config_key, config_prefix. by rewrite !string_app_assoc. Qed.

(** The name read back from the key of a colon-free name is the name. *)
Lemma config_name_of_config_key u n :
  str_has ":" n = false -> config_name_of_key (config_key u n) = n.
Proof.
  intros Hn. unfold config_name_of_key, config_key.
  replace ("user:" +:+ u +:+ ":alert_config:" +:+ n)
    with (("user:" +:+ u +:+ ":alert_config") +:+ String ":" n)
    by (rewrite !string_app_assoc; reflexivity).
  by rewrite py_split_app_sep, (py_split_no_sep _ n), last_snoc.
Qed.

Lemma elem_of_keys_with_prefix m p k v :
  m !! k = Some v -> str_prefix p k = true -> k ∈ keys_with_prefix m p.
Proof.
  intros Hk Hp. unfold keys_with_prefix. apply list_elem_of_filter. split; [done|].
  apply list_elem_of_fmap. exists (k, v). split; [done|]. by apply elem_of_map_to_list.
Qed.


End Listings.

Section ListingExamples.
#[local] Existing Instance demo_fernet.

End ListingExamples.
