(* ===== verification/Gateway.v ===== *)
(** * Gateway: [get_exchange_client] of [backend/app/main.py]

    The module-level dict [exchange_clients] caches one ccxt client per
    [f"{user_id}:{exchange_name}"].  A hit returns the cached client and
    touches nothing else; a miss reads and decrypts the API keys, builds the
    client through [getattr(ccxt, exchange_name)] and caches it.  Entries are
    never removed or replaced. *)

From stdpp Require Import base gmap strings list.
From Stdlib Require Import QArith String Ascii.
From S2P Require Import Prelude Models World Database.
Open Scope string_scope.
Open Scope list_scope.

Definition client_key (user_id exchange_name : string) : string :=
  user_id +:+ ":" +:+ exchange_name.

(** The client [exchange_class({'apiKey': ..., 'secret': ..., 'enableRateLimit': True})]. *)
Definition make_client (exchange_name api_key api_secret : string) : Client :=
  {| cl_exchange := exchange_name; cl_apiKey := api_key; cl_secret := api_secret;
     cl_enableRateLimit := true |}.

Section Gateway.
Context `{Fernet} `{Ccxt}.

Definition get_exchange_client (user_id exchange_name : string) : M Client :=
  let key := client_key user_id exchange_name in
  cached <- gets (fun w => w_clients w !! key) ;;
  match cached with
  | Some client => ret client
  | None =>
      credentials <- get_exchange_api_key user_id exchange_name ;;
      match credentials with
      | None => raise (HTTPException 404 ("API keys not found for exchange " +:+ exchange_name))
      | Some (api_key, api_secret) =>
          if ccxt_has_exchange exchange_name then
            let client := make_client exchange_name api_key api_secret in
            modify (set_clients <[key:=client]>) ;;;
            ret client
          else
            raise (HTTPException 500 ("Error creating exchange client: module 'ccxt' has no attribute '"
                                      +:+ exchange_name +:+ "'"))
      end
  end.
End Gateway.

(** ** Keys of the cache *)

(** The f-string key is injective when the exchange name has no colon. *)
Lemma client_key_inj u1 e1 u2 e2 :
  str_has ":" e1 = false -> str_has ":" e2 = false ->
  client_key u1 e1 = client_key u2 e2 -> u1 = u2 /\ e1 = e2.
Proof. unfold client_key. apply sep_append_inj. Qed.

Lemma exchange_value_colon_free e : str_has ":" (exchange_value e) = false.
Proof. by destruct e. Qed.

Lemma exchange_value_inj e1 e2 : exchange_value e1 = exchange_value e2 -> e1 = e2.
Proof. destruct e1, e2; simpl; congruence. Qed.

(** For the exchanges of [ExchangeEnum], two users or two exchanges
    never share a cache entry: the key determines the user and the exchange,
    even for user ids that contain colons. *)
Lemma client_key_enum_inj u1 e1 u2 e2 :
  client_key u1 (exchange_value e1) = client_key u2 (exchange_value e2) -> u1 = u2 /\ e1 = e2.
Proof.
  intros Hk. apply client_key_inj in Hk as [-> He]; [|apply exchange_value_colon_free..].
  split; [done|]. by apply exchange_value_inj.
Qed.

(** ** Behaviour of [get_exchange_client] *)

Section GatewayFacts.
Context `{Fernet} `{Ccxt}.

(** C7: a cache hit returns the cached client and changes nothing: the
    vault is not read. *)
Theorem get_exchange_client_hit u e w c :
  w_clients w !! client_key u e = Some c ->
  get_exchange_client u e w = (Ok c, w).
Proof. intros Hc. unfold get_exchange_client, bind, gets. simpl. by rewrite Hc. Qed.

(** A miss with stored keys of a ccxt exchange builds the client from the
    decrypted keys and caches it under the key. *)
Lemma get_exchange_client_miss u e w a s ka ks :
  w_clients w !! client_key u e = None ->
  w_redis w !! creds_key u e = Some (SCreds a s) ->
  fernet_decrypt (w_encryption_key w) a = Some ka ->
  fernet_decrypt (w_encryption_key w) s = Some ks ->
  ccxt_has_exchange e = true ->
  get_exchange_client u e w =
    (Ok (make_client e ka ks),
     set_clients <[client_key u e := make_client e ka ks]> w).
Proof.
  intros Hc Hk Ha Hs Hx. unfold get_exchange_client.
  rewrite (run_bind_ok _ _ w None w) by (unfold gets; simpl; by rewrite Hc).
  rewrite (run_bind_ok _ _ w (Some (ka, ks)) w) by (by eapply get_exchange_api_key_present).
  by rewrite Hx.
Qed.

(** A miss without stored keys raises the 404 and changes nothing. *)
Lemma get_exchange_client_no_keys u e w :
  w_clients w !! client_key u e = None ->
  w_redis w !! creds_key u e = None ->
  get_exchange_client u e w =
    (Raise (HTTPException 404 ("API keys not found for exchange " +:+ e)), w).
Proof.
  intros Hc Hk. unfold get_exchange_client.
  rewrite (run_bind_ok _ _ w None w) by (unfold gets; simpl; by rewrite Hc).
  by rewrite (run_bind_ok _ _ w None w) by (by apply get_exchange_api_key_absent).
Qed.
End GatewayFacts.

Section Revocation.
Context `{Fernet} `{Ccxt}.

(** C8: deleting the API keys of an exchange does not revoke the cached
    client: [remove_api_key] never touches [exchange_clients], so alerts
    keep trading with the deleted keys. *)
Theorem cached_client_survives_key_deletion u e w c :
  w_clients w !! client_key u e = Some c ->
  fst ((delete_exchange_api_key u e ;;; get_exchange_client u e) w) = Ok c.
Proof.
  intros Hc. rewrite (run_bind_ok _ _ _ _ _ (delete_exchange_api_key_run u e w)).
  by rewrite (get_exchange_client_hit _ _ _ c).
Qed.
End Revocation.

Section GatewayFrames.
Context `{Fernet} `{Ccxt}.

Lemma get_exchange_client_store_kept u e : within store_kept (get_exchange_client u e).
Proof. unfold get_exchange_client. frame_solve. Qed.
End GatewayFrames.

#[export] Hint Resolve get_exchange_client_store_kept : frame.

(** ** Examples *)

Definition cached_world : World :=
  set_clients <[client_key "u1" "binance" := demo_client]>
    (set_redis <[creds_key "u1" "binance" := SCreds "kKEY" "kSECRET"]> empty_world).

Section GatewayExamples.
#[local] Existing Instances demo_fernet demo_ccxt.

Lemma get_exchange_client_hit_witness :
  get_exchange_client "u1" "binance" cached_world = (Ok demo_client, cached_world).
Proof. apply get_exchange_client_hit. reflexivity. Defined.

Lemma cached_client_survives_key_deletion_witness :
  fst ((delete_exchange_api_key "u1" "binance" ;;; get_exchange_client "u1" "binance") cached_world)
  = Ok demo_client.
Proof. apply cached_client_survives_key_deletion. reflexivity. Defined.
End GatewayExamples.
