(* ===== verification/Quantity.v ===== *)
(** * Quantity: the order size of [process_tradingview_alert]

    Lines 177-195 of [backend/app/main.py].  A truthy [quantity] of the
    configuration is used as it is; otherwise a truthy
    [quantity_percentage] sizes the order from the free balance of the quote
    currency (the second [/]-piece of the symbol) and the alert's price, or
    the ticker's last price when the alert has none.  A falsy result raises
    the 400 "Could not determine order quantity".  Python's own errors on
    the way ([IndexError], [TypeError], [ZeroDivisionError]) are
    [PyException]s. *)

From stdpp Require Import base gmap strings list.
From Stdlib Require Import QArith String Ascii.
From S2P Require Import Prelude Models World.
Open Scope string_scope.
Open Scope list_scope.

(** ** Python built-ins the code relies on *)

(** [float(x)] of a JSON number or [None]. *)
Definition py_float (o : option Q) : M Q :=
  match o with
  | Some x => ret x
  | None => raise (PyException "TypeError"
                     "float() argument must be a string or a real number, not 'NoneType'")
  end.

(** [a / b] on floats. *)
Definition py_truediv (a b : Q) : M Q :=
  if truthy b then ret (a / b)%Q
  else raise (PyException "ZeroDivisionError" "float division by zero").

(** [l[i]] *)
Definition py_getindex {S A} (l : list A) (i : nat) : PyM S A :=
  match l !! i with
  | Some x => ret x
  | None => raise (PyException "IndexError" "list index out of range")
  end.

(** An index in range does not raise. *)
Lemma py_getindex_total {S A} (P : S -> Prop) (l : list A) i :
  (i < List.length l)%nat -> total P (py_getindex l i).
Proof. intros Hi s Hs. destruct (lookup_lt_is_Some_2 l i Hi) as [x Hx]. exists x, s. unfold py_getindex. by rewrite Hx. Qed.

(** [(available * percentage / 100) / current_price] before the division by
    the price. *)
Definition quote_amount (available percentage : Q) : Q := (available * percentage / 100)%Q.

Section Quantity.
Context `{ExchangeApi}.

(** [current_price = alert.price if alert.price else float(exchange.fetch_ticker(symbol)['last'])] *)
Definition current_price (exchange : Client) (alert : TradingViewAlertModel) (sym : string) : M Q :=
  let from_ticker := (t <- fetch_ticker exchange sym ;; py_float (tk_last t)) in
  match tv_price alert with
  | Some p => if truthy p then ret p else from_ticker
  | None => from_ticker
  end.

(** The [elif config.get("quantity_percentage")] branch. *)
Definition quantity_from_percentage (exchange : Client) (percentage : Q)
    (alert : TradingViewAlertModel) (sym : string) : M (option Q) :=
  balance <- fetch_balance exchange ;;
  base_currency <- py_getindex (py_split "/" sym) 1 ;;
  match balance !! base_currency with
  | None => raise (HTTPException 400 ("No balance found for " +:+ base_currency))
  | Some free =>
      available <- py_float free ;;
      price <- current_price exchange alert sym ;;
      q <- py_truediv (quote_amount available percentage) price ;;
      ret (Some q)
  end.

(** [if not quantity: raise HTTPException(400, ...)] *)
Definition require_quantity (quantity : option Q) : M Q :=
  match quantity with
  | Some q => if truthy q then ret q
              else raise (HTTPException 400 "Could not determine order quantity")
  | None => raise (HTTPException 400 "Could not determine order quantity")
  end.

Definition determine_quantity (exchange : Client) (config : ConfigDict)
    (alert : TradingViewAlertModel) (sym : string) : M Q :=
  let by_percentage :=
    match cd_quantity_percentage config with
    | Some pct => if truthy pct then quantity_from_percentage exchange pct alert sym else ret None
    | None => ret None
    end in
  quantity <- match cd_quantity config with
              | Some q => if truthy q then ret (Some q) else by_percentage
              | None => by_percentage
              end ;;
  require_quantity quantity.
End Quantity.

(** ** Behaviour of the resolver *)

Section QuantityFacts.
Context `{ExchangeApi}.

Lemma current_price_from_alert ex alert sym p :
  tv_price alert = Some p -> truthy p = true ->
  current_price ex alert sym = ret p.
Proof. intros Hp Ht. unfold current_price. by rewrite Hp, Ht. Qed.

Lemma current_price_from_ticker ex alert sym :
  opt_truthy (tv_price alert) = false ->
  current_price ex alert sym = (t <- fetch_ticker ex sym ;; py_float (tk_last t)).
Proof.
  unfold current_price. destruct (tv_price alert) as [p|]; simpl; [|done].
  by intros ->.
Qed.

Lemma determine_quantity_by_percentage ex cfg alert sym pct :
  opt_truthy (cd_quantity cfg) = false ->
  cd_quantity_percentage cfg = Some pct -> truthy pct = true ->
  determine_quantity ex cfg alert sym =
    (quantity <- quantity_from_percentage ex pct alert sym ;; require_quantity quantity).
Proof.
  intros Hq Hp Ht. unfold determine_quantity. rewrite Hp, Ht.
  destruct (cd_quantity cfg) as [q|]; simpl in Hq; try rewrite Hq; reflexivity.
Qed.

(** C4: a truthy fixed quantity is the order size as it is, whatever the
    percentage, and no exchange is called: the world is unchanged.  Its sign
    is not checked: a negative quantity is used too. *)
Theorem determine_quantity_fixed ex cfg alert sym q w :
  cd_quantity cfg = Some q -> truthy q = true ->
  determine_quantity ex cfg alert sym w = (Ok q, w).
Proof. intros Hq Ht. unfold determine_quantity, require_quantity. py_simp. done. Qed.

(** C5: the percentage path with a truthy alert price calls
    [fetch_balance] once and nothing else, and sizes the order as
    [(free * percentage / 100) / alert.price]. *)
Theorem determine_quantity_percentage_alert_price ex cfg alert sym w pct bal base free p :
  opt_truthy (cd_quantity cfg) = false ->
  cd_quantity_percentage cfg = Some pct -> truthy pct = true ->
  api_fetch_balance (w_calls w) ex = Ok bal ->
  py_split "/" sym !! 1%nat = Some base ->
  bal !! base = Some (Some free) ->
  tv_price alert = Some p -> truthy p = true ->
  truthy (quote_amount free pct / p) = true ->
  determine_quantity ex cfg alert sym w =
    (Ok (quote_amount free pct / p)%Q, log_call (CallFetchBalance ex) w).
Proof.
  intros Hq Hp Hpt Hb Hs Hf Ha Hat Hr.
  rewrite (determine_quantity_by_percentage _ _ _ _ pct) by done.
  unfold quantity_from_percentage, require_quantity, py_getindex, py_float, py_truediv.
  rewrite (current_price_from_alert _ _ _ p) by done. py_simp. done.
Qed.

(** C6: without a truthy alert price the percentage path calls
    [fetch_balance] and then [fetch_ticker], once each, and divides by the
    ticker's last price. *)
Theorem determine_quantity_percentage_ticker ex cfg alert sym w pct bal base free t lp :
  opt_truthy (cd_quantity cfg) = false ->
  cd_quantity_percentage cfg = Some pct -> truthy pct = true ->
  api_fetch_balance (w_calls w) ex = Ok bal ->
  py_split "/" sym !! 1%nat = Some base ->
  bal !! base = Some (Some free) ->
  opt_truthy (tv_price alert) = false ->
  api_fetch_ticker (w_calls w ++ [CallFetchBalance ex]) ex sym = Ok t ->
  tk_last t = Some lp -> truthy lp = true ->
  truthy (quote_amount free pct / lp) = true ->
  determine_quantity ex cfg alert sym w =
    (Ok (quote_amount free pct / lp)%Q,
     log_call (CallFetchTicker ex sym) (log_call (CallFetchBalance ex) w)).
Proof.
  intros Hq Hp Hpt Hb Hs Hf Ha Ht Hl Hlt Hr.
  rewrite (determine_quantity_by_percentage _ _ _ _ pct) by done.
  unfold quantity_from_percentage, require_quantity, py_getindex, py_float, py_truediv.
  rewrite current_price_from_ticker by done. py_simp. done.
Qed.

(** C27: when the quote currency is not in the balance the resolver raises
    the 400 "No balance found for <currency>" after its one [fetch_balance]
    call (an [HTTPException]: the handler records nothing). *)
Theorem determine_quantity_balance_not_found ex cfg alert sym w pct bal base :
  opt_truthy (cd_quantity cfg) = false ->
  cd_quantity_percentage cfg = Some pct -> truthy pct = true ->
  api_fetch_balance (w_calls w) ex = Ok bal ->
  py_split "/" sym !! 1%nat = Some base ->
  bal !! base = None ->
  determine_quantity ex cfg alert sym w =
    (Raise (HTTPException 400 ("No balance found for " +:+ base)), log_call (CallFetchBalance ex) w).
Proof.
  intros Hq Hp Hpt Hb Hs Hf.
  rewrite (determine_quantity_by_percentage _ _ _ _ pct) by done.
  unfold quantity_from_percentage, py_getindex. py_simp. done.
Qed.

(** C28: a ticker whose last price is 0 makes the division raise Python's
    [ZeroDivisionError], a generic exception that the handler turns into a
    failure record; the spec does not say what a zero price does. *)
Theorem determine_quantity_zero_price ex cfg alert sym w pct bal base free t :
  opt_truthy (cd_quantity cfg) = false ->
  cd_quantity_percentage cfg = Some pct -> truthy pct = true ->
  api_fetch_balance (w_calls w) ex = Ok bal ->
  py_split "/" sym !! 1%nat = Some base ->
  bal !! base = Some (Some free) ->
  opt_truthy (tv_price alert) = false ->
  api_fetch_ticker (w_calls w ++ [CallFetchBalance ex]) ex sym = Ok t ->
  tk_last t = Some 0%Q ->
  determine_quantity ex cfg alert sym w =
    (Raise (PyException "ZeroDivisionError" "float division by zero"),
     log_call (CallFetchTicker ex sym) (log_call (CallFetchBalance ex) w)).
Proof.
  intros Hq Hp Hpt Hb Hs Hf Ha Ht Hl.
  rewrite (determine_quantity_by_percentage _ _ _ _ pct) by done.
  unfold quantity_from_percentage, py_getindex, py_float, py_truediv.
  rewrite current_price_from_ticker by done. py_simp. done.
Qed.
End QuantityFacts.

Section QuantityFrames.
Context `{ExchangeApi}.

Lemma determine_quantity_store_kept ex cfg alert sym :
  within store_kept (determine_quantity ex cfg alert sym).
Proof.
  unfold determine_quantity, quantity_from_percentage, current_price, require_quantity,
    py_getindex, py_float, py_truediv.
  frame_solve.
Qed.
End QuantityFrames.

#[export] Hint Resolve determine_quantity_store_kept : frame.

(** ** Examples *)

Definition sizing_config (q pct : option Q) : ConfigDict := {|
  cd_name := "c1"; cd_exchange := "binance"; cd_symbol := "BTC/USDT";
  cd_order_type := "market"; cd_position_side := "long";
  cd_quantity := q; cd_quantity_percentage := pct; cd_price := None;
  cd_stop_loss := None; cd_take_profit := None; cd_description := None
|}.

Definition priced_alert (p : option Q) : TradingViewAlertModel := {|
  config_name := "c1"; user_id := "u1"; tv_price := p; tv_volume := None;
  tv_time := None; tv_exchange := None; tv_symbol := None; tv_message := None;
  tv_additional_parameters := None
|}.

Section QuantityExamples.
#[local] Existing Instance demo_api.

(** A fixed quantity wins over a percentage set beside it. *)
Lemma determine_quantity_fixed_witness :
  determine_quantity demo_client (sizing_config (Some (1 # 100)) (Some 10)) (priced_alert None)
    "BTC/USDT" empty_world = (Ok (1 # 100)%Q, empty_world).
Proof. apply determine_quantity_fixed; reflexivity. Defined.

Lemma determine_quantity_percentage_alert_price_witness :
  determine_quantity demo_client (sizing_config None (Some 10)) (priced_alert (Some 40000))
    "BTC/USDT" empty_world =
  (Ok (quote_amount 1000 10 / 40000)%Q, log_call (CallFetchBalance demo_client) empty_world).
Proof. eapply determine_quantity_percentage_alert_price; reflexivity. Defined.

(** The example of the spec: 10% of 1000 USDT at 50000 is 0.002 BTC. *)
Lemma determine_quantity_percentage_ticker_witness :
  determine_quantity demo_client (sizing_config None (Some 10)) (priced_alert None)
    "BTC/USDT" empty_world =
  (Ok (quote_amount 1000 10 / 50000)%Q,
   log_call (CallFetchTicker demo_client "BTC/USDT") (log_call (CallFetchBalance demo_client) empty_world))
  /\ (quote_amount 1000 10 / 50000 == 2 # 1000)%Q.
Proof.
  split; [eapply determine_quantity_percentage_ticker; reflexivity|].
  vm_compute. reflexivity.
Defined.
End QuantityExamples.

Definition zero_ticker_api : ExchangeApi := {|
  api_fetch_balance := fun _ _ => Ok demo_balance;
  api_fetch_ticker := fun _ _ _ => Ok {| tk_last := Some 0%Q |};
  api_create_order := fun _ _ _ => Ok ∅
|}.

Section QuantityErrorExamples.
#[local] Existing Instance demo_api.

Lemma determine_quantity_balance_not_found_witness :
  determine_quantity demo_client (sizing_config None (Some 10)) (priced_alert None)
    "ETH/EUR" empty_world =
  (Raise (HTTPException 400 "No balance found for EUR"), log_call (CallFetchBalance demo_client) empty_world).
Proof. eapply determine_quantity_balance_not_found; reflexivity. Defined.
End QuantityErrorExamples.

Section QuantityZeroExamples.
#[local] Existing Instance zero_ticker_api.

Lemma determine_quantity_zero_price_witness :
  determine_quantity demo_client (sizing_config None (Some 10)) (priced_alert (Some 0))
    "BTC/USDT" empty_world =
  (Raise (PyException "ZeroDivisionError" "float division by zero"),
   log_call (CallFetchTicker demo_client "BTC/USDT") (log_call (CallFetchBalance demo_client) empty_world)).
Proof. eapply determine_quantity_zero_price; reflexivity. Defined.
End QuantityZeroExamples.
