(* ===== verification/Dispatcher.v ===== *)
(** * Dispatcher: placing the order in [process_tradingview_alert]

    Lines 197-235 of [backend/app/main.py]: the configuration's
    [order_type] string selects the ccxt call.  ["market"] places a market
    order with no price; ["limit"] a limit order at the alert's price, or the
    configuration's when the alert has none; ["stop_loss"] and
    ["take_profit"] a ["stop"] order at that price with
    [params = {"stopPrice": price}].  Any other string places nothing and
    leaves [order_result = None]. *)

From stdpp Require Import base gmap strings list.
From Stdlib Require Import QArith String Ascii.
From S2P Require Import Prelude Models World.
Open Scope string_scope.
Open Scope list_scope.

(** [price = alert.price if alert.price else config.get("price")] followed by
    [if not price: raise HTTPException(400, msg)]. *)
Definition required_price (alert : TradingViewAlertModel) (config : ConfigDict) (msg : string) : M Q :=
  match py_or (tv_price alert) (cd_price config) with
  | Some p => if truthy p then ret p else raise (HTTPException 400 msg)
  | None => raise (HTTPException 400 msg)
  end.

Definition order_request (sym type_ side : string) (amount : Q) (p : option Q)
    (params : option (list (string * Q))) : OrderRequest :=
  {| req_symbol := sym; req_type := type_; req_side := side; req_amount := amount;
     req_price := p; req_params := params |}.

Section Dispatcher.
Context `{ExchangeApi}.

Definition execute_order (exchange : Client) (config : ConfigDict) (alert : TradingViewAlertModel)
    (order_type sym side : string) (quantity : Q) : M (option Receipt) :=
  if String.eqb order_type "market" then
    r <- create_order exchange (order_request sym "market" side quantity None None) ;;
    ret (Some r)
  else if String.eqb order_type "limit" then
    p <- required_price alert config "Price required for limit orders" ;;
    r <- create_order exchange (order_request sym "limit" side quantity (Some p) None) ;;
    ret (Some r)
  else if String.eqb order_type "stop_loss" || String.eqb order_type "take_profit" then
    p <- required_price alert config ("Price required for " +:+ order_type +:+ " orders") ;;
    r <- create_order exchange
           (order_request sym "stop" side quantity (Some p) (Some [("stopPrice", p)])) ;;
    ret (Some r)
  else ret None.
End Dispatcher.

(** ** Behaviour of the dispatcher *)

Section DispatcherFacts.
Context `{ExchangeApi}.

Lemma required_price_ok alert cfg msg p w :
  py_or (tv_price alert) (cd_price cfg) = Some p -> truthy p = true ->
  required_price alert cfg msg w = (Ok p, w).
Proof. intros Hp Ht. unfold required_price. by rewrite Hp, Ht. Qed.

Lemma required_price_missing alert cfg msg w :
  opt_truthy (py_or (tv_price alert) (cd_price cfg)) = false ->
  required_price alert cfg msg w = (Raise (HTTPException 400 msg), w).
Proof.
  unfold required_price. destruct (py_or _ _) as [p|]; simpl; [|done]. by intros ->.
Qed.

(** C9: a market order never needs a price: it is one [create_order]
    call with type ["market"], the side and the amount, and no price or
    params, whatever the alert and the configuration hold. *)
Theorem execute_order_market ex cfg alert sym side q w :
  execute_order ex cfg alert "market" sym side q w =
    (outcome_map Some (api_create_order (w_calls w) ex (order_request sym "market" side q None None)),
     log_call (CallCreateOrder ex (order_request sym "market" side q None None)) w).
Proof. unfold execute_order. py_simp. by destruct (api_create_order _ _ _). Qed.

(** C10: a limit order is placed at the alert's price when it is truthy,
    else at the configuration's price. *)
Theorem execute_order_limit ex cfg alert sym side q w p :
  py_or (tv_price alert) (cd_price cfg) = Some p -> truthy p = true ->
  execute_order ex cfg alert "limit" sym side q w =
    (outcome_map Some (api_create_order (w_calls w) ex (order_request sym "limit" side q (Some p) None)),
     log_call (CallCreateOrder ex (order_request sym "limit" side q (Some p) None)) w).
Proof.
  intros Hp Ht. unfold execute_order, required_price. simpl.
  rewrite Hp; try rewrite Ht. py_simp. by destruct (api_create_order _ _ _).
Qed.

(** A stop-loss or take-profit order is a ccxt ["stop"] order at the
    price, with [params = {"stopPrice": price}]. *)
Theorem execute_order_stop ex cfg alert ot sym side q w p :
  ot = "stop_loss" \/ ot = "take_profit" ->
  py_or (tv_price alert) (cd_price cfg) = Some p -> truthy p = true ->
  execute_order ex cfg alert ot sym side q w =
    (outcome_map Some (api_create_order (w_calls w) ex
                         (order_request sym "stop" side q (Some p) (Some [("stopPrice", p)]))),
     log_call (CallCreateOrder ex (order_request sym "stop" side q (Some p) (Some [("stopPrice", p)]))) w).
Proof.
  intros Hot Hp Ht. unfold execute_order.
  destruct Hot as [-> | ->]; simpl;
    rewrite (run_bind_ok _ _ _ p w) by (by apply required_price_ok);
    py_simp; by destruct (api_create_order _ _ _).
Qed.

(** C12: a limit, stop-loss or take-profit order without a truthy price in
    the alert or the configuration raises the 400 before any exchange call:
    the world is unchanged. *)
Theorem execute_order_missing_price ex cfg alert ot sym side q w :
  ot = "limit" \/ ot = "stop_loss" \/ ot = "take_profit" ->
  opt_truthy (py_or (tv_price alert) (cd_price cfg)) = false ->
  exists msg, execute_order ex cfg alert ot sym side q w = (Raise (HTTPException 400 msg), w).
Proof.
  intros Hot Hp. unfold execute_order.
  destruct Hot as [-> | [-> | ->]]; simpl; eexists;
    by rewrite (run_bind_raise _ _ _ _ w) by (by apply required_price_missing).
Qed.

(** C13: an order type outside the four places no order and returns
    [None]: no exception is raised for it. *)
Theorem execute_order_unknown_type ex cfg alert ot sym side q w :
  ot <> "market" -> ot <> "limit" -> ot <> "stop_loss" -> ot <> "take_profit" ->
  execute_order ex cfg alert ot sym side q w = (Ok None, w).
Proof.
  intros H1 H2 H3 H4. unfold execute_order.
  apply String.eqb_neq in H1, H2, H3, H4. by rewrite H1, H2, H3, H4.
Qed.
End DispatcherFacts.

Section DispatcherFrames.
Context `{ExchangeApi}.

Lemma execute_order_store_kept ex cfg alert ot sym side q :
  within store_kept (execute_order ex cfg alert ot sym side q).
Proof. unfold execute_order, required_price. frame_solve. Qed.
End DispatcherFrames.

#[export] Hint Resolve execute_order_store_kept : frame.

(** ** Examples *)

Definition priced_config (p : option Q) : ConfigDict := {|
  cd_name := "c1"; cd_exchange := "binance"; cd_symbol := "BTC/USDT";
  cd_order_type := "limit"; cd_position_side := "long";
  cd_quantity := Some 1%Q; cd_quantity_percentage := None; cd_price := p;
  cd_stop_loss := None; cd_take_profit := None; cd_description := None
|}.

Definition alert_at (p : option Q) : TradingViewAlertModel := {|
  config_name := "c1"; user_id := "u1"; tv_price := p; tv_volume := None;
  tv_time := None; tv_exchange := None; tv_symbol := None; tv_message := None;
  tv_additional_parameters := None
|}.

Section DispatcherExamples.
#[local] Existing Instance demo_api.

(** The alert's price 40000 wins over the configuration's 39000. *)
Lemma execute_order_limit_witness :
  execute_order demo_client (priced_config (Some 39000)) (alert_at (Some 40000)) "limit"
    "BTC/USDT" "buy" 1 empty_world =
  (outcome_map Some (api_create_order [] demo_client
                       (order_request "BTC/USDT" "limit" "buy" 1 (Some 40000%Q) None)),
   log_call (CallCreateOrder demo_client
               (order_request "BTC/USDT" "limit" "buy" 1 (Some 40000%Q) None)) empty_world).
Proof. apply execute_order_limit; reflexivity. Defined.

(** Without an alert price the configuration's price is the stop price. *)
Lemma execute_order_stop_witness :
  execute_order demo_client (priced_config (Some 39000)) (alert_at None) "take_profit"
    "BTC/USDT" "sell" 1 empty_world =
  (outcome_map Some (api_create_order [] demo_client
     (order_request "BTC/USDT" "stop" "sell" 1 (Some 39000%Q) (Some [("stopPrice", 39000%Q)]))),
   log_call (CallCreateOrder demo_client
     (order_request "BTC/USDT" "stop" "sell" 1 (Some 39000%Q) (Some [("stopPrice", 39000%Q)])))
     empty_world).
Proof. apply execute_order_stop; [right|..]; reflexivity. Defined.

Lemma execute_order_missing_price_witness :
  exists msg, execute_order demo_client (priced_config None) (alert_at (Some 0)) "stop_loss"
    "BTC/USDT" "sell" 1 empty_world = (Raise (HTTPException 400 msg), empty_world).
Proof. apply execute_order_missing_price; [right; left|]; reflexivity. Defined.

Lemma execute_order_unknown_type_witness :
  execute_order demo_client (priced_config None) (alert_at None) "trailing_stop"
    "BTC/USDT" "buy" 1 empty_world = (Ok None, empty_world).
Proof. apply execute_order_unknown_type; discriminate. Defined.
End DispatcherExamples.
