(* ===== verification/Pipeline.v ===== *)
(** * Pipeline: the webhook handler [process_tradingview_alert]

    Lines 158-279 of [backend/app/main.py].  The handler reads the
    configuration, gets the client, sizes and places the order, then writes
    a history record and returns the result.  Its [try] re-raises every
    [HTTPException] (so the caller gets an HTTP error and no history is
    written) and turns every other exception into a failure result, after
    writing a failure record. *)

From stdpp Require Import base gmap strings list.
From Stdlib Require Import QArith String Ascii.
From S2P Require Import Prelude Models World Database Gateway Quantity Dispatcher.
Open Scope string_scope.
Open Scope list_scope.

(** [side = "buy" if config["position_side"] == "long" else "sell"] *)
Definition order_side (position_side : string) : string :=
  if String.eqb position_side "long" then "buy" else "sell".

(** [order_result["id"] if order_result and "id" in order_result else None] *)
Definition receipt_id (order_result : option Receipt) : option string :=
  match order_result with
  | Some r => if decide (r = ∅) then None else r !! "id"
  | None => None
  end.

(** [config["exchange"]], the first field read: a stored value that is not a
    configuration has no ["exchange"]. *)
Definition as_config (stored : Stored) : M ConfigDict :=
  match stored with
  | SConfig c => ret c
  | _ => raise (PyException "KeyError" "'exchange'")
  end.

Definition success_result (order_result : option Receipt) (ts : string) : OrderResultModel :=
  {| success := true; order_id := receipt_id order_result;
     message := Some "Order executed successfully"; details := order_result; timestamp := ts |}.

Definition error_message (msg : string) : string := "Error executing order: " +:+ msg.

Definition error_result (msg : string) (ts : string) : OrderResultModel :=
  {| success := false; order_id := None; message := Some (error_message msg);
     details := None; timestamp := ts |}.

Section Pipeline.
Context `{Fernet} `{Ccxt} `{ExchangeApi}.

(** The body of the [try]. *)
Definition execute_alert (alert : TradingViewAlertModel) : M OrderResultModel :=
  config <- get_alert_config (user_id alert) (config_name alert) ;;
  match config with
  | None => raise (HTTPException 404 ("Configuration '" +:+ config_name alert +:+ "' not found"))
  | Some stored =>
      cfg <- as_config stored ;;
      exchange <- get_exchange_client (user_id alert) (cd_exchange cfg) ;;
      let sym := cd_symbol cfg in
      let side := order_side (cd_position_side cfg) in
      quantity <- determine_quantity exchange cfg alert sym ;;
      order_result <- execute_order exchange cfg alert (cd_order_type cfg) sym side quantity ;;
      ts <- datetime_now ;;
      let result := success_result order_result ts in
      save_alert_history (user_id alert)
        (HistSuccess (config_name alert) sym side quantity (tv_price alert) ts
           (order_id result) (details result)) ;;;
      ret result
  end.

(** [except HTTPException: raise] and [except Exception as e: ...]. *)
Definition handle_error (alert : TradingViewAlertModel) (e : exn) : M OrderResultModel :=
  match e with
  | HTTPException _ _ => raise e
  | PyException _ msg =>
      ts <- datetime_now ;;
      save_alert_history (user_id alert) (HistFailure (config_name alert) ts (error_message msg)) ;;;
      ret (error_result msg ts)
  end.

Definition process_tradingview_alert (alert : TradingViewAlertModel) : M OrderResultModel :=
  try_except (execute_alert alert) (handle_error alert).
End Pipeline.

(** ** Frames of the pipeline's steps *)

Lemma as_config_store_kept stored : within store_kept (as_config stored).
Proof. unfold as_config. frame_solve. Qed.
#[export] Hint Resolve as_config_store_kept : frame.

Section PipelineFacts.
Context `{Fernet} `{Ccxt} `{ExchangeApi}.

(** Until its history write, the body changes at most the client cache and
    the call log: when it raises, the store is as it was. *)
Lemma execute_alert_on_raise alert : on_raise store_kept (execute_alert alert).
Proof.
  unfold execute_alert. cbv zeta.
  repeat match goal with
  | |- on_raise _ (bind (save_alert_history _ _) _) =>
      intros ? ? ? Hs; unfold bind in Hs; rewrite save_alert_history_run in Hs; discriminate
  | |- on_raise _ (bind _ _) => apply on_raise_bind; [..|intro]
  | |- on_raise _ (raise _) => apply on_raise_raise
  | |- on_raise _ (match ?x with _ => _ end) => destruct x
  | |- PreOrder _ => typeclasses eauto
  | |- within _ _ => unfold datetime_now; eauto with frame typeclass_instances
  end.
Qed.

(** C2: the handler raises only [HTTPException]s (every other exception is
    turned into a result), and when it raises nothing is written: no
    history record, no key, no configuration changes. *)
Theorem process_alert_raises_only_http alert w e w' :
  process_tradingview_alert alert w = (Raise e, w') ->
  (exists code detail, e = HTTPException code detail) /\ store_kept w w'.
Proof.
  unfold process_tradingview_alert, try_except.
  destruct (execute_alert alert w) as [[r|e0] w1] eqn:E; [discriminate|].
  pose proof (execute_alert_on_raise alert w e0 w1 E) as Hk.
  destruct e0 as [code detail|cls msg]; simpl.
  - intros Hr. inversion Hr; subst. eauto.
  - unfold datetime_now, gets, bind. rewrite save_alert_history_run. discriminate.
Qed.
(** The successful end of the body: one history record, at the key of the
    alert's user and of the clock, with the result's flag and timestamp. *)
Lemma execute_alert_ok_recorded alert w r w' :
  execute_alert alert w = (Ok r, w') ->
  success r = true /\ timestamp r = w_now w /\ w_now w' = w_now w /\
  exists h, history_success h = true /\ history_timestamp h = w_now w /\
    w_redis w' = <[history_key (user_id alert) (w_now w) := SHistory h]> (w_redis w).
Proof.
  unfold execute_alert. intros E. ok_steps E.
  destruct a as [stored|]; simpl in E; [|discriminate].
  cbv zeta in E. ok_steps E.
  unfold ret in E. inversion E; subst; clear E.
  rewrite save_alert_history_run in Hrun5. inversion Hrun5; subst; clear Hrun5.
  unfold datetime_now, gets in Hrun4. inversion Hrun4; subst; clear Hrun4.
  frames. simpl. repeat split; try congruence.
  eexists. split; [|split]; cycle 2; [simpl; f_equal; congruence| |];
    simpl; congruence.
Qed.

(** Every alert that gets a result is recorded by exactly one history
    write: the store after the handler is the store before it with one
    record added under [alert:<user>:<now>], whose success flag and
    timestamp are the result's; nothing else of the store changes. *)
Theorem process_alert_recorded_once alert w r w' :
  process_tradingview_alert alert w = (Ok r, w') ->
  timestamp r = w_now w /\
  exists h, history_success h = success r /\ history_timestamp h = w_now w /\
    w_redis w' = <[history_key (user_id alert) (w_now w) := SHistory h]> (w_redis w).
Proof.
  unfold process_tradingview_alert, try_except.
  destruct (execute_alert alert w) as [[r0|e0] w1] eqn:E; intros Hr.
  - inversion Hr; subst.
    destruct (execute_alert_ok_recorded _ _ _ _ E) as (-> & ? & _ & h & ? & ? & ?).
    eauto.
  - pose proof (execute_alert_on_raise alert w e0 w1 E) as (Hre & Hnow & _).
    destruct e0 as [code detail|cls msg]; simpl in Hr; [discriminate|].
    unfold datetime_now, gets, bind in Hr. rewrite save_alert_history_run in Hr.
    inversion Hr; subst. simpl. rewrite Hnow, Hre.
    split; [done|]. eexists. split; [|split]; cycle 2; [reflexivity|done|done].
Qed.

(** C1: the handler composes its components: with a stored configuration,
    a client, a quantity and a placed order, it returns the success result
    stamped with the clock and writes the success record of the order
    (symbol, side, quantity, the alert's price, the order id and the
    exchange's answer). *)
Theorem process_alert_success alert w cfg ex w1 q w2 res w3 :
  w_redis w !! config_key (user_id alert) (config_name alert) = Some (SConfig cfg) ->
  get_exchange_client (user_id alert) (cd_exchange cfg) w = (Ok ex, w1) ->
  determine_quantity ex cfg alert (cd_symbol cfg) w1 = (Ok q, w2) ->
  execute_order ex cfg alert (cd_order_type cfg) (cd_symbol cfg)
    (order_side (cd_position_side cfg)) q w2 = (Ok res, w3) ->
  process_tradingview_alert alert w =
    (Ok (success_result res (w_now w3)),
     set_redis <[history_key (user_id alert) (w_now w3) :=
                 SHistory (HistSuccess (config_name alert) (cd_symbol cfg)
                             (order_side (cd_position_side cfg)) q (tv_price alert)
                             (w_now w3) (receipt_id res) res)]> w3).
Proof.
  intros Hc Hg Hq Ho. unfold process_tradingview_alert, execute_alert.
  apply run_try_ok.
  rewrite (run_bind_ok _ _ w (Some (SConfig cfg)) w) by (unfold get_alert_config, redis_get, gets; by rewrite Hc).
  cbv beta iota zeta. rewrite (run_bind_ok _ _ w cfg w) by reflexivity.
  rewrite (run_bind_ok _ _ w ex w1) by done.
  rewrite (run_bind_ok _ _ w1 q w2) by done.
  rewrite (run_bind_ok _ _ w2 res w3) by done.
  rewrite (run_bind_ok _ _ w3 (w_now w3) w3) by reflexivity.
  unfold bind at 1. by rewrite save_alert_history_run.
Qed.

(** C14: an alert naming a configuration that is not stored is answered
    with the 404 [HTTPException] and changes nothing: no failure record is
    written (the spec asks for a failure result and record). *)
Theorem process_alert_config_not_found alert w :
  w_redis w !! config_key (user_id alert) (config_name alert) = None ->
  process_tradingview_alert alert w =
    (Raise (HTTPException 404 ("Configuration '" +:+ config_name alert +:+ "' not found")), w).
Proof.
  intros Hc. unfold process_tradingview_alert, execute_alert, get_alert_config.
  py_simp. done.
Qed.
End PipelineFacts.

(** ** The example of the spec: a market buy of 0.01 BTC *)

Definition demo_config : ConfigDict := {|
  cd_name := "c1"; cd_exchange := "binance"; cd_symbol := "BTC/USDT";
  cd_order_type := "market"; cd_position_side := "long";
  cd_quantity := Some (1 # 100)%Q; cd_quantity_percentage := None; cd_price := None;
  cd_stop_loss := None; cd_take_profit := None; cd_description := None
|}.

Definition demo_alert : TradingViewAlertModel := {|
  config_name := "c1"; user_id := "u1"; tv_price := None; tv_volume := None;
  tv_time := None; tv_exchange := None; tv_symbol := None; tv_message := None;
  tv_additional_parameters := None
|}.

(** Redis holds the configuration and the API keys of [u1] (encrypted under
    the key ["k"] by [demo_fernet]); no client is cached yet. *)
Definition demo_world : World := {|
  w_redis := <[config_key "u1" "c1" := SConfig demo_config]>
               (<[creds_key "u1" "binance" := SCreds "kKEY" "kSECRET"]> ∅);
  w_clients := ∅;
  w_encryption_key := "k";
  w_now := "2024-01-01T00:00:00";
  w_calls := []
|}.

Definition demo_client_u1 : Client := make_client "binance" "KEY" "SECRET".
Definition demo_world1 : World :=
  set_clients <[client_key "u1" "binance" := demo_client_u1]> demo_world.
Definition demo_order : OrderRequest :=
  order_request "BTC/USDT" "market" "buy" (1 # 100)%Q None None.
Definition demo_world3 : World := log_call (CallCreateOrder demo_client_u1 demo_order) demo_world1.
Definition demo_receipt : Receipt := <["id" := "1"]> ∅.

Section PipelineExamples.
#[local] Existing Instances demo_fernet demo_ccxt demo_api.

(** The spec's example: user [u1]'s alert on [c1] builds the binance
    client from the stored keys, buys 0.01 BTC/USDT at market and records
    the order with id ["1"]. *)
Lemma process_alert_success_witness :
  process_tradingview_alert demo_alert demo_world =
    (Ok (success_result (Some demo_receipt) (w_now demo_world3)),
     set_redis <[history_key "u1" (w_now demo_world3) :=
                 SHistory (HistSuccess "c1" "BTC/USDT" "buy" (1 # 100)%Q None
                             (w_now demo_world3) (Some "1") (Some demo_receipt))]> demo_world3).
Proof.
  apply (process_alert_success demo_alert demo_world demo_config demo_client_u1 demo_world1
           (1 # 100)%Q demo_world1 (Some demo_receipt) demo_world3);
    vm_compute; reflexivity.
Defined.

Lemma process_alert_config_not_found_witness :
  process_tradingview_alert {| config_name := "c2"; user_id := "u1"; tv_price := None;
    tv_volume := None; tv_time := None; tv_exchange := None; tv_symbol := None;
    tv_message := None; tv_additional_parameters := None |} demo_world =
  (Raise (HTTPException 404 "Configuration 'c2' not found"), demo_world).
Proof. apply process_alert_config_not_found. reflexivity. Defined.
End PipelineExamples.

(** A configuration sized by percentage on a symbol without [/]: the quote
    currency is [symbol.split("/")[1]], an [IndexError] the handler catches. *)
Definition slashless_config : ConfigDict := {|
  cd_name := "c3"; cd_exchange := "binance"; cd_symbol := "BTCUSDT";
  cd_order_type := "market"; cd_position_side := "short";
  cd_quantity := None; cd_quantity_percentage := Some 10%Q; cd_price := None;
  cd_stop_loss := None; cd_take_profit := None; cd_description := None
|}.

Definition slashless_alert : TradingViewAlertModel := {|
  config_name := "c3"; user_id := "u1"; tv_price := None; tv_volume := None;
  tv_time := None; tv_exchange := None; tv_symbol := None; tv_message := None;
  tv_additional_parameters := None
|}.

Definition slashless_world : World :=
  set_redis <[config_key "u1" "c3" := SConfig slashless_config]> demo_world.

(** After the run: the client is cached, [fetch_balance] was called, and the
    failure record is written. *)
Definition slashless_world_after : World :=
  set_redis <[history_key "u1" (w_now slashless_world) :=
              SHistory (HistFailure "c3" (w_now slashless_world)
                          (error_message "list index out of range"))]>
    (log_call (CallFetchBalance demo_client_u1)
       (set_clients <[client_key "u1" "binance" := demo_client_u1]> slashless_world)).

Section PipelineErrorExamples.
#[local] Existing Instances demo_fernet demo_ccxt demo_api.

Lemma process_alert_raises_only_http_witness :
  (exists code detail, HTTPException 404 "Configuration 'c3' not found" = HTTPException code detail)
  /\ store_kept demo_world demo_world.
Proof. apply (process_alert_raises_only_http slashless_alert demo_world). vm_compute. reflexivity. Defined.

End PipelineErrorExamples.
