(* ===== verification/Api.v ===== *)
(** * Api: the HTTP endpoints of [backend/app/main.py] and the server

    Every endpoint is a handler on the [World]; [handle] dispatches a
    request to it.  The server is a step relation: a request runs its
    handler to the end (the handlers are [async def] without an [await], so
    the event loop never interleaves two of them), the clock moves, or the
    process restarts (the client cache is lost and [ENCRYPTION_KEY] may
    change, because [database.py] generates a fresh one when the variable is
    unset). *)

From stdpp Require Import base gmap strings list relations.
From Stdlib Require Import QArith String Ascii ZArith.
From S2P Require Import Prelude Models World Database Gateway Quantity Dispatcher Pipeline.
Open Scope string_scope.
Open Scope list_scope.

(** [user_id = "default"  # In a real app, get from auth] *)
Definition default_user : string := "default".

(** The JSON bodies the endpoints return. *)
Inductive Response :=
| RRoot
| RSaved (success : bool) (message : string)
| RHasKeys (has_keys : bool)
| RDeleted (success : bool)
| RConfig (config : Stored)
| RConfigs (configs : list (string * Stored))
| RHistory (history : list Stored)
| RExchanges (exchanges : list string)
| ROrder (result : OrderResultModel).

Inductive Request :=
| ReadRoot
| AddApiKey (api_key : ApiKeyModel)
| GetApiKeyStatus (exchange : string)
| RemoveApiKey (exchange : string)
| CreateAlertConfig (config : AlertConfigModel)
| GetConfig (config_name : string)
| ListConfigs
| RemoveConfig (config_name : string)
| Webhook (alert : TradingViewAlertModel)
| GetHistory (limit : Z)
| ListExchanges.

(** [except Exception as e: raise HTTPException(status_code=500, detail=str(e))] *)
Definition except_500 {A} (m : M A) : M A :=
  try_except m (fun e => raise (HTTPException 500 (exn_str e))).

Section Api.
Context `{Fernet} `{Ccxt} `{ExchangeApi}.

Definition read_root : M Response := ret RRoot.

Definition add_api_key (api_key : ApiKeyModel) : M Response :=
  except_500 (
    result <- save_exchange_api_key default_user (exchange_value (ak_exchange api_key))
                (ak_api_key api_key) (ak_api_secret api_key) ;;
    ret (RSaved result "API keys saved successfully")).

(** [{"has_keys": bool(keys)}] *)
Definition get_api_key_status (exchange : string) : M Response :=
  except_500 (
    keys <- get_exchange_api_key default_user exchange ;;
    ret (RHasKeys (match keys with Some _ => true | None => false end))).

Definition remove_api_key (exchange : string) : M Response :=
  except_500 (
    result <- delete_exchange_api_key default_user exchange ;;
    ret (RDeleted result)).

Definition create_alert_config (config : AlertConfigModel) : M Response :=
  except_500 (
    result <- save_alert_config default_user (name config) (config_dict config) ;;
    ret (RSaved result "Configuration saved successfully")).

(** [except HTTPException: raise] before [except Exception]. *)
Definition get_config (config_name : string) : M Response :=
  try_except (
    config <- get_alert_config default_user config_name ;;
    match config with
    | None => raise (HTTPException 404 ("Configuration " +:+ config_name +:+ " not found"))
    | Some c => ret (RConfig c)
    end)
  (fun e => match e with
            | HTTPException _ _ => raise e
            | PyException _ _ => raise (HTTPException 500 (exn_str e))
            end).

Definition list_configs : M Response :=
  except_500 (configs <- get_all_alert_configs default_user ;; ret (RConfigs configs)).

Definition remove_config (config_name : string) : M Response :=
  except_500 (
    result <- delete_alert_config default_user config_name ;;
    ret (RDeleted result)).

(** [limit: int = Query(20, ge=1, le=100)]: FastAPI answers 422 outside the
    bounds, before the handler runs. *)
Definition get_user_alert_history (limit : Z) : M Response :=
  if decide (1 <= limit <= 100)%Z then
    except_500 (history <- get_alert_history default_user (Z.to_nat limit) ;; ret (RHistory history))
  else raise (HTTPException 422 "Input should be between 1 and 100").

Definition list_exchanges : M Response := ret (RExchanges (map exchange_value all_exchanges)).

Definition webhook (alert : TradingViewAlertModel) : M Response :=
  r <- process_tradingview_alert alert ;; ret (ROrder r).

Definition handle (req : Request) : M Response :=
  match req with
  | ReadRoot => read_root
  | AddApiKey k => add_api_key k
  | GetApiKeyStatus e => get_api_key_status e
  | RemoveApiKey e => remove_api_key e
  | CreateAlertConfig c => create_alert_config c
  | GetConfig n => get_config n
  | ListConfigs => list_configs
  | RemoveConfig n => remove_config n
  | Webhook a => webhook a
  | GetHistory l => get_user_alert_history l
  | ListExchanges => list_exchanges
  end.
End Api.

(** ** The server *)

Definition set_now (ts : string) (w : World) : World :=
  {| w_redis := w_redis w; w_clients := w_clients w; w_encryption_key := w_encryption_key w;
     w_now := ts; w_calls := w_calls w |}.

(** A new process: Redis and the exchanges keep their state, the module-level
    cache starts empty, and the encryption key is the one of the new process. *)
Definition restart (key : string) (w : World) : World :=
  {| w_redis := w_redis w; w_clients := ∅; w_encryption_key := key;
     w_now := w_now w; w_calls := w_calls w |}.

Section Server.
Context `{Fernet} `{Ccxt} `{ExchangeApi}.

Inductive sys_step : World -> World -> Prop :=
| SysRequest req w : sys_step w (final (handle req) w)
| SysTick ts w : sys_step w (set_now ts w)
| SysRestart key w : sys_step w (restart key w).

(** Requests only, with no restart in between. *)
Inductive req_step : World -> World -> Prop :=
| ReqStep req w : req_step w (final (handle req) w).
End Server.

(** ** The client cache across requests *)

Section Cache.
Context `{Fernet} `{Ccxt} `{ExchangeApi}.

(** Every cached client sits under the key of its user and exchange, and is
    of an exchange ccxt has. *)
Definition cache_wf (w : World) : Prop :=
  map_Forall (fun k c => (exists u, k = client_key u (cl_exchange c)) /\
                         ccxt_has_exchange (cl_exchange c) = true) (w_clients w).

(** What a request does to the cache: it keeps every entry and keeps the
    invariant. *)
Definition req_frame (w w' : World) : Prop :=
  w_clients w ⊆ w_clients w' /\ (cache_wf w -> cache_wf w').

#[export] Instance req_frame_preorder : PreOrder req_frame.
Proof.
  split; [intros w; split; [reflexivity|done]|].
  intros w1 w2 w3 [A1 B1] [A2 B2]. split; [by etrans|tauto].
Qed.

Lemma req_frame_clients_eq w w' : w_clients w' = w_clients w -> req_frame w w'.
Proof. intros E. unfold req_frame, cache_wf. rewrite E. split; [reflexivity|done]. Qed.

Lemma within_req_frame_modify_redis f : within req_frame (modify (set_redis f)).
Proof. intros w. by apply req_frame_clients_eq. Qed.

Lemma within_req_frame_exchange_call {A} c (answer : list ExchangeCall -> outcome A) :
  within req_frame (exchange_call c answer).
Proof. intros w. by apply req_frame_clients_eq. Qed.

Lemma get_exchange_api_key_req_frame u e : within req_frame (get_exchange_api_key u e).
Proof. intros w. rewrite get_exchange_api_key_readonly. reflexivity. Qed.

(** A miss inserts under a free key a client of a ccxt exchange. *)
Lemma get_exchange_client_req_frame u e : within req_frame (get_exchange_client u e).
Proof.
  intros w. unfold final, get_exchange_client, bind, gets. simpl.
  destruct (w_clients w !! client_key u e) as [c|] eqn:Hc; [reflexivity|].
  pose proof (get_exchange_api_key_readonly u e w) as Hro. unfold final in Hro.
  destruct (get_exchange_api_key u e w) as [[[[k s]|]|ex] w1]; simpl in Hro; subst w1;
    try reflexivity.
  destruct (ccxt_has_exchange e) eqn:Hx; [|reflexivity].
  unfold modify, ret. simpl. split.
  - by apply insert_subseteq.
  - intros Hwf. apply map_Forall_insert_2; [|done]. simpl. eauto.
Qed.
End Cache.

Create HintDb reqframe.
#[export] Hint Resolve within_ret within_raise within_gets within_bind within_try
  within_req_frame_modify_redis within_req_frame_exchange_call
  get_exchange_api_key_req_frame get_exchange_client_req_frame : reqframe.

Ltac req_solve :=
  cbv zeta; within_split;
  unfold fetch_balance, fetch_ticker, create_order, datetime_now,
    redis_get, redis_set, redis_delete, redis_keys_prefix in *;
  within_split; eauto with reqframe typeclass_instances.

Section CacheRequests.
Context `{Fernet} `{Ccxt} `{ExchangeApi}.

Lemma load_configs_req_frame u keys : within req_frame (load_configs u keys).
Proof. induction keys; simpl; unfold get_alert_config; req_solve. Qed.

Lemma load_history_req_frame keys : within req_frame (load_history keys).
Proof. induction keys; simpl; req_solve. Qed.

#[local] Hint Resolve load_configs_req_frame load_history_req_frame : reqframe.

Lemma handle_req_frame req : within req_frame (handle req).
Proof.
  destruct req; simpl;
    unfold read_root, add_api_key, get_api_key_status, remove_api_key, create_alert_config,
      get_config, list_configs, remove_config, get_user_alert_history, list_exchanges, webhook,
      except_500, save_exchange_api_key, encrypt_data, delete_exchange_api_key,
      save_alert_config, get_alert_config, get_all_alert_configs, delete_alert_config,
      get_alert_history, process_tradingview_alert, execute_alert, handle_error, as_config,
      save_alert_history, determine_quantity, quantity_from_percentage, current_price,
      require_quantity, py_getindex, py_float, py_truediv, execute_order, required_price;
    req_solve.
Qed.
End CacheRequests.

Section ServerFacts.
Context `{Fernet} `{Ccxt} `{ExchangeApi}.

Lemma sys_step_cache_wf w w' : sys_step w w' -> cache_wf w -> cache_wf w'.
Proof.
  intros []; [apply handle_req_frame| |].
  - by unfold cache_wf, set_now.
  - intros _. unfold cache_wf, restart. simpl. apply map_Forall_empty.
Qed.


(** C17: between two restarts no request drops or replaces a cached client:
    a client, once built for a key, is the one every later alert of that
    user and exchange trades with (at most one construction per key). *)
Theorem req_steps_keep_cached_client w w' k c :
  rtc req_step w w' -> w_clients w !! k = Some c -> w_clients w' !! k = Some c.
Proof.
  intros Hs. induction Hs as [|w1 w2 w3 [req] _ IH]; [done|].
  intros Hk. apply IH. eapply lookup_weaken; [exact Hk|]. apply handle_req_frame.
Qed.
End ServerFacts.

Section ServerExamples.
#[local] Existing Instances demo_fernet demo_ccxt demo_api.


Lemma req_steps_keep_cached_client_witness :
  w_clients (final (handle (RemoveApiKey "binance")) cached_world) !! client_key "u1" "binance"
  = Some demo_client.
Proof.
  apply (req_steps_keep_cached_client cached_world); [apply rtc_once; constructor|].
  reflexivity.
Defined.
End ServerExamples.

(** ** A restart under another [ENCRYPTION_KEY] *)

Section Restart.
Context `{Fernet} `{Ccxt} `{ExchangeApi}.

(** C18: after a restart under a key with which the stored API key no longer
    decrypts (an unset [ENCRYPTION_KEY] is regenerated at every start), every
    alert on that exchange fails: [InvalidToken] is caught as a generic
    exception, the result is a failure with the empty message "Error
    executing order: " and a failure record is written. *)
Theorem restart_invalidates_stored_keys alert w key cfg a s :
  w_redis w !! config_key (user_id alert) (config_name alert) = Some (SConfig cfg) ->
  w_redis w !! creds_key (user_id alert) (cd_exchange cfg) = Some (SCreds a s) ->
  fernet_decrypt key a = None ->
  process_tradingview_alert alert (restart key w) =
    (Ok (error_result "" (w_now w)),
     set_redis <[history_key (user_id alert) (w_now w) :=
                 SHistory (HistFailure (config_name alert) (w_now w) (error_message ""))]>
       (restart key w)).
Proof.
  intros Hc Hk Ha.
  assert (He : (∅ : gmap string Client) !! client_key (user_id alert) (cd_exchange cfg) = None)
    by apply lookup_empty.
  unfold restart, process_tradingview_alert, execute_alert, get_alert_config, as_config,
    get_exchange_client, get_exchange_api_key, decrypt_data, handle_error.
  py_simp. reflexivity.
Qed.
End Restart.

Section RestartExamples.
#[local] Existing Instances demo_fernet demo_ccxt demo_api.

Lemma restart_invalidates_stored_keys_witness :
  process_tradingview_alert demo_alert (restart "z" demo_world) =
    (Ok (error_result "" (w_now demo_world)),
     set_redis <[history_key "u1" (w_now demo_world) :=
                 SHistory (HistFailure "c1" (w_now demo_world) (error_message ""))]>
       (restart "z" demo_world)).
Proof. apply (restart_invalidates_stored_keys demo_alert demo_world "z" demo_config "kKEY" "kSECRET"); reflexivity. Defined.
End RestartExamples.

(** ** Two identical alerts *)

(** The number of orders placed and of history records of a user. *)
Definition orders_placed (w : World) : nat := List.length (filter (fun c => is_create_order c = true) (w_calls w)).
Definition history_records (u : string) (w : World) : nat :=
  List.length (filter (fun k => str_prefix (history_prefix u) k = true) (map fst (map_to_list (w_redis w)))).

Section Duplicates.
#[local] Existing Instances demo_fernet demo_ccxt demo_api.

End Duplicates.
