(* ===== verification/Orders.v ===== *)
(** * Orders: how many orders the server places

    The exchange call log [w_calls] only grows.  [orders_le n w w'] says that
    [w'] extends the log of [w] by calls of which at most [n] are
    [create_order]s.  The relation is graded: running a computation that places
    at most [a] orders, then one that places at most [b], places at most
    [a + b].  Through it: every operation but [execute_order] places no
    order, [execute_order] places at most one, so one webhook places at most
    one order whatever fails, and a sequence of requests served one after
    another (the event loop runs each handler to completion) places at most
    as many orders as it has webhooks. *)

From stdpp Require Import base gmap strings list relations.
From Stdlib Require Import QArith String Ascii ZArith.
From S2P Require Import Prelude Models World Database Gateway Quantity Dispatcher Pipeline Api.
Open Scope string_scope.
Open Scope list_scope.

(** The number of order placements in a list of calls. *)
Definition creates (l : list ExchangeCall) : nat :=
  List.length (List.filter is_create_order l).

Definition orders_le (n : nat) (w w' : World) : Prop :=
  exists l, w_calls w' = w_calls w ++ l /\ (creates l <= n)%nat.

Definition is_webhook (req : Request) : bool :=
  match req with Webhook _ => true | _ => false end.

(** The requests served one after another, each to completion. *)
Definition serve `{Fernet} `{Ccxt} `{ExchangeApi} (reqs : list Request) (w : World) : World :=
  foldl (fun w req => final (handle req) w) w reqs.

(** ** The graded relation *)

Lemma creates_app l1 l2 : creates (l1 ++ l2) = (creates l1 + creates l2)%nat.
Proof. unfold creates. by rewrite List.filter_app, length_app. Qed.

Lemma orders_le_calls_eq n w w' : w_calls w' = w_calls w -> orders_le n w w'.
Proof. intros E. exists []. rewrite app_nil_r. split; [done|]. change (creates []) with 0%nat. lia. Qed.

Lemma orders_le_refl n w : orders_le n w w.
Proof. by apply orders_le_calls_eq. Qed.

Lemma orders_le_trans a b w1 w2 w3 :
  orders_le a w1 w2 -> orders_le b w2 w3 -> orders_le (a + b) w1 w3.
Proof.
  intros (l1 & E1 & C1) (l2 & E2 & C2). exists (l1 ++ l2).
  rewrite E2, E1, app_assoc, creates_app. split; [done|lia].
Qed.

Lemma orders_le_mono a b w w' : (a <= b)%nat -> orders_le a w w' -> orders_le b w w'.
Proof. intros Hab (l & E & C). exists l. split; [done|lia]. Qed.

#[export] Instance orders_le_0_preorder : PreOrder (orders_le 0).
Proof. split; [intros w; apply orders_le_refl|intros w1 w2 w3 A B; exact (orders_le_trans 0 0 _ _ _ A B)]. Qed.

Lemma within_orders_le_mono {A} a b (m : M A) :
  (a <= b)%nat -> within (orders_le a) m -> within (orders_le b) m.
Proof. intros Hab Hm w. by apply (orders_le_mono a). Qed.

Lemma orders_bind_l {A B} n (m : M A) (k : A -> M B) :
  within (orders_le 0) m -> (forall a, within (orders_le n) (k a)) -> within (orders_le n) (bind m k).
Proof.
  apply within_bind_seq; [|intros; by apply (orders_le_mono 0); [lia|]].
  intros ? ? ? A1 A2. exact (orders_le_trans 0 n _ _ _ A1 A2).
Qed.

Lemma orders_bind_r {A B} n (m : M A) (k : A -> M B) :
  within (orders_le n) m -> (forall a, within (orders_le 0) (k a)) -> within (orders_le n) (bind m k).
Proof.
  apply within_bind_seq; [|done].
  intros ? ? ? A1 A2. rewrite <- (Nat.add_0_r n). exact (orders_le_trans n 0 _ _ _ A1 A2).
Qed.

Lemma orders_try_r {A} n (m : M A) h :
  within (orders_le n) m -> (forall e, within (orders_le 0) (h e)) -> within (orders_le n) (try_except m h).
Proof.
  apply within_try_seq; [|done].
  intros ? ? ? A1 A2. rewrite <- (Nat.add_0_r n). exact (orders_le_trans n 0 _ _ _ A1 A2).
Qed.

(** ** The primitive effects *)

Lemma within_orders_modify_redis f : within (orders_le 0) (modify (set_redis f)).
Proof. intros w. by apply orders_le_calls_eq. Qed.

Lemma within_orders_modify_clients f : within (orders_le 0) (modify (set_clients f)).
Proof. intros w. by apply orders_le_calls_eq. Qed.

Lemma within_orders_call {A} c (answer : list ExchangeCall -> outcome A) :
  within (orders_le (if is_create_order c then 1 else 0)) (exchange_call c answer).
Proof.
  intros w. exists [c]. split; [done|].
  destruct c; cbn; lia.
Qed.

Lemma within_orders_query {A} c (answer : list ExchangeCall -> outcome A) :
  is_create_order c = false -> within (orders_le 0) (exchange_call c answer).
Proof. intros Hc. pose proof (within_orders_call c answer) as Hw. by rewrite Hc in Hw. Qed.

Lemma within_orders_create {A} cl r (answer : list ExchangeCall -> outcome A) :
  within (orders_le 1) (exchange_call (CallCreateOrder cl r) answer).
Proof. exact (within_orders_call (CallCreateOrder cl r) answer). Qed.

Create HintDb orders.
#[export] Hint Resolve within_orders_modify_redis within_orders_modify_clients : orders.
#[export] Hint Extern 1 (within (orders_le 0) (exchange_call _ _)) =>
  apply within_orders_query; reflexivity : orders.

(** Close a goal [within (orders_le 0) m] for an [m] that places no order. *)
Ltac no_orders :=
  cbv zeta; within_split;
  unfold fetch_balance, fetch_ticker, create_order, datetime_now,
    redis_get, redis_set, redis_delete, redis_keys_prefix in *;
  within_split; eauto with orders typeclass_instances.

(** ** Operation by operation *)

Section OrderCounts.
Context `{Fernet} `{Ccxt} `{ExchangeApi}.

Lemma get_alert_config_no_orders u n : within (orders_le 0) (get_alert_config u n).
Proof. unfold get_alert_config. no_orders. Qed.

Lemma get_exchange_api_key_no_orders u e : within (orders_le 0) (get_exchange_api_key u e).
Proof. unfold get_exchange_api_key, decrypt_data. no_orders. Qed.
#[local] Hint Resolve get_exchange_api_key_no_orders : orders.

Lemma get_exchange_client_no_orders u e : within (orders_le 0) (get_exchange_client u e).
Proof. unfold get_exchange_client. no_orders. Qed.

Lemma load_configs_no_orders u keys : within (orders_le 0) (load_configs u keys).
Proof. induction keys; simpl; unfold get_alert_config; no_orders. Qed.

Lemma load_history_no_orders keys : within (orders_le 0) (load_history keys).
Proof. induction keys; simpl; no_orders. Qed.

Lemma determine_quantity_no_orders ex cfg alert sym : within (orders_le 0) (determine_quantity ex cfg alert sym).
Proof.
  unfold determine_quantity, quantity_from_percentage, current_price, require_quantity,
    py_getindex, py_float, py_truediv.
  no_orders.
Qed.

Lemma save_alert_history_no_orders u h : within (orders_le 0) (save_alert_history u h).
Proof. unfold save_alert_history. no_orders. Qed.

Lemma as_config_no_orders s : within (orders_le 0) (as_config s).
Proof. unfold as_config. no_orders. Qed.
End OrderCounts.

#[export] Hint Resolve get_alert_config_no_orders get_exchange_api_key_no_orders
  get_exchange_client_no_orders load_configs_no_orders load_history_no_orders
  determine_quantity_no_orders save_alert_history_no_orders as_config_no_orders : orders.
Create HintDb orders1.
#[export] Hint Resolve within_orders_create : orders1.

(** Close a goal [within (orders_le 1) m]: the single step that may place an
    order is found among the [orders1] lemmas, every other one places none. *)
Ltac one_order :=
  cbv zeta; repeat match goal with
  | |- within (orders_le 0) _ => solve [no_orders]
  | |- within (orders_le 1) (bind _ _) => apply orders_bind_r; [solve [eauto with orders1]|intro]
  | |- within (orders_le 1) (bind _ _) => apply orders_bind_l; [solve [no_orders]|intro]
  | |- within (orders_le 1) (try_except _ _) => apply orders_try_r; [|intro]
  | |- within (orders_le 1) (if ?b then _ else _) => destruct b
  | |- within (orders_le 1) (match ?x with _ => _ end) => destruct x
  | |- within (orders_le 1) _ => apply (within_orders_le_mono 0); [lia|solve [no_orders]]
  end.

Section OneOrder.
Context `{Fernet} `{Ccxt} `{ExchangeApi}.

Lemma execute_order_one_order ex cfg alert ot sym side q :
  within (orders_le 1) (execute_order ex cfg alert ot sym side q).
Proof. unfold execute_order, required_price, create_order. one_order. Qed.
End OneOrder.

#[export] Hint Resolve execute_order_one_order : orders1.

Section Serve.
Context `{Fernet} `{Ccxt} `{ExchangeApi}.

(** One webhook places at most one order, whichever step fails: sizing and
    pricing errors come before the order, the history write after it, and
    the handler of the [except] places none. *)
Lemma process_tradingview_alert_one_order alert :
  within (orders_le 1) (process_tradingview_alert alert).
Proof. unfold process_tradingview_alert, execute_alert, handle_error. one_order. Qed.

Lemma handle_orders req : within (orders_le (if is_webhook req then 1 else 0)) (handle req).
Proof.
  destruct req; simpl;
    unfold read_root, add_api_key, get_api_key_status, remove_api_key, create_alert_config,
      get_config, list_configs, remove_config, get_user_alert_history, list_exchanges, webhook,
      except_500, save_exchange_api_key, encrypt_data, delete_exchange_api_key,
      save_alert_config, get_all_alert_configs, delete_alert_config, get_alert_history;
    try solve [no_orders].
  apply orders_bind_r; [apply process_tradingview_alert_one_order|intro; no_orders].
Qed.

(** C33: requests served one after another only append to the exchange
    call log, and place at most as many orders as there are webhooks among
    them: no other endpoint trades, and no alert trades twice. *)
Theorem serve_orders_le reqs w :
  orders_le (List.length (List.filter is_webhook reqs)) w (serve reqs w).
Proof.
  induction reqs as [|req reqs IH] in w |- *; simpl; [apply orders_le_refl|].
  eapply orders_le_mono; [|eapply orders_le_trans; [apply handle_orders|apply IH]].
  destruct (is_webhook req); simpl; lia.
Qed.
End Serve.
