(* ===== verification/PipelineSpec.v ===== *)
(** * PipelineSpec: the contract of the webhook handler

    What one call of [process_tradingview_alert] promises, as an abstract
    relation between the world before, the outcome and the world after: it
    is rejected with an [HTTPException] and writes nothing, or it fails and
    writes exactly the failure record of the message it returns, or it
    executes and writes exactly the success record carrying the result's
    order id and exchange answer; in every case it places at most one order
    and leaves the clock and the encryption key alone.  The refinement
    theorem shows the handler of [Pipeline] implements it. *)

From stdpp Require Import base gmap strings list relations.
From Stdlib Require Import QArith String Ascii ZArith.
From S2P Require Import Prelude Models World Database Gateway Quantity Dispatcher Pipeline Api Orders.
Open Scope string_scope.
Open Scope list_scope.

Inductive alert_outcome (alert : TradingViewAlertModel) (w : World) :
    outcome OrderResultModel -> World -> Prop :=
| OutRejected code detail w' :
    w_redis w' = w_redis w ->
    alert_outcome alert w (Raise (HTTPException code detail)) w'
| OutFailed msg w' :
    w_redis w' = <[history_key (user_id alert) (w_now w) :=
                   SHistory (HistFailure (config_name alert) (w_now w) (error_message msg))]> (w_redis w) ->
    alert_outcome alert w (Ok (error_result msg (w_now w))) w'
| OutExecuted r sym side q w' :
    success r = true -> timestamp r = w_now w ->
    w_redis w' = <[history_key (user_id alert) (w_now w) :=
                   SHistory (HistSuccess (config_name alert) sym side q (tv_price alert) (w_now w)
                               (order_id r) (details r))]> (w_redis w) ->
    alert_outcome alert w (Ok r) w'.

(** The clock and the process key are the environment's. *)
Definition env_kept (w w' : World) : Prop :=
  w_now w' = w_now w /\ w_encryption_key w' = w_encryption_key w.

Definition alert_contract (alert : TradingViewAlertModel) (w : World)
    (o : outcome OrderResultModel) (w' : World) : Prop :=
  alert_outcome alert w o w' /\ orders_le 1 w w' /\ env_kept w w'.

#[export] Instance env_kept_preorder : PreOrder env_kept.
Proof. split; [by intros w|intros w1 w2 w3 [A1 B1] [A2 B2]; split; congruence]. Qed.

Lemma env_kept_redis f : within env_kept (modify (set_redis f)).
Proof. by intros w. Qed.

Lemma env_kept_clients f : within env_kept (modify (set_clients f)).
Proof. by intros w. Qed.

Lemma env_kept_call {A} c (answer : list ExchangeCall -> outcome A) : within env_kept (exchange_call c answer).
Proof. by intros w. Qed.

Create HintDb env.
#[export] Hint Resolve env_kept_redis env_kept_clients env_kept_call : env.

Ltac env_solve :=
  cbv zeta; within_split;
  unfold fetch_balance, fetch_ticker, create_order, datetime_now,
    redis_get, redis_set, redis_delete, redis_keys_prefix in *;
  within_split; eauto with env typeclass_instances.

Section Contract.
Context `{Fernet} `{Ccxt} `{ExchangeApi}.

Lemma process_env_kept alert : within env_kept (process_tradingview_alert alert).
Proof.
  unfold process_tradingview_alert, execute_alert, handle_error, get_alert_config, as_config,
    get_exchange_client, get_exchange_api_key, decrypt_data, determine_quantity,
    quantity_from_percentage, current_price, require_quantity, py_getindex, py_float,
    py_truediv, execute_order, required_price, save_alert_history.
  env_solve.
Qed.

(** The successful body writes the success record of its result. *)
Lemma execute_alert_ok_shape alert w r w' :
  execute_alert alert w = (Ok r, w') ->
  success r = true /\ timestamp r = w_now w /\
  exists sym side q,
    w_redis w' = <[history_key (user_id alert) (w_now w) :=
                   SHistory (HistSuccess (config_name alert) sym side q (tv_price alert) (w_now w)
                               (order_id r) (details r))]> (w_redis w).
Proof.
  unfold execute_alert. intros E. ok_steps E.
  destruct a as [stored|]; simpl in E; [|discriminate].
  cbv zeta in E. ok_steps E.
  unfold ret in E. inversion E; subst; clear E.
  rewrite save_alert_history_run in Hrun5. inversion Hrun5; subst; clear Hrun5.
  unfold datetime_now, gets in Hrun4. inversion Hrun4; subst; clear Hrun4.
  frames. simpl. split; [done|].
  match goal with |- w_now ?s = _ /\ _ =>
    assert (En : w_now s = w_now w) by congruence;
    assert (Er : w_redis s = w_redis w) by congruence;
    rewrite En, Er end.
  split; [done|]. by do 3 eexists.
Qed.
End Contract.

Section Refinement.
Context `{Fernet} `{Ccxt} `{ExchangeApi}.

(** C40: the webhook handler implements its contract: every call is
    rejected with an [HTTPException] and writes nothing, or returns the
    failure result of a message and writes exactly its failure record, or
    returns a success result and writes exactly the success record carrying
    its order id and exchange answer; it places at most one order and keeps
    the clock and the encryption key. *)
Theorem process_tradingview_alert_refines alert w :
  alert_contract alert w (process_tradingview_alert alert w).1 (process_tradingview_alert alert w).2.
Proof.
  pose proof (process_tradingview_alert_one_order alert w) as Ho.
  pose proof (process_env_kept alert w) as He. unfold final in Ho, He.
  destruct (process_tradingview_alert alert w) as [o w'] eqn:E. simpl in *.
  split; [|done]. unfold process_tradingview_alert, try_except in E.
  destruct (execute_alert alert w) as [[r|e] w1] eqn:Ex.
  - injection E as <- <-.
    destruct (execute_alert_ok_shape _ _ _ _ Ex) as (Hs & Ht & sym & side & q & Hr).
    by apply (OutExecuted _ _ r sym side q).
  - pose proof (execute_alert_on_raise alert w e w1 Ex) as (Hre & Hnow & _).
    destruct e as [code detail|cls msg]; simpl in E.
    + injection E as <- <-. by constructor.
    + unfold datetime_now, gets, bind in E. rewrite save_alert_history_run in E.
      injection E as <- <-. rewrite Hnow. constructor. simpl. by rewrite Hre.
Qed.
End Refinement.
