(* ===== verification/Frontend.v ===== *)
(** * Frontend: the configuration form of [frontend/app/main.py]

    Lines 208-256 of the Streamlit page: the widgets' values and the dict
    [config_data] the page posts to [/api/config].  Only this assembly is
    modelled; rendering and HTTP calls are I/O. *)

From stdpp Require Import base strings list.
From Stdlib Require Import QArith String ZArith.
From S2P Require Import Prelude Models.
Open Scope string_scope.
Open Scope list_scope.

(** The values of the form's widgets.  The percentage widget is an integer
    in [1, 100]; the quantity and price widgets are floats at least 0. *)
Record ConfigForm := {
  f_name : string;
  f_exchange : ExchangeEnum;
  f_symbol : string;
  f_order_type : OrderTypeEnum;
  f_position_side : PositionSideEnum;
  f_use_percentage : bool;
  f_quantity_percentage : Z;
  f_quantity : Q;
  f_price : Q;
  f_description : string
}.

(** [None] when the page shows "Name and Symbol are required". *)
Definition build_config_data (f : ConfigForm) : option AlertConfigModel :=
  let quantity_percentage := if f_use_percentage f then Some (inject_Z (f_quantity_percentage f)) else None in
  let quantity := if f_use_percentage f then None else Some (f_quantity f) in
  let price := if decide (f_order_type f = MARKET) then None else Some (f_price f) in
  if String.eqb (f_name f) "" || String.eqb (f_symbol f) "" then None
  else
    let use_pct := f_use_percentage f && opt_truthy quantity_percentage in
    Some {| name := f_name f; exchange := f_exchange f; symbol := f_symbol f;
            order_type := f_order_type f; position_side := f_position_side f;
            quantity := if negb use_pct && opt_truthy quantity then quantity else None;
            quantity_percentage := if use_pct then quantity_percentage else None;
            price := if opt_truthy price then price else None;
            stop_loss := None; take_profit := None;
            description := Some (f_description f) |}.

(** C26: the form never posts both a quantity and a percentage; a market
    configuration carries no price; a percentage form carries no quantity.
    Both sizes can be absent (a quantity of 0): such a configuration is
    accepted and every alert on it fails with "Could not determine order
    quantity". *)
Theorem build_config_data_sizes f c :
  build_config_data f = Some c ->
  (quantity c = None \/ quantity_percentage c = None) /\
  (f_order_type f = MARKET -> price c = None) /\
  (f_use_percentage f = true -> quantity c = None).
Proof.
  unfold build_config_data.
  destruct (String.eqb (f_name f) "" || String.eqb (f_symbol f) ""); [done|].
  intros [= <-]; simpl. split; [|split].
  - destruct (f_use_percentage f), (opt_truthy _); simpl; auto.
  - intros Ho. rewrite Ho, decide_True by done. reflexivity.
  - intros Hu. rewrite Hu. by destruct (opt_truthy _).
Qed.

(** The configuration posted carries the form's name. *)
Lemma build_config_data_name f c : build_config_data f = Some c -> name c = f_name f.
Proof.
  unfold build_config_data. destruct (String.eqb (f_name f) "" || String.eqb (f_symbol f) ""); [done|].
  by intros [= <-].
Qed.

Definition zero_quantity_form : ConfigForm := {|
  f_name := "c0"; f_exchange := BINANCE; f_symbol := "BTC/USDT"; f_order_type := MARKET;
  f_position_side := LONG; f_use_percentage := false; f_quantity_percentage := 10;
  f_quantity := 0; f_price := 0; f_description := ""
|}.

Lemma build_config_data_sizes_witness :
  exists c, build_config_data zero_quantity_form = Some c /\
    (quantity c = None \/ quantity_percentage c = None) /\
    (f_order_type zero_quantity_form = MARKET -> price c = None) /\
    (f_use_percentage zero_quantity_form = true -> quantity c = None).
Proof.
  eexists. split; [reflexivity|].
  apply build_config_data_sizes. reflexivity.
Defined.
