(* ===== verification/Pages.v ===== *)
(** * Pages: the Streamlit frontend talking to the backend over HTTP

    Lines 28-65 (the helpers [api_get], [api_post], [api_delete]) and the
    request-driven parts of the pages of [frontend/app/main.py]: the API key
    form (132-146), the exchange status table (159-167, 177), the
    submission of the configuration form (236-264) and the history table
    (306-324).  The frontend's state [Front] holds the backend's [World]
    (the server reached over HTTP), whether the backend can be reached, and
    the messages the page has shown ([st.error], [st.success], [st.info],
    [st.json] and [st.code]).
    FastAPI's own layer, which turns a handler's outcome into an HTTP reply,
    is [http_reply]; the route of a URL is given directly as the [Request]
    it selects. *)

From stdpp Require Import base gmap strings list relations pretty.
From Stdlib Require Import QArith String Ascii ZArith.
From S2P Require Import Prelude Models World Database Gateway Quantity Dispatcher Pipeline Api Frontend.
Open Scope string_scope.
Open Scope list_scope.

(** ** FastAPI's HTTP layer *)

Record HttpReply := {
  http_status : Z;
  reply_json : option Response;
  reply_text : string
}.

Definition dq : string := String (Ascii.ascii_of_nat 34) EmptyString.

(** The body of an [HTTPException] reply, [{"detail": detail}]. *)
Definition detail_json (d : string) : string :=
  "{" +:+ dq +:+ "detail" +:+ dq +:+ ":" +:+ dq +:+ d +:+ dq +:+ "}".

(** A returned value is a 200 with its JSON; an [HTTPException] its status
    and detail; any other exception a plain 500. *)
Definition http_reply (o : outcome Response) : HttpReply :=
  match o with
  | Ok r => {| http_status := 200; reply_json := Some r; reply_text := "" |}
  | Raise (HTTPException c d) => {| http_status := c; reply_json := None; reply_text := detail_json d |}
  | Raise (PyException _ _) => {| http_status := 500; reply_json := None; reply_text := "Internal Server Error" |}
  end.

(** ** The frontend's state *)

Inductive UiMsg :=
| UiError (text : string)
| UiSuccess (text : string)
| UiInfo (text : string)
| UiJson (value : Stored)
| UiCode (text : string).


Record Front := {
  fe_backend : World;
  fe_unreachable : option string;
  fe_shown : list UiMsg
}.

Abbreviation FM := (PyM Front).

Definition set_backend (w : World) (f : Front) : Front :=
  {| fe_backend := w; fe_unreachable := fe_unreachable f; fe_shown := fe_shown f |}.

Definition add_msg (m : UiMsg) (f : Front) : Front :=
  {| fe_backend := fe_backend f; fe_unreachable := fe_unreachable f; fe_shown := fe_shown f ++ [m] |}.

(** [st.error], [st.success], [st.info], [st.json], [st.code]. *)
Definition show (m : UiMsg) : FM unit := modify (add_msg m).

Definition api_error (r : HttpReply) : UiMsg :=
  UiError ("API Error (" +:+ pretty (http_status r) +:+ "): " +:+ reply_text r).

Definition connection_error (e : exn) : UiMsg := UiError ("Connection error: " +:+ exn_str e).

Section Http.
Context `{Fernet} `{Ccxt} `{ExchangeApi}.

(** The backend serves the request to completion. *)
Definition http (req : Request) : M HttpReply :=
  fun w => let (o, w') := handle req w in (Ok (http_reply o), w').

(** [client.get/post/delete(f"{API_BASE_URL}{endpoint}", ...)]: httpx
    raises when the backend cannot be reached. *)
Definition send (req : Request) : FM HttpReply :=
  fun f => match fe_unreachable f with
           | Some e => (Raise (PyException "ConnectError" e), f)
           | None => let (o, w') := http req (fe_backend f) in (o, set_backend w' f)
           end.

Definition api_get (req : Request) : FM (option Response) :=
  try_except (
    response <- send req ;;
    if Z.eqb (http_status response) 200 then ret (reply_json response)
    else show (api_error response) ;;; ret None)
  (fun e => show (connection_error e) ;;; ret None).

Definition api_post (req : Request) : FM (option Response) :=
  try_except (
    response <- send req ;;
    if Z.eqb (http_status response) 200 || Z.eqb (http_status response) 201 then ret (reply_json response)
    else show (api_error response) ;;; ret None)
  (fun e => show (connection_error e) ;;; ret None).

(** [response.json() if response.content else {"success": True}] *)
Definition api_delete (req : Request) : FM (option Response) :=
  try_except (
    response <- send req ;;
    if Z.eqb (http_status response) 200 || Z.eqb (http_status response) 204 then
      match reply_json response with
      | Some r => ret (Some r)
      | None => ret (Some (RDeleted true))
      end
    else show (api_error response) ;;; ret None)
  (fun e => show (connection_error e) ;;; ret None).
End Http.

(** ** Pure helpers of the pages *)

(** [str.capitalize()] on ASCII: the first letter upper case, the rest
    lower case. *)
Definition ascii_upper (a : ascii) : ascii :=
  let n := nat_of_ascii a in if Nat.leb 97 n && Nat.leb n 122 then ascii_of_nat (n - 32)%nat else a.

Definition ascii_lower (a : ascii) : ascii :=
  let n := nat_of_ascii a in if Nat.leb 65 n && Nat.leb n 90 then ascii_of_nat (n + 32)%nat else a.

Fixpoint str_lower (s : string) : string :=
  match s with EmptyString => EmptyString | String a s' => String (ascii_lower a) (str_lower s') end.

Definition py_capitalize (s : string) : string :=
  match s with EmptyString => EmptyString | String a s' => String (ascii_upper a) (str_lower s') end.

(** A row of the exchange status table. *)
Record StatusRow := {
  row_exchange : string;
  row_configured : string;
  row_action : option string
}.

(** [status.get("has_keys")] *)
Definition has_keys_of (r : Response) : bool :=
  match r with RHasKeys b => b | _ => false end.

Definition status_row (exchange : string) (status : Response) : StatusRow :=
  {| row_exchange := py_capitalize exchange;
     row_configured := if has_keys_of status then "✅" else "❌";
     row_action := if has_keys_of status then Some exchange else None |}.

(** The options of "Select exchange to remove API keys". *)
Definition delete_options (rows : list StatusRow) : list string := omap row_action rows.

(** A cell of the history table: [entry.get(key, default)] is the value
    stored (possibly JSON [null]) when the key is present, else the default. *)
Inductive Cell :=
| CStr (s : string)
| CNum (q : Q)
| CNull.

Definition na : Cell := CStr "N/A".

Definition opt_num (p : option Q) : Cell := match p with Some q => CNum q | None => CNull end.

Record HistoryRow := {
  hr_timestamp : Cell; hr_config : Cell; hr_symbol : Cell; hr_side : Cell;
  hr_price : Cell; hr_status : string; hr_message : Cell
}.

(** The [record] dict built for one [entry] of the history (lines 315-323).
    A success record has no ["message"], a failure record no ["symbol"],
    ["side"] or ["price"]; a configuration listed under an [alert:] key has
    ["symbol"] and ["price"] but no ["timestamp"], ["config_name"] or
    ["success"]. *)
Definition history_row (entry : Stored) : HistoryRow :=
  match entry with
  | SHistory (HistSuccess cn sym side _ price ts _ _) =>
      {| hr_timestamp := CStr ts; hr_config := CStr cn; hr_symbol := CStr sym; hr_side := CStr side;
         hr_price := opt_num price; hr_status := "Success"; hr_message := na |}
  | SHistory (HistFailure cn ts msg) =>
      {| hr_timestamp := CStr ts; hr_config := CStr cn; hr_symbol := na; hr_side := na;
         hr_price := na; hr_status := "Failed"; hr_message := CStr msg |}
  | SConfig c =>
      {| hr_timestamp := CNull; hr_config := CNull; hr_symbol := CStr (cd_symbol c); hr_side := na;
         hr_price := opt_num (cd_price c); hr_status := "Failed"; hr_message := na |}
  | SCreds _ _ =>
      {| hr_timestamp := CNull; hr_config := CNull; hr_symbol := na; hr_side := na;
         hr_price := na; hr_status := "Failed"; hr_message := na |}
  end.

(** ** The pages' request-driven steps *)

Section PageSteps.
Context `{Fernet} `{Ccxt} `{ExchangeApi}.

(** The "Save API Keys" submission (lines 132-146). *)
Definition submit_api_keys (selected_exchange : ExchangeEnum) (api_key api_secret : string) : FM unit :=
  if negb (String.eqb api_key "") && negb (String.eqb api_secret "") then
    result <- api_post (AddApiKey {| ak_exchange := selected_exchange; ak_api_key := api_key;
                                     ak_api_secret := api_secret |}) ;;
    match result with
    | Some (RSaved true _) => show (UiSuccess ("API keys saved for " +:+ exchange_value selected_exchange))
    | _ => show (UiError "Failed to save API keys")
    end
  else show (UiError "API Key and Secret are required").

(** The status loop (lines 159-167): one [GET /api/keys/{exchange}] per
    exchange, in order; a failed request leaves its exchange out. *)
Fixpoint exchange_status (exchanges : list string) : FM (list StatusRow) :=
  match exchanges with
  | [] => ret []
  | exchange :: rest =>
      status <- api_get (GetApiKeyStatus exchange) ;;
      rows <- exchange_status rest ;;
      ret (match status with
           | Some s => status_row exchange s :: rows
           | None => rows
           end)
  end.

(** The "Save Configuration" submission (lines 236-264). *)
Definition submit_config (f : ConfigForm) : FM unit :=
  match build_config_data f with
  | None => show (UiError "Name and Symbol are required")
  | Some config_data =>
      result <- api_post (CreateAlertConfig config_data) ;;
      match result with
      | Some (RSaved true _) => show (UiSuccess ("Alert configuration '" +:+ f_name f +:+ "' saved"))
      | _ => show (UiError "Failed to save alert configuration")
      end
  end.

(** [st.selectbox(..., options=range(n))]: the index the user picked, the
    first option (Streamlit's default [index=0]) until then or when the
    pick is no longer among the options; [None] when there is no option. *)
Definition st_selectbox_range (n : nat) (choice : nat) : option nat :=
  match n with
  | O => None
  | S _ => Some (if decide (choice < n)%nat then choice else 0%nat)
  end.

(** The history page (lines 306-335): [GET /api/history?limit=...], one
    row per entry ([records]), and the selector that shows the JSON of the
    picked entry, [history[selected_idx]]. *)
Definition show_alert_history (limit : Z) (choice : nat) : FM (list HistoryRow) :=
  history <- api_get (GetHistory limit) ;;
  match history with
  | Some (RHistory ((_ :: _) as entries)) =>
      let records := map history_row entries in
      match records with
      | [] => show (UiInfo "No alert history records found") ;;; ret records
      | _ :: _ =>
          match st_selectbox_range (List.length records) choice with
          | Some selected_idx =>
              entry <- py_getindex entries selected_idx ;;
              show (UiJson entry) ;;; ret records
          | None => ret records
          end
      end
  | Some (RHistory []) | None => show (UiInfo "No alert history found") ;;; ret []
  | Some _ => ret []
  end.
End PageSteps.

(** ** Running the HTTP helpers against a reachable backend *)

Lemma set_backend_same f : set_backend (fe_backend f) f = f.
Proof. by destruct f. Qed.

Section HttpRuns.
Context `{Fernet} `{Ccxt} `{ExchangeApi}.

Lemma api_get_ok req f r w' :
  fe_unreachable f = None -> handle req (fe_backend f) = (Ok r, w') ->
  api_get req f = (Ok (Some r), set_backend w' f).
Proof. intros Hu Hh. unfold api_get, send, http, try_except, bind. by rewrite Hu, Hh. Qed.

Lemma api_post_ok req f r w' :
  fe_unreachable f = None -> handle req (fe_backend f) = (Ok r, w') ->
  api_post req f = (Ok (Some r), set_backend w' f).
Proof. intros Hu Hh. unfold api_post, send, http, try_except, bind. by rewrite Hu, Hh. Qed.

(** An [HTTPException] becomes an "API Error" message and [None]. *)
Lemma api_get_http_error req f c d w' :
  fe_unreachable f = None -> handle req (fe_backend f) = (Raise (HTTPException c d), w') -> c <> 200%Z ->
  api_get req f = (Ok None, add_msg (api_error (http_reply (Raise (HTTPException c d)))) (set_backend w' f)).
Proof.
  intros Hu Hh Hc. apply Z.eqb_neq in Hc.
  unfold api_get, send, http, try_except, bind. rewrite Hu, Hh. simpl. by rewrite Hc.
Qed.
End HttpRuns.

(** ** The backend's side of the key pages *)

Section KeyEndpoints.
Context `{Fernet} `{Ccxt} `{ExchangeApi}.

Lemma add_api_key_run ak w :
  handle (AddApiKey ak) w =
    (Ok (RSaved true "API keys saved successfully"),
     set_redis <[creds_key default_user (exchange_value (ak_exchange ak)) :=
                 SCreds (fernet_encrypt (w_encryption_key w) (ak_api_key ak))
                        (fernet_encrypt (w_encryption_key w) (ak_api_secret ak))]> w).
Proof. reflexivity. Qed.

Lemma get_api_key_status_present e w a s ka ks :
  w_redis w !! creds_key default_user e = Some (SCreds a s) ->
  fernet_decrypt (w_encryption_key w) a = Some ka ->
  fernet_decrypt (w_encryption_key w) s = Some ks ->
  handle (GetApiKeyStatus e) w = (Ok (RHasKeys true), w).
Proof.
  intros Hk Ha Hs. simpl. unfold get_api_key_status, except_500, try_except, bind.
  by rewrite (get_exchange_api_key_present _ _ _ _ _ _ _ Hk Ha Hs).
Qed.

(** Keys that no longer decrypt: [InvalidToken] (whose [str] is empty)
    becomes the 500 of [except_500]. *)
Lemma get_api_key_status_undecryptable e w a s :
  w_redis w !! creds_key default_user e = Some (SCreds a s) ->
  fernet_decrypt (w_encryption_key w) a = None ->
  handle (GetApiKeyStatus e) w = (Raise (HTTPException 500 ""), w).
Proof.
  intros Hk Ha. simpl. unfold get_api_key_status, except_500, get_exchange_api_key, decrypt_data.
  py_simp. reflexivity.
Qed.
End KeyEndpoints.

Section KeyPages.
Context `{Fernet} `{Ccxt} `{ExchangeApi}.

(** C34: saving API keys through the form, then loading the status table,
    shows the success message and a row that marks the exchange as
    configured and offers it for deletion. *)
Theorem api_keys_form_roundtrip e k s f :
  fe_unreachable f = None -> k <> "" -> s <> "" ->
  exists f1,
    submit_api_keys e k s f = (Ok tt, f1) /\
    fe_shown f1 = fe_shown f ++ [UiSuccess ("API keys saved for " +:+ exchange_value e)] /\
    exchange_status [exchange_value e] f1 =
      (Ok [{| row_exchange := py_capitalize (exchange_value e); row_configured := "✅";
              row_action := Some (exchange_value e) |}], f1).
Proof.
  intros Hu Hk Hs. apply String.eqb_neq in Hk, Hs.
  set (ak := {| ak_exchange := e; ak_api_key := k; ak_api_secret := s |}).
  set (w := fe_backend f). set (ek := w_encryption_key w).
  set (w1 := set_redis <[creds_key default_user (exchange_value e) :=
                         SCreds (fernet_encrypt ek k) (fernet_encrypt ek s)]> w).
  exists (add_msg (UiSuccess ("API keys saved for " +:+ exchange_value e)) (set_backend w1 f)).
  split; [|split; [done|]].
  - unfold submit_api_keys. rewrite Hk, Hs. simpl. unfold bind.
    by rewrite (api_post_ok _ _ _ _ Hu (add_api_key_run ak w)).
  - simpl. unfold bind.
    rewrite (api_get_ok _ (add_msg (UiSuccess _) (set_backend w1 f)) _ _ Hu (get_api_key_status_present _ w1 _ _ k s
               (lookup_insert_eq _ _ _) (fernet_decrypt_encrypt _ _) (fernet_decrypt_encrypt _ _))).
    reflexivity.
Qed.
End KeyPages.

Section RestartPage.
Context `{Fernet} `{Ccxt} `{ExchangeApi}.

(** C35: after a restart whose new encryption key does not decrypt the
    stored API key, the status request answers 500 and the page shows
    "API Error (500)" and drops the exchange from the table: an exchange
    whose keys are stored is shown neither as configured nor as missing,
    and cannot be selected for deletion. *)
Theorem restart_hides_configured_exchange e a s key f :
  fe_unreachable f = None ->
  w_redis (fe_backend f) !! creds_key default_user e = Some (SCreds a s) ->
  fernet_decrypt key a = None ->
  let f' := set_backend (restart key (fe_backend f)) f in
  exchange_status [e] f' = (Ok [], add_msg (UiError ("API Error (500): " +:+ detail_json "")) f').
Proof.
  intros Hu Hk Ha f'. simpl. unfold bind.
  rewrite (api_get_http_error _ f' 500 "" (restart key (fe_backend f)) Hu)
    by (by apply (get_api_key_status_undecryptable _ _ a s) || discriminate).
  reflexivity.
Qed.
End RestartPage.

(** The page's user is ["default"]: a backend holding its binance keys. *)
Definition demo_keys_world : World := set_redis (fun _ => <[creds_key default_user "binance" := SCreds "kKEY" "kSECRET"]> ∅) empty_world.
Definition demo_front : Front := {| fe_backend := demo_keys_world; fe_unreachable := None; fe_shown := [] |}.

Section PageExamples.
#[local] Existing Instances demo_fernet demo_ccxt demo_api.

Lemma api_keys_form_roundtrip_witness :
  exists f1,
    submit_api_keys BINANCE "KEY" "SECRET" demo_front = (Ok tt, f1) /\
    fe_shown f1 = fe_shown demo_front ++ [UiSuccess ("API keys saved for " +:+ exchange_value BINANCE)] /\
    exchange_status [exchange_value BINANCE] f1 =
      (Ok [{| row_exchange := py_capitalize (exchange_value BINANCE); row_configured := "✅";
              row_action := Some (exchange_value BINANCE) |}], f1).
Proof. apply api_keys_form_roundtrip; [reflexivity|discriminate|discriminate]. Defined.

Lemma restart_hides_configured_exchange_witness :
  exchange_status ["binance"] (set_backend (restart "z" demo_keys_world) demo_front) =
    (Ok [], add_msg (UiError ("API Error (500): " +:+ detail_json ""))
              (set_backend (restart "z" demo_keys_world) demo_front)).
Proof. apply (restart_hides_configured_exchange "binance" "kKEY" "kSECRET" "z" demo_front); reflexivity. Defined.
End PageExamples.

(** ** The configuration pages *)

Section ConfigPages.
Context `{Fernet} `{Ccxt} `{ExchangeApi}.

Lemma create_alert_config_run c w :
  handle (CreateAlertConfig c) w =
    (Ok (RSaved true "Configuration saved successfully"),
     set_redis <[config_key default_user (name c) := SConfig (config_dict c)]> w).
Proof. reflexivity. Qed.

Lemma get_config_present n v w :
  w_redis w !! config_key default_user n = Some v -> handle (GetConfig n) w = (Ok (RConfig v), w).
Proof. intros Hv. simpl. unfold get_config, get_alert_config. py_simp. reflexivity. Qed.

(** C36: submitting a valid configuration form stores the configuration
    under the form's name, shows the success message, and reading the
    configuration back by that name ([GET /api/config/{name}]) returns
    exactly the dict the form posted. *)
Theorem config_form_roundtrip f c fr :
  fe_unreachable fr = None -> build_config_data f = Some c ->
  exists fr1,
    submit_config f fr = (Ok tt, fr1) /\
    fe_shown fr1 = fe_shown fr ++ [UiSuccess ("Alert configuration '" +:+ f_name f +:+ "' saved")] /\
    api_get (GetConfig (f_name f)) fr1 = (Ok (Some (RConfig (SConfig (config_dict c)))), fr1).
Proof.
  intros Hu Hb. pose proof (build_config_data_name _ _ Hb) as Hn.
  set (w1 := set_redis <[config_key default_user (name c) := SConfig (config_dict c)]> (fe_backend fr)).
  set (fr1 := add_msg (UiSuccess ("Alert configuration '" +:+ f_name f +:+ "' saved")) (set_backend w1 fr)).
  exists fr1. split; [|split; [done|]].
  - unfold submit_config. rewrite Hb. unfold bind.
    by rewrite (api_post_ok _ _ _ _ Hu (create_alert_config_run c _)).
  - rewrite (api_get_ok (GetConfig (f_name f)) fr1 (RConfig (SConfig (config_dict c))) w1 Hu);
      [reflexivity|].
    apply get_config_present. rewrite <- Hn. apply lookup_insert_eq.
Qed.
End ConfigPages.

Section ConfigPageExamples.
#[local] Existing Instances demo_fernet demo_ccxt demo_api.

Lemma config_form_roundtrip_witness :
  exists c, build_config_data zero_quantity_form = Some c /\
  exists fr1,
    submit_config zero_quantity_form demo_front = (Ok tt, fr1) /\
    fe_shown fr1 = fe_shown demo_front ++ [UiSuccess ("Alert configuration '" +:+ f_name zero_quantity_form +:+ "' saved")] /\
    api_get (GetConfig (f_name zero_quantity_form)) fr1 = (Ok (Some (RConfig (SConfig (config_dict c)))), fr1).
Proof.
  eexists. split; [reflexivity|].
  apply config_form_roundtrip; reflexivity.
Defined.
End ConfigPageExamples.

(** ** The history page *)

Section HistoryPage.
Context `{Fernet} `{Ccxt} `{ExchangeApi}.

(** The records [GET /api/history?limit=...] returns: the values under the
    first [limit] keys of the default user's history, most recent first. *)
Definition history_entries (m : gmap string Stored) (limit : Z) : list Stored :=
  history_of m (take (Z.to_nat limit) (sort_desc (keys_with_prefix m (history_prefix default_user)))).

Lemma get_history_run limit w :
  (1 <= limit <= 100)%Z ->
  handle (GetHistory limit) w = (Ok (RHistory (history_entries (w_redis w) limit)), w).
Proof.
  intros Hl. simpl. unfold get_user_alert_history. rewrite decide_True by done.
  unfold except_500, get_alert_history, try_except, bind, redis_keys_prefix, gets.
  by rewrite load_history_equiv.
Qed.

(** The selector's pick indexes the fetched entries: the picked entry
    when it is in range, else the first. *)
Lemma selected_entry_run {St} (e : Stored) es choice (s : St) :
  py_getindex (e :: es) (if decide (choice < S (List.length es))%nat then choice else 0%nat) s =
    (Ok (default e ((e :: es) !! choice)), s).
Proof.
  destruct ((e :: es) !! choice) as [x|] eqn:Hx; simpl.
  - rewrite decide_True by (apply lookup_lt_Some in Hx; simpl in Hx; lia).
    unfold py_getindex. by rewrite Hx.
  - rewrite decide_False by (apply lookup_ge_None_1 in Hx; simpl in Hx; lia). done.
Qed.

Lemma show_alert_history_run limit choice fr :
  fe_unreachable fr = None -> (1 <= limit <= 100)%Z ->
  let entries := history_entries (w_redis (fe_backend fr)) limit in
  show_alert_history limit choice fr =
    (Ok (map history_row entries),
     match entries with
     | [] => add_msg (UiInfo "No alert history found") fr
     | e :: _ => add_msg (UiJson (default e (entries !! choice))) fr
     end).
Proof.
  intros Hu Hl entries. unfold show_alert_history.
  rewrite (run_bind_ok _ _ _ _ _ (api_get_ok _ _ _ _ Hu (get_history_run limit _ Hl))), set_backend_same.
  fold entries. destruct entries as [|e es]; [reflexivity|]. simpl. rewrite length_map.
  rewrite (run_bind_ok _ _ _ _ _ (selected_entry_run e es choice fr)). reflexivity.
Qed.

End HistoryPage.

Section HistoryPageExamples.
#[local] Existing Instances demo_fernet demo_ccxt demo_api.

End HistoryPageExamples.
