(* ===== verification/Streamlit.v ===== *)
(** * Streamlit: reruns, widgets and the pages of [frontend/app/main.py]

    Streamlit runs the whole script again after every interaction.  A
    button is [True] only in the run its click triggered; a checkbox keeps
    its value from the previous run if it was rendered there (toggled when
    the interaction was a click on it), and starts [False] otherwise; a
    widget not rendered in a run is forgotten.  [Ui] extends the frontend
    state [Front] with the widgets of the previous run, those rendered so
    far in this one, and the interaction that triggered the run.

    The pages are modelled over this state: the key page [show_api_keys]
    (112-191), the configuration page [show_alert_configs] (194-293), the
    history page (296-335), the dashboard (68-109) and the router (390-399).
    Widget values other than the delete flows' buttons and checkboxes are
    inputs of the run.  Both delete flows render their "Confirm deletion"
    checkbox only inside [if st.button(...)]: the run in which the checkbox
    can be ticked is not one in which the button is pressed, so the delete
    request is never sent. *)

From stdpp Require Import base gmap strings list relations pretty.
From Stdlib Require Import QArith String Ascii ZArith.
From S2P Require Import Prelude Models World Database Gateway Quantity Dispatcher Pipeline Api Frontend Pages.
Open Scope string_scope.
Open Scope list_scope.

(** ** Widgets across reruns *)

(** The interaction that triggered a run: a click on the button, or on the
    checkbox, of the given widget key, or anything else. *)
Inductive Event :=
| Click (key : string)
| Toggle (key : string)
| Elsewhere.

(** The buttons and checkboxes rendered by one run. *)
Record Session := {
  ss_buttons : list string;
  ss_checkboxes : gmap string bool
}.

Definition empty_session : Session := {| ss_buttons := []; ss_checkboxes := ∅ |}.

Record Ui := {
  ui_front : Front;
  ui_prev : Session;
  ui_next : Session;
  ui_event : Event
}.

Abbreviation UM := (PyM Ui).

Definition set_front (f : Front) (u : Ui) : Ui :=
  {| ui_front := f; ui_prev := ui_prev u; ui_next := ui_next u; ui_event := ui_event u |}.

Definition set_next (s : Session) (u : Ui) : Ui :=
  {| ui_front := ui_front u; ui_prev := ui_prev u; ui_next := s; ui_event := ui_event u |}.

(** A new run: what was rendered becomes the previous run's widgets. *)
Definition rerun (ev : Event) (u : Ui) : Ui :=
  {| ui_front := ui_front u; ui_prev := ui_next u; ui_next := empty_session; ui_event := ev |}.

(** Run a frontend step ([FM]) inside a page. *)
Definition on_front {A} (m : FM A) : UM A :=
  fun u => let (o, f') := m (ui_front u) in (o, set_front f' u).

Definition is_click (key : string) (ev : Event) : bool :=
  match ev with Click k => String.eqb k key | _ => false end.

Definition is_toggle (key : string) (ev : Event) : bool :=
  match ev with Toggle k => String.eqb k key | _ => false end.

(** [st.slider(min_value=lo, max_value=hi, value=v, step=step)]: [v]
    until the handle is moved, then the value at the tick [k] it was left
    on, [lo + step * k] kept within [[lo, hi]]. *)
Definition st_slider (lo hi step v : Z) (tick : option Z) : Z :=
  match tick with
  | None => v
  | Some k => Z.max lo (Z.min hi (lo + step * k))
  end.

(** [st.button(label, key=key)] *)
Definition st_button (key : string) : UM bool :=
  fun u =>
    let clicked := bool_decide (key ∈ ss_buttons (ui_prev u)) && is_click key (ui_event u) in
    (Ok clicked,
     set_next {| ss_buttons := key :: ss_buttons (ui_next u);
                 ss_checkboxes := ss_checkboxes (ui_next u) |} u).

(** [st.checkbox(label, key=key)] *)
Definition st_checkbox (key : string) : UM bool :=
  fun u =>
    let value := match ss_checkboxes (ui_prev u) !! key with
                 | Some v => if is_toggle key (ui_event u) then negb v else v
                 | None => false
                 end in
    (Ok value,
     set_next {| ss_buttons := ss_buttons (ui_next u);
                 ss_checkboxes := <[key := value]> (ss_checkboxes (ui_next u)) |} u).

(** [if st.button(...): confirm = st.checkbox(...); if confirm: act], the
    shape of both delete flows (lines 181-189 and 285-293). *)
Definition confirm_flow (button_key checkbox_key : string) (act : UM unit) : UM unit :=
  clicked <- st_button button_key ;;
  if clicked then
    confirm <- st_checkbox checkbox_key ;;
    if confirm then act else ret tt
  else ret tt.

(** ** The pages *)

(** [result and result.get("success")] *)
Definition result_success (result : option Response) : bool :=
  match result with
  | Some (RDeleted b) | Some (RSaved b _) => b
  | _ => false
  end.

(** The values of the widgets of one run of the key page. *)
Record KeysPageInput := {
  kp_selected_exchange : ExchangeEnum;
  kp_api_key : string;
  kp_api_secret : string;
  kp_submit : bool;
  kp_refresh : bool;
  kp_delete_choice : option nat   (** index into the options, [index=None] *)
}.

Record ConfigsPageInput := {
  cp_form : ConfigForm;
  cp_submit : bool;
  cp_refresh : bool
}.

Inductive PageName := Dashboard | ExchangeApiKeys | AlertConfigurations | AlertHistory | Documentation.

Record AppInput := {
  ai_page : PageName;
  ai_keys : KeysPageInput;
  ai_configs : ConfigsPageInput;
  ai_history_tick : option Z;
  ai_history_refresh : bool;
  ai_history_choice : nat
}.

Section StreamlitPages.
Context `{Fernet} `{Ccxt} `{ExchangeApi}.

(** Lines 184-189 ([st.rerun] only starts the next run). *)
Definition delete_keys_action (delete_exchange : string) : FM unit :=
  result <- api_delete (RemoveApiKey delete_exchange) ;;
  if result_success result then show (UiSuccess ("API keys for " +:+ delete_exchange +:+ " deleted"))
  else show (UiError ("Failed to delete API keys for " +:+ delete_exchange)).

(** Lines 288-293. *)
Definition delete_config_action (config_name : string) : FM unit :=
  result <- api_delete (RemoveConfig config_name) ;;
  if result_success result then show (UiSuccess ("Configuration '" +:+ config_name +:+ "' deleted"))
  else show (UiError ("Failed to delete configuration '" +:+ config_name +:+ "'")).

(** [show_api_keys], lines 112-191. *)
Definition show_api_keys (inp : KeysPageInput) : UM unit :=
  exchanges <- on_front (api_get ListExchanges) ;;
  match exchanges with
  | Some (RExchanges ((_ :: _) as exs)) =>
      (if kp_submit inp then
         on_front (submit_api_keys (kp_selected_exchange inp) (kp_api_key inp) (kp_api_secret inp))
       else ret tt) ;;;
      (if kp_refresh inp then on_front (show (UiInfo "Refreshing exchange status...")) else ret tt) ;;;
      exchange_status <- on_front (exchange_status exs) ;;
      match exchange_status with
      | [] => on_front (show (UiInfo "No exchanges configured yet"))
      | _ =>
          match kp_delete_choice inp ≫= fun i => delete_options exchange_status !! i with
          | Some delete_exchange =>
              confirm_flow "Delete API Keys" "Confirm deletion" (on_front (delete_keys_action delete_exchange))
          | None => ret tt
          end
      end
  | Some (RExchanges []) | None => on_front (show (UiError "Could not fetch supported exchanges"))
  | Some _ => ret tt
  end.

(** The title of a configuration's expander,
    [f"{config['name']} ({config['exchange']} - {config['symbol']})"]. *)
Definition config_title (config_name : string) (config : Stored) : UM string :=
  match config with
  | SConfig c => ret (config_name +:+ " (" +:+ cd_exchange c +:+ " - " +:+ cd_symbol c +:+ ")")
  | _ => raise (PyException "KeyError" "'exchange'")
  end.

(** The loop of lines 280-293 over [enumerate(configs)]. *)
Fixpoint config_entries (idx : nat) (configs : list (string * Stored)) : UM unit :=
  match configs with
  | [] => ret tt
  | (config_name, config) :: rest =>
      config_title config_name config ;;;
      confirm_flow ("delete_" +:+ pretty idx) ("confirm_" +:+ pretty idx)
        (on_front (delete_config_action config_name)) ;;;
      config_entries (S idx) rest
  end.

(** [show_alert_configs], lines 194-293. *)
Definition show_alert_configs (inp : ConfigsPageInput) : UM unit :=
  exchanges <- on_front (api_get ListExchanges) ;;
  match exchanges with
  | Some (RExchanges (_ :: _)) =>
      (if cp_submit inp then on_front (submit_config (cp_form inp)) else ret tt) ;;;
      (if cp_refresh inp then on_front (show (UiInfo "Refreshing configurations...")) else ret tt) ;;;
      configs <- on_front (api_get ListConfigs) ;;
      match configs with
      | Some (RConfigs ((_ :: _) as cs)) => config_entries 0 cs
      | Some (RConfigs []) | None => on_front (show (UiInfo "No alert configurations found"))
      | Some _ => ret tt
      end
  | Some (RExchanges []) | None => on_front (show (UiError "Could not fetch supported exchanges"))
  | Some _ => ret tt
  end.

(** The API check of [show_dashboard] (lines 79-83). *)
Definition show_dashboard : FM unit :=
  api_status <- api_get ReadRoot ;;
  match api_status with
  | Some _ => show (UiSuccess "✅ Backend API is connected and running")
  | None => show (UiError "❌ Backend API connection failed")
  end.

(** [show_alert_history] with its slider and refresh button (lines
    296-335). *)
Definition alert_history_page (tick : option Z) (refresh : bool) (choice : nat) : FM (list HistoryRow) :=
  let limit := st_slider 5 100 5 20 tick in
  (if refresh then show (UiInfo "Refreshing alert history...") else ret tt) ;;;
  show_alert_history limit choice.

(** The router of lines 390-399. *)
Definition app_run (inp : AppInput) : UM unit :=
  match ai_page inp with
  | Dashboard => on_front show_dashboard
  | ExchangeApiKeys => show_api_keys (ai_keys inp)
  | AlertConfigurations => show_alert_configs (ai_configs inp)
  | AlertHistory =>
      on_front (alert_history_page (ai_history_tick inp) (ai_history_refresh inp) (ai_history_choice inp)) ;;;
      ret tt
  | Documentation => ret tt
  end.

(** The session: each interaction starts a run with the page's inputs. *)
Fixpoint app_session (runs : list (Event * AppInput)) : UM unit :=
  match runs with
  | [] => ret tt
  | (ev, inp) :: rest => modify (rerun ev) ;;; app_run inp ;;; app_session rest
  end.
End StreamlitPages.

(** ** No Redis key is ever removed by the frontend *)

(** The Redis keys only grow. *)
Definition keys_grow (w w' : World) : Prop := dom (w_redis w) ⊆ dom (w_redis w').

#[export] Instance keys_grow_preorder : PreOrder keys_grow.
Proof. split; [intros w; unfold keys_grow; set_solver|intros w1 w2 w3; unfold keys_grow; set_solver]. Qed.

Definition is_delete (req : Request) : bool :=
  match req with RemoveApiKey _ | RemoveConfig _ => true | _ => false end.

Lemma keys_grow_insert k v : within keys_grow (modify (set_redis <[k:=v]>)).
Proof. intros w. unfold keys_grow. simpl. rewrite dom_insert_L. set_solver. Qed.

Lemma keys_grow_clients f : within keys_grow (modify (set_clients f)).
Proof. intros w. unfold keys_grow. simpl. set_solver. Qed.

Lemma keys_grow_call {A} c (answer : list ExchangeCall -> outcome A) : within keys_grow (exchange_call c answer).
Proof. intros w. unfold keys_grow. simpl. set_solver. Qed.

Create HintDb grow.
#[export] Hint Resolve keys_grow_insert keys_grow_clients keys_grow_call : grow.

Ltac grow_solve :=
  cbv zeta; within_split;
  unfold fetch_balance, fetch_ticker, create_order, datetime_now,
    redis_get, redis_set, redis_delete, redis_keys_prefix in *;
  within_split; eauto with grow typeclass_instances.

Section Grow.
Context `{Fernet} `{Ccxt} `{ExchangeApi}.

Lemma load_configs_grow u keys : within keys_grow (load_configs u keys).
Proof. induction keys; simpl; unfold get_alert_config; grow_solve. Qed.

Lemma load_history_grow keys : within keys_grow (load_history keys).
Proof. induction keys; simpl; grow_solve. Qed.

Lemma get_exchange_api_key_grow u e : within keys_grow (get_exchange_api_key u e).
Proof. unfold get_exchange_api_key, decrypt_data. grow_solve. Qed.

Lemma get_alert_config_grow u n : within keys_grow (get_alert_config u n).
Proof. unfold get_alert_config. grow_solve. Qed.

#[local] Hint Resolve load_configs_grow load_history_grow get_exchange_api_key_grow
  get_alert_config_grow : grow.

(** Every request but the two deletes only adds or overwrites keys. *)
Lemma handle_grow req : is_delete req = false -> within keys_grow (handle req).
Proof.
  destruct req; simpl; intros Hd; try discriminate;
    unfold read_root, add_api_key, get_api_key_status, create_alert_config,
      get_config, list_configs, get_user_alert_history, list_exchanges, webhook,
      except_500, save_exchange_api_key, encrypt_data,
      save_alert_config, get_all_alert_configs,
      get_alert_history, process_tradingview_alert, execute_alert, handle_error, as_config,
      save_alert_history, determine_quantity, quantity_from_percentage, current_price,
      require_quantity, py_getindex, py_float, py_truediv, execute_order, required_price,
      get_exchange_client;
    grow_solve.
Qed.
End Grow.

(** The frontend's requests keep the backend's keys. *)
Definition front_grows (f f' : Front) : Prop := keys_grow (fe_backend f) (fe_backend f').

#[export] Instance front_grows_preorder : PreOrder front_grows.
Proof. split; [intros f; unfold front_grows; reflexivity|intros f1 f2 f3 A B; unfold front_grows in *; by etrans]. Qed.

Lemma show_grow m : within front_grows (show m).
Proof. intros f. unfold front_grows. reflexivity. Qed.

Section FrontGrow.
Context `{Fernet} `{Ccxt} `{ExchangeApi}.

Lemma send_grow req : is_delete req = false -> within front_grows (send req).
Proof.
  intros Hd f. unfold final, send. destruct (fe_unreachable f); [reflexivity|].
  pose proof (handle_grow req Hd (fe_backend f)) as G. unfold final, http in *.
  by destruct (handle req (fe_backend f)).
Qed.
End FrontGrow.

Create HintDb fgrow.
#[export] Hint Resolve show_grow : fgrow.
#[export] Hint Extern 1 (within front_grows (send _)) => apply send_grow; reflexivity : fgrow.

Ltac front_solve :=
  cbv zeta; within_split; eauto with fgrow typeclass_instances.

Section FrontPages.
Context `{Fernet} `{Ccxt} `{ExchangeApi}.

Lemma api_get_grow req : is_delete req = false -> within front_grows (api_get req).
Proof. intros Hd. unfold api_get. front_solve. apply send_grow, Hd. Qed.

Lemma api_post_grow req : is_delete req = false -> within front_grows (api_post req).
Proof. intros Hd. unfold api_post. front_solve. apply send_grow, Hd. Qed.

#[local] Hint Extern 1 (within front_grows (api_get _)) => apply api_get_grow; reflexivity : fgrow.
#[local] Hint Extern 1 (within front_grows (api_post _)) => apply api_post_grow; reflexivity : fgrow.

Lemma submit_api_keys_grow e k s : within front_grows (submit_api_keys e k s).
Proof. unfold submit_api_keys. front_solve. Qed.

Lemma submit_config_grow f : within front_grows (submit_config f).
Proof. unfold submit_config. front_solve. Qed.

Lemma exchange_status_grow exs : within front_grows (exchange_status exs).
Proof. induction exs; simpl; front_solve. Qed.

Lemma show_dashboard_grow : within front_grows show_dashboard.
Proof. unfold show_dashboard. front_solve. Qed.

Lemma alert_history_page_grow tick refresh choice : within front_grows (alert_history_page tick refresh choice).
Proof. unfold alert_history_page, show_alert_history, py_getindex. front_solve. Qed.
End FrontPages.

#[export] Hint Resolve submit_api_keys_grow submit_config_grow exchange_status_grow
  show_dashboard_grow alert_history_page_grow : fgrow.
#[export] Hint Extern 1 (within front_grows (api_get _)) => apply api_get_grow; reflexivity : fgrow.

(** ** The delete flows never send their request *)

(** Every checkbox rendered is unticked, in the previous run and this one. *)
Definition widgets_ok (u : Ui) : Prop :=
  map_Forall (fun _ v => v = false) (ss_checkboxes (ui_prev u)) /\
  map_Forall (fun _ v => v = false) (ss_checkboxes (ui_next u)).

Definition ui_kept (u u' : Ui) : Prop :=
  widgets_ok u -> front_grows (ui_front u) (ui_front u') /\ widgets_ok u'.

#[export] Instance ui_kept_preorder : PreOrder ui_kept.
Proof.
  split; [intros u Hw; split; [reflexivity|done]|].
  intros u1 u2 u3 A B Hw. destruct (A Hw) as [G1 W2]. destruct (B W2) as [G2 W3].
  split; [by etrans|done].
Qed.

Lemma on_front_kept {A} (m : FM A) : within front_grows m -> within ui_kept (on_front m).
Proof.
  intros Hm u Hw. specialize (Hm (ui_front u)). unfold final, on_front in *.
  by destruct (m (ui_front u)).
Qed.

Lemma rerun_kept ev : within ui_kept (modify (rerun ev)).
Proof. intros u [_ Hn]. split; [unfold front_grows; reflexivity|]. split; [done|apply map_Forall_empty]. Qed.

Lemma st_button_kept key : within ui_kept (st_button key).
Proof. intros u Hw. split; [unfold front_grows; reflexivity|done]. Qed.

(** The checkbox is rendered only in a run triggered by a click on the
    button, so it is read unticked, whatever the action guarded by it. *)
Lemma confirm_flow_kept b c act : within ui_kept (confirm_flow b c act).
Proof.
  intros u Hw. unfold final, confirm_flow, bind, st_button. simpl.
  destruct (bool_decide _ && is_click b (ui_event u)) eqn:Hc; simpl;
    [|split; [unfold front_grows; reflexivity|done]].
  apply andb_true_iff in Hc as [_ Hc].
  assert (Ht : is_toggle c (ui_event u) = false) by (by destruct (ui_event u)).
  destruct Hw as [Hp Hn]. unfold st_checkbox. simpl. rewrite Ht.
  destruct (ss_checkboxes (ui_prev u) !! c) as [v|] eqn:E; [rewrite (Hp _ _ E)|];
    simpl; (split; [unfold front_grows; reflexivity|split; [done|by apply map_Forall_insert_2]]).
Qed.

Lemma config_title_kept n c : within ui_kept (config_title n c).
Proof. unfold config_title. within_split. Qed.

Create HintDb uikept.
#[export] Hint Resolve rerun_kept confirm_flow_kept config_title_kept : uikept.
#[export] Hint Extern 1 (within ui_kept (on_front _)) => apply on_front_kept; front_solve : uikept.

Ltac ui_solve := cbv zeta; within_split; eauto with uikept typeclass_instances.

Section UiPages.
Context `{Fernet} `{Ccxt} `{ExchangeApi}.

Lemma config_entries_kept idx cs : within ui_kept (config_entries idx cs).
Proof. induction cs as [|[n c] cs IH] in idx |- *; simpl; ui_solve. Qed.
#[local] Hint Resolve config_entries_kept : uikept.

Lemma app_run_kept inp : within ui_kept (app_run inp).
Proof.
  unfold app_run. destruct (ai_page inp);
    unfold show_api_keys, show_alert_configs; ui_solve.
Qed.
#[local] Hint Resolve app_run_kept : uikept.

Lemma app_session_kept runs : within ui_kept (app_session runs).
Proof. induction runs as [|[ev inp] runs IH]; simpl; ui_solve. Qed.
End UiPages.

Section NeverDeletes.
Context `{Fernet} `{Ccxt} `{ExchangeApi}.

(** C38: whatever the user does on whichever pages, over any number of
    reruns starting with no ticked checkbox, the frontend never removes a
    Redis key: the "Confirm deletion" checkboxes of the API key and
    configuration pages are rendered only in the run of the button click,
    unticked, and ticking one starts a run in which the button is [False],
    so neither [DELETE /api/keys/...] nor [DELETE /api/config/...] is ever
    sent. *)
Theorem frontend_never_deletes runs u :
  widgets_ok u ->
  dom (w_redis (fe_backend (ui_front u))) ⊆
    dom (w_redis (fe_backend (ui_front (final (app_session runs) u)))).
Proof. intros Hw. apply (app_session_kept runs u Hw). Qed.
End NeverDeletes.

(** The key page of the example backend, with binance's keys selected for
    deletion. *)
Definition delete_binance_keys : KeysPageInput := {|
  kp_selected_exchange := BINANCE; kp_api_key := ""; kp_api_secret := ""; kp_submit := false;
  kp_refresh := false; kp_delete_choice := Some 0%nat
|}.

Definition keys_page_input : AppInput := {|
  ai_page := ExchangeApiKeys; ai_keys := delete_binance_keys;
  ai_configs := {| cp_form := zero_quantity_form; cp_submit := false; cp_refresh := false |};
  ai_history_tick := None; ai_history_refresh := false; ai_history_choice := 0
|}.

Definition first_render : Ui := {|
  ui_front := demo_front; ui_prev := empty_session; ui_next := empty_session; ui_event := Elsewhere
|}.

Section NeverDeletesExamples.
#[local] Existing Instances demo_fernet demo_ccxt demo_api.

(** Select, click "Delete API Keys", tick "Confirm deletion". *)
Lemma frontend_never_deletes_witness :
  dom (w_redis (fe_backend (ui_front first_render))) ⊆
    dom (w_redis (fe_backend (ui_front
      (final (app_session [(Elsewhere, keys_page_input); (Click "Delete API Keys", keys_page_input);
                           (Toggle "Confirm deletion", keys_page_input)]) first_render)))).
Proof. apply frontend_never_deletes. split; apply map_Forall_empty. Defined.
End NeverDeletesExamples.

(** ** The history page's slider *)

(** A slider's value stays within its range. *)
Lemma st_slider_range lo hi step v tick :
  (lo <= v <= hi)%Z -> (lo <= hi)%Z -> (lo <= st_slider lo hi step v tick <= hi)%Z.
Proof. destruct tick; simpl; lia. Qed.

Section HistorySlider.
Context `{Fernet} `{Ccxt} `{ExchangeApi}.

(** C25: every position of the history page's slider gives a limit
    between 5 and 100, inside the [1..100] that [GET /api/history]
    accepts, so on a reachable backend the page never meets the 422: it
    lists the rows of the backend's history for that limit, and shows only
    the refresh note (when Refresh was clicked) followed by either "No
    alert history found" or the JSON of the picked record. *)
Theorem history_page_limit_accepted tick refresh choice fr :
  fe_unreachable fr = None ->
  let limit := st_slider 5 100 5 20 tick in
  let entries := history_entries (w_redis (fe_backend fr)) limit in
  (5 <= limit <= 100)%Z /\
  (alert_history_page tick refresh choice fr).1 = Ok (map history_row entries) /\
  fe_shown (alert_history_page tick refresh choice fr).2 =
    fe_shown fr ++ (if refresh then [UiInfo "Refreshing alert history..."] else []) ++
    match entries with
    | [] => [UiInfo "No alert history found"]
    | e :: _ => [UiJson (default e (entries !! choice))]
    end.
Proof.
  intros Hu limit entries.
  assert (Hl : (5 <= limit <= 100)%Z) by (apply st_slider_range; lia).
  split; [done|]. unfold alert_history_page. fold limit.
  destruct refresh; unfold bind, show, modify; simpl;
    match goal with |- context [show_alert_history limit choice ?f] =>
      pose proof (show_alert_history_run limit choice f Hu ltac:(lia)) as E end;
    cbv zeta in E; simpl in E; rewrite E; fold entries;
    destruct entries; simpl; rewrite <- ?app_assoc; done.
Qed.
End HistorySlider.

Section HistorySliderExamples.
#[local] Existing Instances demo_fernet demo_ccxt demo_api.

(** The slider moved to its last tick (limit 100), Refresh clicked. *)
Lemma history_page_limit_accepted_witness :
  let limit := st_slider 5 100 5 20 (Some 19%Z) in
  let entries := history_entries (w_redis (fe_backend demo_front)) limit in
  (5 <= limit <= 100)%Z /\
  (alert_history_page (Some 19%Z) true 0 demo_front).1 = Ok (map history_row entries) /\
  fe_shown (alert_history_page (Some 19%Z) true 0 demo_front).2 =
    fe_shown demo_front ++ [UiInfo "Refreshing alert history..."] ++
    match entries with
    | [] => [UiInfo "No alert history found"]
    | e :: _ => [UiJson (default e (entries !! 0%nat))]
    end.
Proof. apply (history_page_limit_accepted (Some 19%Z) true 0 demo_front). reflexivity. Defined.
End HistorySliderExamples.
