(* ===== verification/Startup.v ===== *)
(** * Startup: the process environment and what a restart changes

    [database.py] reads its settings from the environment when the process
    starts (lines 7-24): the Redis connection and [ENCRYPTION_KEY], which
    defaults to a key generated at start; the frontend reads
    [API_BASE_URL] (line 10).  [start_process] is the restart of [Api] with
    the key the environment gives.

    Only the webhook handler reads the client cache, and the frontend never
    sends a webhook: every other handler reads the Redis store, the key and
    the clock only.  So when [ENCRYPTION_KEY] is set, a restart is
    invisible to the frontend: any sequence of page runs gives the same
    results and shows the same messages with or without it.  The relation
    [same_but_clients] and the [sim] combinators of [Prelude] carry the
    two runs side by side.

    The dashboard shows [f"{API_BASE_URL}/webhook/tradingview"] as the URL
    to give TradingView ([webhook_url]); the last section follows it to the
    route it reaches. *)

From stdpp Require Import base gmap strings list relations.
From Stdlib Require Import QArith String Ascii ZArith.
From S2P Require Import Prelude Models World Database Gateway Quantity Dispatcher Pipeline Api Routes Frontend Pages Streamlit.
Open Scope string_scope.
Open Scope list_scope.

(** ** The environment *)

(** [os.environ]. *)
Definition Env := list (string * string).

(** [os.getenv(key)] *)
Fixpoint getenv (env : Env) (key : string) : option string :=
  match env with
  | [] => None
  | (k, v) :: rest => if String.eqb k key then Some v else getenv rest key
  end.

(** A value that is the environment's string when set, else the default of
    another type ([os.getenv("REDIS_PORT", 6379)]). *)
Inductive PyValue := PyStr (s : string) | PyInt (z : Z).

Definition getenv_or (env : Env) (key : string) (default : PyValue) : PyValue :=
  match getenv env key with Some s => PyStr s | None => default end.

Record RedisSettings := {
  rs_host : PyValue;
  rs_port : PyValue;
  rs_db : PyValue;
  rs_password : PyValue;
  rs_decode_responses : bool
}.

(** Lines 7-11 and 18-24. *)
Definition redis_settings (env : Env) : RedisSettings := {|
  rs_host := getenv_or env "REDIS_HOST" (PyStr "redis");
  rs_port := getenv_or env "REDIS_PORT" (PyInt 6379);
  rs_db := getenv_or env "REDIS_DB" (PyInt 0);
  rs_password := getenv_or env "REDIS_PASSWORD" (PyStr "");
  rs_decode_responses := true
|}.

(** [ENCRYPTION_KEY = os.getenv("ENCRYPTION_KEY", Fernet.generate_key().decode())] *)
Definition startup_key (env : Env) (generated : string) : string :=
  default generated (getenv env "ENCRYPTION_KEY").

Definition start_process (env : Env) (generated : string) (w : World) : World :=
  restart (startup_key env generated) w.

(** [API_BASE_URL = os.getenv("API_BASE_URL", "http://backend:8000")] *)
Definition api_base_url (env : Env) : string := default "http://backend:8000" (getenv env "API_BASE_URL").

(** ** Worlds that differ only in the client cache *)

Definition same_but_clients (w1 w2 : World) : Prop :=
  w_redis w1 = w_redis w2 /\ w_encryption_key w1 = w_encryption_key w2 /\
  w_now w1 = w_now w2 /\ w_calls w1 = w_calls w2.

Lemma same_but_clients_gets {A} (f : World -> A) :
  (forall w1 w2, same_but_clients w1 w2 -> f w1 = f w2) -> sim same_but_clients (gets f).
Proof. apply sim_gets. Qed.

Lemma same_but_clients_redis f : sim same_but_clients (modify (set_redis f)).
Proof.
  apply sim_modify. intros w1 w2 (E1 & E2 & E3 & E4). unfold same_but_clients, set_redis. simpl.
  by rewrite E1.
Qed.

Create HintDb oblivious.
#[export] Hint Resolve same_but_clients_redis sim_ret sim_raise : oblivious.
#[export] Hint Extern 1 (sim same_but_clients (gets _)) =>
  apply same_but_clients_gets; intros ? ? (E1 & E2 & E3 & E4); simpl;
  rewrite ?E1, ?E2, ?E3, ?E4; reflexivity : oblivious.

Ltac oblivious_solve :=
  cbv zeta; sim_split;
  unfold redis_get, redis_set, redis_delete, redis_keys_prefix, datetime_now in *;
  sim_split; eauto with oblivious.

Definition is_webhook_req (req : Request) : bool :=
  match req with Webhook _ => true | _ => false end.

Section Oblivious.
Context `{Fernet} `{Ccxt} `{ExchangeApi}.

Lemma load_configs_oblivious u keys : sim same_but_clients (load_configs u keys).
Proof. induction keys; simpl; unfold get_alert_config; oblivious_solve. Qed.

Lemma load_history_oblivious keys : sim same_but_clients (load_history keys).
Proof. induction keys; simpl; oblivious_solve. Qed.

Lemma get_exchange_api_key_oblivious u e : sim same_but_clients (get_exchange_api_key u e).
Proof. unfold get_exchange_api_key, decrypt_data. oblivious_solve. Qed.

#[local] Hint Resolve load_configs_oblivious load_history_oblivious get_exchange_api_key_oblivious : oblivious.

(** Every request but the webhook ignores the client cache. *)
Lemma handle_oblivious req : is_webhook_req req = false -> sim same_but_clients (handle req).
Proof.
  destruct req; simpl; intros Hw; try discriminate;
    unfold read_root, add_api_key, get_api_key_status, remove_api_key, create_alert_config,
      get_config, list_configs, remove_config, get_user_alert_history, list_exchanges,
      except_500, save_exchange_api_key, encrypt_data, delete_exchange_api_key, save_alert_config, get_alert_config, get_all_alert_configs,
      delete_alert_config, get_alert_history;
    oblivious_solve.
Qed.
End Oblivious.

(** ** The frontend cannot tell *)

Definition front_sim (f1 f2 : Front) : Prop :=
  same_but_clients (fe_backend f1) (fe_backend f2) /\
  fe_unreachable f1 = fe_unreachable f2 /\ fe_shown f1 = fe_shown f2.

Definition ui_sim (u1 u2 : Ui) : Prop :=
  front_sim (ui_front u1) (ui_front u2) /\ ui_prev u1 = ui_prev u2 /\
  ui_next u1 = ui_next u2 /\ ui_event u1 = ui_event u2.

Lemma show_oblivious m : sim front_sim (show m).
Proof. apply sim_modify. intros f1 f2 (Hb & Hu & Hs). unfold add_msg, front_sim. simpl. by rewrite Hu, Hs. Qed.

Section FrontOblivious.
Context `{Fernet} `{Ccxt} `{ExchangeApi}.

Lemma send_oblivious req : is_webhook_req req = false -> sim front_sim (send req).
Proof.
  intros Hw f1 f2 Hf. pose proof Hf as (Hb & Hu & Hs). unfold send. rewrite <- Hu.
  destruct (fe_unreachable f1); [done|].
  destruct (handle_oblivious req Hw _ _ Hb) as [Eo Hr]. unfold http.
  destruct (handle req (fe_backend f1)) as [o1 w1], (handle req (fe_backend f2)) as [o2 w2].
  simpl in *. subst o2. split; [done|]. destruct Hf as (_ & Hu' & Hs').
  unfold front_sim, set_backend. simpl. tauto.
Qed.
End FrontOblivious.

Create HintDb fobl.
#[export] Hint Resolve show_oblivious sim_ret : fobl.
#[export] Hint Extern 1 (sim front_sim (send _)) => apply send_oblivious; reflexivity : fobl.

Ltac front_obl := cbv zeta; sim_split; eauto with fobl.

Section PagesOblivious.
Context `{Fernet} `{Ccxt} `{ExchangeApi}.

Lemma api_get_oblivious req : is_webhook_req req = false -> sim front_sim (api_get req).
Proof. intros Hw. unfold api_get. front_obl. by apply send_oblivious. Qed.

Lemma api_post_oblivious req : is_webhook_req req = false -> sim front_sim (api_post req).
Proof. intros Hw. unfold api_post. front_obl. by apply send_oblivious. Qed.

Lemma api_delete_oblivious req : is_webhook_req req = false -> sim front_sim (api_delete req).
Proof. intros Hw. unfold api_delete. front_obl. by apply send_oblivious. Qed.
End PagesOblivious.

#[export] Hint Extern 1 (sim front_sim (api_get _)) => apply api_get_oblivious; reflexivity : fobl.
#[export] Hint Extern 1 (sim front_sim (api_post _)) => apply api_post_oblivious; reflexivity : fobl.
#[export] Hint Extern 1 (sim front_sim (api_delete _)) => apply api_delete_oblivious; reflexivity : fobl.

Section PageStepsOblivious.
Context `{Fernet} `{Ccxt} `{ExchangeApi}.

Lemma exchange_status_oblivious exs : sim front_sim (exchange_status exs).
Proof. induction exs; simpl; front_obl. Qed.
End PageStepsOblivious.

#[export] Hint Resolve exchange_status_oblivious : fobl.

Section MorePagesOblivious.
Context `{Fernet} `{Ccxt} `{ExchangeApi}.

Lemma submit_api_keys_oblivious e k s : sim front_sim (submit_api_keys e k s).
Proof. unfold submit_api_keys. front_obl. Qed.

Lemma submit_config_oblivious f : sim front_sim (submit_config f).
Proof. unfold submit_config. front_obl. Qed.

Lemma show_dashboard_oblivious : sim front_sim show_dashboard.
Proof. unfold show_dashboard. front_obl. Qed.

Lemma alert_history_page_oblivious tick refresh choice :
  sim front_sim (alert_history_page tick refresh choice).
Proof. unfold alert_history_page, show_alert_history, py_getindex. front_obl. Qed.

Lemma delete_keys_action_oblivious ex : sim front_sim (delete_keys_action ex).
Proof. unfold delete_keys_action. front_obl. Qed.

Lemma delete_config_action_oblivious n : sim front_sim (delete_config_action n).
Proof. unfold delete_config_action. front_obl. Qed.
End MorePagesOblivious.

#[export] Hint Resolve submit_api_keys_oblivious submit_config_oblivious show_dashboard_oblivious
  alert_history_page_oblivious delete_keys_action_oblivious delete_config_action_oblivious : fobl.

Lemma on_front_oblivious {A} (m : FM A) : sim front_sim m -> sim ui_sim (on_front m).
Proof.
  intros Hm u1 u2 (Hf & Hp & Hn & He). destruct (Hm _ _ Hf) as [Eo Hr]. unfold on_front.
  destruct (m (ui_front u1)), (m (ui_front u2)). simpl in *. subst.
  unfold ui_sim, set_front. simpl. tauto.
Qed.

Lemma st_button_oblivious key : sim ui_sim (st_button key).
Proof.
  intros u1 u2 (Hf & Hp & Hn & He). unfold st_button, ui_sim, set_next. simpl.
  rewrite Hp, Hn, He. tauto.
Qed.

Lemma st_checkbox_oblivious key : sim ui_sim (st_checkbox key).
Proof.
  intros u1 u2 (Hf & Hp & Hn & He). unfold st_checkbox, ui_sim, set_next. simpl.
  rewrite Hp, Hn, He. tauto.
Qed.

Lemma rerun_oblivious ev : sim ui_sim (modify (rerun ev)).
Proof. apply sim_modify. intros u1 u2 (Hf & Hp & Hn & He). unfold rerun, ui_sim. simpl. rewrite Hn. tauto. Qed.

Create HintDb uobl.
#[export] Hint Resolve st_button_oblivious st_checkbox_oblivious rerun_oblivious sim_ret sim_raise : uobl.
#[export] Hint Extern 1 (sim ui_sim (on_front _)) => apply on_front_oblivious; front_obl : uobl.

Ltac ui_obl := cbv zeta; sim_split; eauto with uobl.

Section UiOblivious.
Context `{Fernet} `{Ccxt} `{ExchangeApi}.

Lemma confirm_flow_oblivious b c act : sim ui_sim act -> sim ui_sim (confirm_flow b c act).
Proof. intros Ha. unfold confirm_flow. ui_obl. Qed.
#[local] Hint Resolve confirm_flow_oblivious : uobl.

Lemma config_entries_oblivious idx cs : sim ui_sim (config_entries idx cs).
Proof. induction cs as [|[n c] cs IH] in idx |- *; simpl; unfold config_title; ui_obl. Qed.
#[local] Hint Resolve config_entries_oblivious : uobl.

Lemma app_session_oblivious runs : sim ui_sim (app_session runs).
Proof.
  induction runs as [|[ev inp] runs IH]; simpl; ui_obl.
  unfold app_run, show_api_keys, show_alert_configs. ui_obl.
Qed.
End UiOblivious.

(** ** A restart under the configured key *)

(** The backend process is restarted with the environment [env] while the
    frontend keeps its session; [generated] is the key
    [Fernet.generate_key()] would give. *)
Definition restart_ui (env : Env) (generated : string) (u : Ui) : Ui :=
  set_front (set_backend (start_process env generated (fe_backend (ui_front u))) (ui_front u)) u.

Lemma restart_ui_sim env g u :
  getenv env "ENCRYPTION_KEY" = Some (w_encryption_key (fe_backend (ui_front u))) ->
  ui_sim u (restart_ui env g u).
Proof.
  intros Hk. unfold ui_sim, front_sim, same_but_clients, restart_ui, start_process, startup_key.
  simpl. rewrite Hk. simpl. tauto.
Qed.

Section RestartInvisible.
Context `{Fernet} `{Ccxt} `{ExchangeApi}.

(** C3: When [ENCRYPTION_KEY] is set to the key the backend runs with, a
    restart of the backend process (which empties the client cache) is
    invisible to the frontend: every sequence of page runs returns the same
    result, shows the same messages and leaves the same Redis store as
    without the restart. *)
Theorem configured_key_restart_invisible env g runs u :
  getenv env "ENCRYPTION_KEY" = Some (w_encryption_key (fe_backend (ui_front u))) ->
  (app_session runs u).1 = (app_session runs (restart_ui env g u)).1 /\
  fe_shown (ui_front (app_session runs u).2) =
    fe_shown (ui_front (app_session runs (restart_ui env g u)).2) /\
  w_redis (fe_backend (ui_front (app_session runs u).2)) =
    w_redis (fe_backend (ui_front (app_session runs (restart_ui env g u)).2)).
Proof.
  intros Hk. destruct (app_session_oblivious runs _ _ (restart_ui_sim env g u Hk))
    as (Eo & ((Er & _) & _ & Es) & _).
  tauto.
Qed.
End RestartInvisible.

Section RestartExamples.
#[local] Existing Instances demo_fernet demo_ccxt demo_api.

(** The key page of the example backend, before and after a restart whose
    environment sets the running key (the generated key is not used). *)
Lemma configured_key_restart_invisible_witness :
  let env := [("REDIS_HOST", "redis"); ("ENCRYPTION_KEY", w_encryption_key demo_keys_world)] in
  getenv env "ENCRYPTION_KEY" = Some (w_encryption_key (fe_backend (ui_front first_render))) /\
  (app_session [(Elsewhere, keys_page_input)] first_render).1 =
    (app_session [(Elsewhere, keys_page_input)] (restart_ui env "fresh" first_render)).1 /\
  fe_shown (ui_front (app_session [(Elsewhere, keys_page_input)] first_render).2) =
    fe_shown (ui_front (app_session [(Elsewhere, keys_page_input)] (restart_ui env "fresh" first_render)).2) /\
  w_redis (fe_backend (ui_front (app_session [(Elsewhere, keys_page_input)] first_render).2)) =
    w_redis (fe_backend (ui_front (app_session [(Elsewhere, keys_page_input)] (restart_ui env "fresh" first_render)).2)).
Proof.
  intros env. split; [reflexivity|]. apply configured_key_restart_invisible. reflexivity.
Defined.
End RestartExamples.

(** ** The webhook URL the dashboard shows *)

(** [webhook_url = f"{API_BASE_URL}/webhook/tradingview"] (frontend lines
    105-106), which the user copies into TradingView. *)
Definition webhook_url (env : Env) : string := api_base_url env +:+ "/webhook/tradingview".

(** The request target of an absolute URL: after [scheme://], the rest
    from the first ['/'] on ("/" when the URL has no path), as the HTTP
    client sends it ([strip_prefix] is the prefix test of [World]). *)
Fixpoint from_slash (s : string) : string :=
  match s with
  | EmptyString => "/"
  | String c r => if Ascii.eqb c "/" then s else from_slash r
  end.

Definition url_target (url : string) : option string :=
  match strip_prefix "http://" url with
  | Some r => Some (from_slash r)
  | None => from_slash <$> strip_prefix "https://" url
  end.

Lemma from_slash_app host path :
  str_has "/" host = false -> from_slash (host +:+ String "/" path) = String "/" path.
Proof.
  induction host as [|c host IH]; simpl; [done|].
  intros H. apply orb_false_iff in H as [Hc Hh]. rewrite Hc. auto.
Qed.

(** With [API_BASE_URL] an origin [http://host] (the default is
    [http://backend:8000]), a TradingView alert posted to the URL the
    dashboard shows reaches the webhook handler. *)
Lemma webhook_url_routes env host a :
  str_has "/" host = false ->
  getenv env "API_BASE_URL" = Some ("http://" +:+ host) ->
  (fun t => url_route POST t [] (AlertBody a)) <$> url_target (webhook_url env) =
    Some (Routed (Webhook a)).
Proof.
  intros Hh He. unfold webhook_url, api_base_url, url_target. rewrite He. unfold default. cbn [from_option id].
  rewrite string_app_assoc, strip_prefix_app, from_slash_app by done. reflexivity.
Qed.

Lemma default_webhook_url_routes a :
  (fun t => url_route POST t [] (AlertBody a)) <$> url_target (webhook_url []) =
    Some (Routed (Webhook a)).
Proof. reflexivity. Qed.

(** A trailing slash in [API_BASE_URL] doubles the slash of the target,
    which no route matches: the URL answers 404. *)
Lemma trailing_slash_webhook_url_not_found a :
  (fun t => url_route POST t [] (AlertBody a)) <$>
    url_target (webhook_url [("API_BASE_URL", "http://localhost:8000/")]) = Some NotFound.
Proof. reflexivity. Qed.
