(* ===== verification/Docs.v ===== *)
(** * Docs: the documentation page and the alert it tells users to send

    [show_documentation] (frontend lines 337-385) shows the webhook URL and
    a JSON template for TradingView's alert message, with the fields
    [config_name], [user_id], [price] ([{{close}}]), [symbol]
    ([{{ticker}}]) and [message] ([{{strategy.order.comment}}]).  The
    webhook handler reads only the configuration name, the user id and the
    price of an alert: the symbol traded is the configuration's, and the
    template's symbol and message change nothing (C11). *)

From stdpp Require Import base gmap strings list.
From Stdlib Require Import QArith String Ascii ZArith.
From S2P Require Import Prelude Models World Database Gateway Quantity Dispatcher Pipeline Api Pages Startup.
Open Scope string_scope.

(** ** The page *)

Definition nl : string := String (Ascii.ascii_of_nat 10) EmptyString.

(** A JSON string literal of a text without quotes or backslashes. *)
Definition json_str (s : string) : string := dq +:+ s +:+ dq.

(** The [st.code] block of lines 360-368, verbatim. *)
Definition doc_payload_template : string :=
  nl +:+ "    {" +:+ nl +:+
  "        " +:+ json_str "config_name" +:+ ": " +:+ json_str "your_config_name" +:+ "," +:+ nl +:+
  "        " +:+ json_str "user_id" +:+ ": " +:+ json_str "default" +:+ "," +:+ nl +:+
  "        " +:+ json_str "price" +:+ ": {{close}}," +:+ nl +:+
  "        " +:+ json_str "symbol" +:+ ": " +:+ json_str "{{ticker}}" +:+ "," +:+ nl +:+
  "        " +:+ json_str "message" +:+ ": " +:+ json_str "{{strategy.order.comment}}" +:+ nl +:+
  "    }" +:+ nl +:+ "    ".

(** [show_documentation()]: the two code blocks ([st.markdown] text is
    layout). *)
Definition show_documentation (env : Env) : FM unit :=
  show (UiCode (webhook_url env)) ;;;
  show (UiCode doc_payload_template).

(** The alert the template gives once the user has put a configuration
    name in and TradingView has filled [{{close}}], [{{ticker}}] and
    [{{strategy.order.comment}}], as pydantic validates it. *)
Definition doc_alert (name : string) (close : Q) (ticker comment : string) : TradingViewAlertModel := {|
  config_name := name; user_id := "default"; tv_price := Some close;
  tv_volume := None; tv_time := None; tv_exchange := None;
  tv_symbol := Some ticker; tv_message := Some comment; tv_additional_parameters := None
|}.

(** ** What the handler reads of an alert *)

Section AlertFields.
Context `{Fernet} `{Ccxt} `{ExchangeApi}.

(** C11: the webhook handler reads only the configuration name, the user
    id and the price of an alert: two alerts that agree on these give the
    same result and the same next state, whatever their symbol, message,
    exchange, volume, time and additional parameters.  So the [symbol]
    and [message] the documentation page tells users to send change
    nothing: the order is placed on the configuration's symbol. *)
Theorem process_alert_reads_name_user_price a1 a2 w :
  config_name a1 = config_name a2 -> user_id a1 = user_id a2 -> tv_price a1 = tv_price a2 ->
  process_tradingview_alert a1 w = process_tradingview_alert a2 w.
Proof. destruct a1, a2; simpl. intros -> -> ->. reflexivity. Qed.
End AlertFields.

Section AlertFieldsExamples.
#[local] Existing Instances demo_fernet demo_ccxt demo_api.

(** Two filled-in documented alerts on configuration [c1] of the example
    backend, one for [BTCUSDT] and one for [ETHUSDT] with a comment. *)
Lemma process_alert_reads_name_user_price_witness :
  config_name (doc_alert "c1" 65000 "BTCUSDT" "") = config_name (doc_alert "c1" 65000 "ETHUSDT" "exit") /\
  user_id (doc_alert "c1" 65000 "BTCUSDT" "") = user_id (doc_alert "c1" 65000 "ETHUSDT" "exit") /\
  tv_price (doc_alert "c1" 65000 "BTCUSDT" "") = tv_price (doc_alert "c1" 65000 "ETHUSDT" "exit") /\
  process_tradingview_alert (doc_alert "c1" 65000 "BTCUSDT" "") demo_world =
    process_tradingview_alert (doc_alert "c1" 65000 "ETHUSDT" "exit") demo_world.
Proof.
  split; [reflexivity|]. split; [reflexivity|]. split; [reflexivity|].
  apply process_alert_reads_name_user_price; reflexivity.
Defined.
End AlertFieldsExamples.
