(* ===== verification/StoreTyping.v ===== *)
(** * StoreTyping: the shape of the Redis values by key namespace

    The backend keeps three kinds of JSON values in one Redis keyspace and
    tells them apart only by the key.  Through the HTTP API (whose user is
    always ["default"]) the namespaces stay well typed: the keys under
    [user:default:exchange:] hold API keys, those under
    [user:default:alert_config:] configurations and those under [alert:]
    history records.  So a configuration read by the default user's alerts
    is always a configuration, whatever requests, ticks and restarts came
    before.  On such a store every run of the frontend's pages completes:
    [hoare]/[total] triples (total correctness) over the page steps, with
    the configuration listing's entries known to be configurations. *)

From stdpp Require Import base gmap strings list relations.
From Stdlib Require Import QArith String Ascii ZArith.
From S2P Require Import Prelude Models World Database Gateway Quantity Dispatcher Pipeline Api Frontend Pages Streamlit.
Open Scope string_scope.
Open Scope list_scope.

Definition creds_ns : string := "user:default:exchange:".
Definition config_ns : string := "user:default:alert_config:".
Definition history_ns : string := "alert:".

(** A value of the right kind for its key's namespace. *)
Definition key_typed (k : string) (v : Stored) : Prop :=
  (str_prefix creds_ns k = true -> exists a s, v = SCreds a s) /\
  (str_prefix config_ns k = true -> exists c, v = SConfig c) /\
  (str_prefix history_ns k = true -> exists h, v = SHistory h).

Definition store_typed (w : World) : Prop := map_Forall key_typed (w_redis w).

(** ** The keys the backend writes *)

Lemma creds_key_typed e a s : key_typed (creds_key default_user e) (SCreds a s).
Proof.
  unfold creds_key. split; [|split]; intros Hp; [|discriminate..].
  eauto.
Qed.

Lemma config_key_typed n c : key_typed (config_key default_user n) (SConfig c).
Proof.
  unfold config_key. split; [|split]; intros Hp; [discriminate| |discriminate].
  eauto.
Qed.

Lemma history_key_typed u ts h : key_typed (history_key u ts) (SHistory h).
Proof.
  unfold history_key. split; [|split]; intros Hp; [discriminate|discriminate|].
  eauto.
Qed.

Create HintDb typing.
#[export] Hint Resolve creds_key_typed config_key_typed history_key_typed : typing.

(** ** Preservation, operation by operation *)

Lemma preserves_insert k v :
  key_typed k v -> preserves store_typed (modify (set_redis <[k:=v]>)).
Proof. intros Hk w Hw. by apply map_Forall_insert_2. Qed.

Lemma preserves_delete k : preserves store_typed (modify (set_redis (delete k))).
Proof. intros w Hw. by apply map_Forall_delete. Qed.

Lemma preserves_store_kept {A} (m : M A) : within store_kept m -> preserves store_typed m.
Proof. intros Hm w Hw. destruct (Hm w) as (E & _ & _). unfold store_typed. by rewrite E. Qed.

Lemma preserves_clients f : preserves store_typed (modify (set_clients f)).
Proof. by intros w Hw. Qed.

Ltac typed_solve :=
  cbv zeta; preserves_split;
  first
  [ apply preserves_insert; solve [auto with typing]
  | apply preserves_delete
  | apply preserves_store_kept; unfold datetime_now;
    solve [eauto with frame typeclass_instances]
  | idtac ].

Section Typing.
Context `{Fernet} `{Ccxt} `{ExchangeApi}.

Lemma load_configs_typed u keys : preserves store_typed (load_configs u keys).
Proof. apply preserves_store_kept. intros w. unfold final. by rewrite load_configs_run. Qed.

Lemma load_history_typed keys : preserves store_typed (load_history keys).
Proof. apply preserves_store_kept. intros w. unfold final. by rewrite load_history_equiv. Qed.

Lemma handle_store_typed req : preserves store_typed (handle req).
Proof.
  destruct req; simpl;
    unfold read_root, add_api_key, get_api_key_status, remove_api_key, create_alert_config,
      get_config, list_configs, remove_config, get_user_alert_history, list_exchanges, webhook,
      except_500, save_exchange_api_key, encrypt_data, delete_exchange_api_key,
      save_alert_config, get_alert_config, get_all_alert_configs, delete_alert_config,
      get_alert_history, process_tradingview_alert, execute_alert, handle_error,
      save_alert_history, redis_set, redis_delete, redis_get, redis_keys_prefix;
    typed_solve; auto using load_configs_typed, load_history_typed.
Qed.

(** A configuration key of the default user holds a configuration. *)
Lemma config_lookup_typed w n v :
  store_typed w -> w_redis w !! config_key default_user n = Some v -> exists c, v = SConfig c.
Proof.
  intros Hw Hv. apply (Hw _ _ Hv). unfold config_ns, config_key, default_user.
  rewrite <- !string_app_assoc. apply str_prefix_app.
Qed.

Lemma sys_step_store_typed w w' : sys_step w w' -> store_typed w -> store_typed w'.
Proof. intros []; [apply handle_store_typed|done|done]. Qed.

Lemma reachable_typed w w' : rtc sys_step w w' -> store_typed w -> store_typed w'.
Proof. induction 1; eauto using sys_step_store_typed. Qed.

(** C32: from a well-typed store, in every state the server reaches through
    requests, clock ticks and restarts the namespaces stay well typed; in
    particular every value under a configuration key of the default user
    is a configuration, so [config["exchange"]] never raises there. *)
Theorem store_typed_reachable w w' :
  rtc sys_step w w' -> store_typed w ->
  store_typed w' /\
  forall n v, w_redis w' !! config_key default_user n = Some v -> exists c, v = SConfig c.
Proof.
  intros Hs Hw. assert (Hw' : store_typed w') by (by apply (reachable_typed w)).
  split; [done|]. intros n v Hv. by apply (config_lookup_typed w' n).
Qed.
End Typing.

Definition sample_alert_config : AlertConfigModel := {|
  name := "c1"; exchange := BINANCE; symbol := "BTC/USDT"; order_type := MARKET;
  position_side := LONG; quantity := Some (1 # 100)%Q; quantity_percentage := None;
  price := None; stop_loss := None; take_profit := None; description := None
|}.

Section TypingExamples.
#[local] Existing Instances demo_fernet demo_ccxt demo_api.

Lemma store_typed_reachable_witness :
  let w := final (handle (CreateAlertConfig sample_alert_config)) empty_world in
  store_typed w /\
  forall n v, w_redis w !! config_key default_user n = Some v -> exists c, v = SConfig c.
Proof.
  apply (store_typed_reachable empty_world); [apply rtc_once; constructor|].
  apply map_Forall_empty.
Defined.
End TypingExamples.

(** ** The pages complete on a well-typed store *)

Definition front_typed (f : Front) : Prop := store_typed (fe_backend f).
Definition ui_typed (u : Ui) : Prop := front_typed (ui_front u).

(** The entries of a configuration listing are configurations. *)
Definition configs_typed (cs : list (string * Stored)) : Prop :=
  Forall (fun p => exists c, p.2 = SConfig c) cs.

Lemma configs_of_typed w keys :
  store_typed w -> configs_typed (configs_of (w_redis w) default_user keys).
Proof.
  intros Hw. apply Forall_forall. intros [n v] Hin.
  apply list_elem_of_omap in Hin as (key & _ & Hk). simpl in Hk.
  destruct (w_redis w !! config_key default_user (config_name_of_key key)) as [v'|] eqn:E;
    simpl in Hk; [|discriminate].
  injection Hk as <- <-. simpl. by apply (config_lookup_typed w _ _ Hw E).
Qed.

Lemma show_total m : total front_typed (show m).
Proof. by apply total_modify. Qed.

Lemma show_preserves m : preserves front_typed (show m).
Proof. by apply preserves_modify. Qed.

Lemma ui_frame_total {A} (m : UM A) :
  (forall u, exists a u', m u = (Ok a, u') /\ ui_front u' = ui_front u) -> total ui_typed m.
Proof. intros Hm u Hu. destruct (Hm u) as (a & u' & E & F). exists a, u'. split; [done|]. unfold ui_typed. by rewrite F. Qed.

Lemma on_front_hoare {A} P (Q : A -> Front -> Prop) (m : FM A) :
  hoare P m Q -> hoare (fun u => P (ui_front u)) (on_front m) (fun a u => Q a (ui_front u)).
Proof.
  intros Hm u Hu. destruct (Hm _ Hu) as (a & f' & E & Hq).
  exists a, (set_front f' u). unfold on_front. by rewrite E.
Qed.

Lemma on_front_total {A} (m : FM A) : total front_typed m -> total ui_typed (on_front m).
Proof. apply (on_front_hoare front_typed (fun _ => front_typed)). Qed.

Lemma st_button_total key : total ui_typed (st_button key).
Proof. apply ui_frame_total. intros u. by eexists _, _. Qed.

Lemma st_checkbox_total key : total ui_typed (st_checkbox key).
Proof. apply ui_frame_total. intros u. by eexists _, _. Qed.

Lemma rerun_total ev : total ui_typed (modify (rerun ev)).
Proof. by apply total_modify. Qed.

Create HintDb pages.
#[export] Hint Resolve show_total show_preserves preserves_ret total_ret st_button_total
  st_checkbox_total rerun_total : pages.

Ltac pages_total :=
  cbv zeta; total_split; try (preserves_split; eauto with pages); eauto with pages.

Section PagesTotal.
Context `{Fernet} `{Ccxt} `{ExchangeApi}.

Lemma send_preserves req : preserves front_typed (send req).
Proof.
  intros f Hf. unfold final, send. destruct (fe_unreachable f); [done|].
  pose proof (handle_store_typed req (fe_backend f) Hf) as G. unfold final, http in *.
  by destruct (handle req (fe_backend f)).
Qed.
#[local] Hint Resolve send_preserves : pages.

Lemma api_get_total req : total front_typed (api_get req).
Proof. unfold api_get. pages_total. Qed.

Lemma api_post_total req : total front_typed (api_post req).
Proof. unfold api_post. pages_total. Qed.

Lemma api_delete_total req : total front_typed (api_delete req).
Proof. unfold api_delete. pages_total. Qed.
End PagesTotal.

#[export] Hint Resolve api_get_total api_post_total api_delete_total : pages.

Section PagesComplete.
Context `{Fernet} `{Ccxt} `{ExchangeApi}.


Lemma submit_api_keys_total e k s : total front_typed (submit_api_keys e k s).
Proof. unfold submit_api_keys. pages_total. Qed.

Lemma submit_config_total f : total front_typed (submit_config f).
Proof. unfold submit_config. pages_total. Qed.

Lemma exchange_status_total exs : total front_typed (exchange_status exs).
Proof. induction exs; simpl; pages_total. Qed.

(** The selector indexes only within the fetched records. *)
Lemma show_alert_history_total limit choice : total front_typed (show_alert_history limit choice).
Proof.
  unfold show_alert_history. apply total_bind; [apply api_get_total|].
  intros [[| ? ? | ? | ? | ? | ? | [|e es] | ? | ?]|]; try solve [pages_total]. simpl.
  apply total_bind; [|intros; pages_total].
  apply py_getindex_total. rewrite length_map. simpl. case_decide; lia.
Qed.

(** [GET /api/config] lists configurations only. *)
Lemma api_get_list_configs :
  hoare front_typed (api_get ListConfigs)
    (fun r f => front_typed f /\ forall cs, r = Some (RConfigs cs) -> configs_typed cs).
Proof.
  intros f Hf. destruct (fe_unreachable f) as [msg|] eqn:Hu.
  - eexists None, _. split; [unfold api_get, send, try_except, bind; rewrite Hu; reflexivity|].
    split; [done|discriminate].
  - set (w := fe_backend f).
    exists (Some (RConfigs (configs_of (w_redis w) default_user
                             (keys_with_prefix (w_redis w) (config_prefix default_user))))), f.
    split; [|split; [done|intros cs [= <-]; by apply configs_of_typed]].
    rewrite (api_get_ok ListConfigs f (RConfigs (configs_of (w_redis w) default_user
               (keys_with_prefix (w_redis w) (config_prefix default_user)))) w Hu);
      [unfold w; by rewrite set_backend_same|].
    simpl. unfold list_configs, except_500, try_except, get_all_alert_configs, bind,
      redis_keys_prefix, gets. simpl. by rewrite load_configs_run.
Qed.
End PagesComplete.

#[export] Hint Resolve submit_api_keys_total submit_config_total exchange_status_total
  show_alert_history_total : pages.
#[export] Hint Extern 1 (total ui_typed (on_front _)) => apply on_front_total; pages_total : pages.

Section UiComplete.
Context `{Fernet} `{Ccxt} `{ExchangeApi}.

Lemma confirm_flow_total b c act : total ui_typed act -> total ui_typed (confirm_flow b c act).
Proof. intros Ha. unfold confirm_flow. pages_total. Qed.

Lemma delete_keys_action_total ex : total ui_typed (on_front (delete_keys_action ex)).
Proof. apply on_front_total. unfold delete_keys_action. pages_total. Qed.

Lemma delete_config_action_total n : total ui_typed (on_front (delete_config_action n)).
Proof. apply on_front_total. unfold delete_config_action. pages_total. Qed.

#[local] Hint Resolve confirm_flow_total delete_keys_action_total delete_config_action_total : pages.

Lemma config_entries_total idx cs : configs_typed cs -> total ui_typed (config_entries idx cs).
Proof.
  intros Hcs. induction Hcs as [|[n v] cs [c Hc] Hcs IH] in idx |- *; simpl in *; subst; pages_total.
Qed.

Lemma show_alert_configs_total inp : total ui_typed (show_alert_configs inp).
Proof.
  unfold show_alert_configs. apply total_bind; [solve [pages_total]|intros exchanges].
  destruct exchanges as [[]|]; try solve [pages_total].
  destruct exchanges; [solve [pages_total]|].
  apply total_bind; [solve [pages_total]|intros _].
  apply total_bind; [solve [pages_total]|intros _].
  eapply hoare_bind; [apply (on_front_hoare _ _ _ api_get_list_configs)|intros configs].
  intros u [Hu Hc]. revert u Hu. change (total ui_typed (
    match configs with
    | Some (RConfigs ((_ :: _) as cs)) => config_entries 0 cs
    | Some (RConfigs []) | None => on_front (show (UiInfo "No alert configurations found"))
    | Some _ => ret tt
    end)).
  destruct configs as [[]|]; try solve [pages_total].
  destruct configs; [solve [pages_total]|]. by apply config_entries_total, Hc.
Qed.

Lemma app_run_total inp : total ui_typed (app_run inp).
Proof.
  unfold app_run, alert_history_page, show_dashboard.
  destruct (ai_page inp); [pages_total| |apply show_alert_configs_total|pages_total|pages_total].
  unfold show_api_keys. pages_total.
Qed.
End UiComplete.

Lemma app_session_total `{Fernet} `{Ccxt} `{ExchangeApi} runs : total ui_typed (app_session runs).
Proof. induction runs as [|[ev inp] runs IH]; simpl; pages_total. all: apply app_run_total. Qed.

Section FrontendCompletes.
Context `{Fernet} `{Ccxt} `{ExchangeApi}.

(** C39: on any backend state reached through the API (requests, clock
    ticks, restarts) from a well-typed store, such as the empty one, every
    sequence of page runs of the frontend completes without an uncaught
    exception and leaves the store well typed: the only page code that can
    raise, the expander title [config['exchange']] of the configuration
    page, only ever reads configurations, and every HTTP helper catches the
    connection errors. *)
Theorem frontend_runs_complete w0 runs u :
  store_typed w0 -> rtc sys_step w0 (fe_backend (ui_front u)) ->
  exists u', app_session runs u = (Ok tt, u') /\ store_typed (fe_backend (ui_front u')).
Proof.
  intros Hw0 Hr. assert (Hu : ui_typed u) by exact (reachable_typed _ _ Hr Hw0).
  destruct (app_session_total runs u Hu) as ([] & u' & E & Hu'). by exists u'.
Qed.
End FrontendCompletes.

Definition empty_render : Ui := {|
  ui_front := {| fe_backend := empty_world; fe_unreachable := None; fe_shown := [] |};
  ui_prev := empty_session; ui_next := empty_session; ui_event := Elsewhere
|}.

Section FrontendCompletesExamples.
#[local] Existing Instances demo_fernet demo_ccxt demo_api.

Lemma frontend_runs_complete_witness :
  exists u', app_session [(Elsewhere, keys_page_input)] empty_render = (Ok tt, u') /\
             store_typed (fe_backend (ui_front u')).
Proof. apply (frontend_runs_complete empty_world); [apply map_Forall_empty|apply rtc_refl]. Defined.
End FrontendCompletesExamples.
